(** * Verification of [migrate_drive_files.py]

    A shallow embedding of the Drive migration script: the retry decorator,
    the remote helpers, the recursive tree walk [process_item] and the
    manifest loop [process_csv], followed by the properties stated about
    them.

    The remote service is an oracle: every [.execute()] and every
    [next_chunk()] of a media download is one remote call, answered
    according to the number of calls made so far and to the request.  A run
    threads a [World] (call counter and event trace) through a
    state-and-exception monad.

    A character is a code point below 256 ([ascii]), a Python [str] a
    [string] of them. *)

From Stdlib Require Import String Ascii List ZArith Lia Bool Arith DecimalString.
Import ListNotations.
Open Scope string_scope.

Set Implicit Arguments.

(** ** Configuration (lines 14-26) *)

Definition BACKUP_FOLDER_NAME : string := "bak".
Definition MAX_RETRIES : nat := 5.
Definition INITIAL_BACKOFF : Z := 1.

Definition FOLDER_MIME : string := "application/vnd.google-apps.folder".
Definition DEFAULT_FIELDS : string := "name, id, mimeType, owners, parents".

(** ** Python values *)

(** Exceptions the script can see.  [OSError] stands for the class and its
    subclasses ([IOError] is an alias). *)
Inductive Exn : Type :=
| HttpError (status : Z)
| OSError
| NameError (name : string)
| TypeError (msg : string)
| KeyError (key : string)
| Exception (msg : string).

Definition is_HttpError (e : Exn) : bool :=
  match e with HttpError _ => true | _ => false end.

(** A file resource as the API returns it: a dict whose keys may be absent. *)
Record FileResource : Type := {
  f_id : option string;
  f_name : option string;
  f_mimeType : option string;
  f_owners : option (list string);
  f_parents : option (list string)
}.

(** [not d] for a dict: true exactly for the empty dict. *)
Definition dict_is_empty (d : FileResource) : bool :=
  match f_id d, f_name d, f_mimeType d, f_owners d, f_parents d with
  | None, None, None, None, None => true
  | _, _, _, _, _ => false
  end.

(** The answer of [files().list]. *)
Record FileList : Type := {
  nextPageToken : option string;
  files : option (list FileResource)
}.

(** The [body=] argument of [create] and [copy]. *)
Record FileBody : Type := {
  body_name : string;
  body_mimeType : option string;
  body_parents : option (list string)
}.

(** The media object built at lines 188/190. *)
Record Media : Type := {
  media_content : string;
  media_mimetype : option string;
  media_resumable : bool
}.

(** How a media download goes, one entry per [next_chunk()] of the loop of
    lines 176-178: the chunks of the calls that return with [done] false,
    then the call that ends the loop, which returns the last chunk with
    [done] true or raises.  (A transfer that never ends is not described.) *)
Record Download : Type := {
  chunks : list string;
  ending : Exn + string
}.

Inductive Request : Type :=
| FilesGet (fileId fields : string)
| FilesCreate (body : FileBody) (media_body : option Media)
| FilesCopy (fileId : string) (body : FileBody)
| FilesUpdate (fileId addParents removeParents : string)
| FilesList (q : string)
| ExportMedia (fileId mimeType : string)
| GetMedia (fileId : string).

(** The remote service.  The first argument of every method is the number of
    remote calls made before this one; for [media_download], before the
    first [next_chunk()] of the download. *)
Record Service : Type := {
  files_get : nat -> string -> string -> Exn + FileResource;
  files_create : nat -> FileBody -> option Media -> Exn + FileResource;
  files_copy : nat -> string -> FileBody -> Exn + FileResource;
  files_update : nat -> string -> string -> string -> Exn + FileResource;
  files_list : nat -> string -> Exn + FileList;
  media_download : nat -> Request -> Download
}.

(** The module namespace, as far as the script depends on it: line 11 imports
    [MediaIoBaseDownload] and [MediaFileUpload]; lines 188 and 190 refer to
    [MediaIoBaseUpload]. *)
Record Globals : Type := {
  has_MediaIoBaseUpload : bool
}.

(** The namespace the import statements of lines 1-12 build. *)
Definition module_globals : Globals := {| has_MediaIoBaseUpload := false |}.

(** ** Console output, one constructor per [print] site *)

Inductive Diag : Type :=
| Retrying (wait : Z) (attempt : nat)                  (* line 42 *)
| NetworkError (wait : Z)                              (* line 49 *)
| ErrorOccurred (e : Exn)                              (* lines 80, 98, 142, 197 *)
| FolderCreated (name : string) (id : option string)   (* line 95 *)
| NoMetadata (file_id : string)                        (* lines 107, 150 *)
| FileCopied (src : string) (dst id : option string)   (* line 121 *)
| CopyError (file_id : string) (e : Exn)               (* line 125 *)
| FileMoved (file_id new_parent : string)              (* line 139 *)
| DownloadProgress                                     (* line 178 *)
| Reuploaded (name : string) (id : option string)      (* line 193 *)
| SkippingNoMetadata (file_id : string)                (* line 217 *)
| ProcessingFolder (name file_id : string)             (* line 221 *)
| SubfolderError                                       (* line 224 *)
| ListingError (e : Exn)                               (* line 236 *)
| ProcessingFile (name file_id : string)               (* line 245 *)
| CopyFailedTryingDownload                             (* line 248 *)
| FailedToCopy (file_id : string)                      (* line 253 *)
| SkippingRow (url : string)                           (* line 277 *)
| ProcessingRow (file_id url : string)                 (* line 280 *)
| CsvNotFound (csv_file : string)                      (* line 284 *)
| UnexpectedError (e : Exn).                           (* line 286 *)

(** ** Worlds, events and the monad *)

Inductive Event : Type :=
| EvCall (r : Request)          (* a request sent to the service *)
| EvAttempt (name : string)     (* line 37: the decorator invokes [func] *)
| EvSleep (wait : Z)            (* lines 43, 50: [time.sleep], jitter aside *)
| EvPrint (d : Diag).

Record World : Type := {
  calls : nat;
  trace : list Event
}.

Definition initial_world : World := {| calls := 0; trace := [] |}.

Inductive Result (A : Type) : Type :=
| Ret (a : A)
| Raise (e : Exn)
| Timeout.

Arguments Ret {A} a.
Arguments Raise {A} e.
Arguments Timeout {A}.

Definition M (A : Type) : Type := World -> Result A * World.

Definition ret {A} (a : A) : M A := fun w => (Ret a, w).

Definition bind {A B} (m : M A) (k : A -> M B) : M B :=
  fun w =>
    match m w with
    | (Ret a, w') => k a w'
    | (Raise e, w') => (Raise e, w')
    | (Timeout, w') => (Timeout, w')
    end.

Definition raise {A} (e : Exn) : M A := fun w => (Raise e, w).

Definition timeout {A} : M A := fun w => (Timeout, w).

Declare Scope monad_scope.
Delimit Scope monad_scope with monad.
Notation "x <- m ;; k" := (bind m (fun x => k))
  (at level 61, m at next level, right associativity) : monad_scope.
Notation "m ;; k" := (bind m (fun _ => k))
  (at level 61, right associativity) : monad_scope.
Open Scope monad_scope.

Definition log (e : Event) : M unit :=
  fun w => (Ret tt, {| calls := calls w; trace := trace w ++ [e] |}).

Definition print (d : Diag) : M unit := log (EvPrint d).

(** [try: body / except <class> as error: handler]. *)
Definition try_except {A} (body : M A) (catches : Exn -> bool)
    (handler : Exn -> M A) : M A :=
  fun w =>
    match body w with
    | (Raise e, w') => if catches e then handler e w' else (Raise e, w')
    | other => other
    end.

(** One round trip to the service. *)
Definition execute {R} (req : Request) (answer : nat -> Exn + R) : M R :=
  fun w =>
    let w' := {| calls := S (calls w); trace := trace w ++ [EvCall req] |} in
    match answer (calls w) with
    | inl e => (Raise e, w')
    | inr r => (Ret r, w')
    end.

(** [for x in xs: body x]. *)
Fixpoint for_each {A} (body : A -> M unit) (xs : list A) : M unit :=
  match xs with
  | [] => ret tt
  | x :: rest => body x ;; for_each body rest
  end.

(** Truth value of [None] / a string. *)
Definition truthy (o : option string) : bool :=
  match o with
  | Some s => negb (String.eqb s "")
  | None => false
  end.

(** [d[key]]. *)
Definition getitem {A} (key : string) (o : option A) : M A :=
  match o with
  | Some v => ret v
  | None => raise (KeyError key)
  end.

(** ** [retry_with_backoff] (lines 30-53) *)

Definition TRANSIENT_STATUS : list Z := [429; 500; 502; 503; 504]%Z.

(** The exceptions the wrapper answers with a wait and another attempt. *)
Definition retryable (e : Exn) : bool :=
  match e with
  | HttpError status => existsb (Z.eqb status) TRANSIENT_STATUS
  | OSError => true
  | _ => false
  end.

Definition string_of_nat (n : nat) : string :=
  NilEmpty.string_of_uint (Nat.to_uint n).

Definition max_retries_message (name : string) : string :=
  "Max retries (" ++ string_of_nat MAX_RETRIES ++ ") exceeded for " ++ name ++ ".".

Definition wait_time (retries : nat) : Z :=
  (INITIAL_BACKOFF * 2 ^ Z.of_nat retries)%Z.

(** The [while retries < MAX_RETRIES] loop of lines 35-50; [fuel] bounds the
    iterations. *)
Fixpoint wrapper_loop {A} (name : string) (func : M A) (fuel retries : nat)
    : M A :=
  if (retries <? MAX_RETRIES)%nat then
    match fuel with
    | O => timeout
    | S fuel' =>
        fun w =>
          match (log (EvAttempt name) ;; func) w with
          | (Raise (HttpError status), w') =>
              if retryable (HttpError status) then
                (print (Retrying (wait_time (S retries)) (S retries)) ;;
                 log (EvSleep (wait_time (S retries))) ;;
                 wrapper_loop name func fuel' (S retries)) w'
              else (Raise (HttpError status), w')
          | (Raise OSError, w') =>
              (print (NetworkError (wait_time (S retries))) ;;
               log (EvSleep (wait_time (S retries))) ;;
               wrapper_loop name func fuel' (S retries)) w'
          | other => other
          end
    end
  else raise (Exception (max_retries_message name)).

Definition retry_with_backoff {A} (name : string) (func : M A) : M A :=
  wrapper_loop name func MAX_RETRIES 0.

(** ** Python string operations used by the script *)

(** [s.find(sub)]: the index of the first occurrence of [sub], if any. *)
Fixpoint find (sub s : string) : option nat :=
  if prefix sub s then Some 0
  else
    match s with
    | EmptyString => None
    | String _ rest => option_map S (find sub rest)
    end.

(** [sub in s]. *)
Definition contains (sub s : string) : bool :=
  match find sub s with
  | Some _ => true
  | None => false
  end.

(** [s.split(sep)] for a non-empty [sep]: [cur] is the piece being read and
    [skip] the number of characters of a separator still to pass over. *)
Fixpoint split_from (sep : string) (skip : nat) (cur s : string) : list string :=
  match s with
  | EmptyString => [cur]
  | String c rest =>
      match skip with
      | S k => split_from sep k cur rest
      | O =>
          if prefix sep s
          then cur :: split_from sep (String.length sep - 1) "" rest
          else split_from sep 0 (cur ++ String c "") rest
      end
  end.

Definition split (sep s : string) : list string := split_from sep 0 "" s.

(** [c.isspace()], which decides what [str.strip()] removes: among the code
    points below 256 these are the controls 9-13 and 28-31, the space,
    U+0085 (next line) and U+00A0 (no-break space). *)
Definition isspace (c : ascii) : bool :=
  let n := nat_of_ascii c in
  ((9 <=? n) && (n <=? 13) || (28 <=? n) && (n <=? 32)
   || (n =? 133) || (n =? 160))%nat.

Fixpoint lstrip (s : string) : string :=
  match s with
  | String c rest => if isspace c then lstrip rest else s
  | EmptyString => EmptyString
  end.

Fixpoint rstrip (s : string) : string :=
  match s with
  | EmptyString => EmptyString
  | String c rest =>
      match rstrip rest with
      | EmptyString => if isspace c then EmptyString else String c EmptyString
      | kept => String c kept
      end
  end.

(** [s.strip()]. *)
Definition strip (s : string) : string := rstrip (lstrip s).

(** [s.rfind(c)], [-1] when absent. *)
Fixpoint rfind_from (c : ascii) (s : string) (i last : Z) : Z :=
  match s with
  | EmptyString => last
  | String a rest =>
      rfind_from c rest (i + 1)%Z (if Ascii.eqb a c then i else last)
  end.

Definition rfind (c : ascii) (s : string) : Z := rfind_from c s 0%Z (-1)%Z.

(** The loop of [genericpath._splitext] that passes over leading dots: does
    some character of [p[filenameIndex : filenameIndex + n]] differ from
    the dot? *)
Fixpoint has_non_dot (p : string) (filenameIndex n : nat) : bool :=
  match n with
  | O => false
  | S n' =>
      if negb (String.eqb (substring filenameIndex 1 p) ".") then true
      else has_non_dot p (S filenameIndex) n'
  end.

(** [os.path.splitext] (posixpath). *)
Definition splitext (p : string) : string * string :=
  let sepIndex := rfind "/" p in
  let dotIndex := rfind "." p in
  if (dotIndex >? sepIndex)%Z then
    if has_non_dot p (Z.to_nat (sepIndex + 1))
         (Z.to_nat (dotIndex - (sepIndex + 1)))
    then (substring 0 (Z.to_nat dotIndex) p,
          substring (Z.to_nat dotIndex) (String.length p - Z.to_nat dotIndex) p)
    else (p, "")
  else (p, "").

(** ** URL recognition (lines 269-274) *)

Definition FILE_MARKER : string := "drive.google.com/file/d/".
Definition FOLDER_MARKER : string := "drive.google.com/drive/folders/".

Definition extract_file_id (url : string) : option string :=
  if contains FILE_MARKER url then
    Some (nth 0 (split "/" (nth 1 (split FILE_MARKER url) "")) "")
  else if contains FOLDER_MARKER url then
    Some (nth 0 (split "?" (nth 1 (split FOLDER_MARKER url) "")) "")
  else None.

(** ** The remote helpers and the tree walk *)

Section Script.

Variable g : Globals.
Variable svc : Service.

(** [get_file_metadata] (lines 73-81). *)
Definition get_file_metadata (file_id fields : string)
    : M (option FileResource) :=
  retry_with_backoff "get_file_metadata"
    (try_except
       (file <- execute (FilesGet file_id fields)
                  (fun n => files_get svc n file_id fields) ;;
        ret (Some file))
       is_HttpError
       (fun error => print (ErrorOccurred error) ;; ret None)).

(** [not file_metadata]: [None] and the empty dict are false. *)
Definition unavailable (o : option FileResource) : bool :=
  match o with
  | None => true
  | Some d => dict_is_empty d
  end.

(** [create_folder] (lines 83-99). *)
Definition create_folder (folder_name : string) (parent_id : option string)
    : M (option string) :=
  retry_with_backoff "create_folder"
    (let file_metadata :=
       {| body_name := folder_name;
          body_mimeType := Some FOLDER_MIME;
          body_parents :=
            match parent_id with
            | Some p => if truthy parent_id then Some [p] else None
            | None => None
            end |} in
     try_except
       (folder <- execute (FilesCreate file_metadata None)
                    (fun n => files_create svc n file_metadata None) ;;
        print (FolderCreated folder_name (f_id folder)) ;;
        ret (f_id folder))
       is_HttpError
       (fun error => print (ErrorOccurred error) ;; ret None)).

(** [copy_file] (lines 101-126). *)
Definition copy_file (file_id : string) (new_file_name : option string)
    : M (option string) :=
  retry_with_backoff "copy_file"
    (try_except
       (original_file <- get_file_metadata file_id DEFAULT_FIELDS ;;
        match original_file with
        | Some original =>
            if dict_is_empty original then
              print (NoMetadata file_id) ;; ret None
            else
              name <- (match new_file_name with
                       | Some n =>
                           if truthy new_file_name then ret n
                           else getitem "name" (f_name original)
                       | None => getitem "name" (f_name original)
                       end) ;;
              let file_metadata :=
                {| body_name := name; body_mimeType := None;
                   body_parents := None |} in
              copied_file <- execute (FilesCopy file_id file_metadata)
                               (fun n => files_copy svc n file_id file_metadata) ;;
              original_name <- getitem "name" (f_name original) ;;
              print (FileCopied original_name (f_name copied_file)
                       (f_id copied_file)) ;;
              ret (f_id copied_file)
        | None => print (NoMetadata file_id) ;; ret None
        end)
       is_HttpError
       (fun error => print (CopyError file_id error) ;; ret None)).

(** [",".join(file.get('parents'))]. *)
Definition join_parents (parents : option (list string)) : M string :=
  match parents with
  | Some l => ret (String.concat "," l)
  | None => raise (TypeError "can only join an iterable")
  end.

(** [move_file] (lines 128-143). *)
Definition move_file (file_id new_parent_id : string) : M (option string) :=
  retry_with_backoff "move_file"
    (try_except
       (file <- execute (FilesGet file_id "parents")
                  (fun n => files_get svc n file_id "parents") ;;
        previous_parents <- join_parents (f_parents file) ;;
        file <- execute (FilesUpdate file_id new_parent_id previous_parents)
                  (fun n => files_update svc n file_id new_parent_id
                              previous_parents) ;;
        print (FileMoved file_id new_parent_id) ;;
        ret (f_id file))
       is_HttpError
       (fun error => print (ErrorOccurred error) ;; ret None)).

(** The choice of lines 153-165: the export type, if any, and the extension
    of the new name. *)
Definition select_export (mime_type : option string) (original_filename : string)
    : option string * string :=
  match mime_type with
  | Some m =>
      if String.eqb m "application/vnd.google-apps.document" then
        (Some "application/vnd.openxmlformats-officedocument.wordprocessingml.document",
         ".docx")
      else if String.eqb m "application/vnd.google-apps.spreadsheet" then
        (Some "application/vnd.openxmlformats-officedocument.spreadsheetml.sheet",
         ".xlsx")
      else if String.eqb m "application/vnd.google-apps.presentation" then
        (Some "application/vnd.openxmlformats-officedocument.presentationml.presentation",
         ".pptx")
      else (None, snd (splitext original_filename))
  | None => (None, snd (splitext original_filename))
  end.

(** The [while done is False] loop of lines 176-178: every [next_chunk()] is
    a round trip; the chunk it returns is written to the buffer [fh] and
    line 178 prints.  The loop ends with the call that returns [done] true,
    or with the one that raises. *)
Fixpoint download_loop (request : Request) (fh : string) (rest : list string)
    (ending : Exn + string) : M string :=
  match rest with
  | chunk :: rest' =>
      chunk <- execute request (fun _ => inr chunk) ;;
      print DownloadProgress ;;
      download_loop request (fh ++ chunk) rest' ending
  | [] =>
      chunk <- execute request (fun _ => ending) ;;
      print DownloadProgress ;;
      ret (fh ++ chunk)
  end.

(** Lines 173-178: the content of the buffer once the loop has ended. *)
Definition download (request : Request) : M string :=
  fun w =>
    let d := media_download svc (calls w) request in
    download_loop request "" (chunks d) (ending d) w.

(** The reference to [MediaIoBaseUpload] at lines 188 and 190. *)
Definition MediaIoBaseUpload (fh : string) (mimetype : option string)
    (resumable : bool) : M Media :=
  if has_MediaIoBaseUpload g then
    ret {| media_content := fh; media_mimetype := mimetype;
           media_resumable := resumable |}
  else raise (NameError "MediaIoBaseUpload").

(** [download_and_upload_file] (lines 145-202). *)
Definition download_and_upload_file (file_id original_filename : string)
    : M (option string) :=
  retry_with_backoff "download_and_upload_file"
    (original_file <- get_file_metadata file_id DEFAULT_FIELDS ;;
     if unavailable original_file then
       print (NoMetadata file_id) ;; ret None
     else
       let mime_type :=
         match original_file with
         | Some original => f_mimeType original
         | None => None
         end in
       let (export_mime, file_extension) :=
         select_export mime_type original_filename in
       try_except
         (let request :=
            match export_mime with
            | Some em => ExportMedia file_id em
            | None => GetMedia file_id
            end in
          fh <- download request ;;
          let new_file_name :=
            fst (splitext original_filename) ++ file_extension in
          let file_metadata :=
            {| body_name := new_file_name; body_mimeType := None;
               body_parents := None |} in
          media <- (match export_mime with
                    | Some em => MediaIoBaseUpload fh (Some em) true
                    | None => MediaIoBaseUpload fh mime_type true
                    end) ;;
          new_file <- execute (FilesCreate file_metadata (Some media))
                        (fun n => files_create svc n file_metadata (Some media)) ;;
          print (Reuploaded new_file_name (f_id new_file)) ;;
          ret (f_id new_file))
         is_HttpError
         (fun error => print (ErrorOccurred error) ;; ret None)).

(** [list_files_in_folder] (lines 204-212).  The function is declared with
    [(service, folder_id)]; [extra] holds any further positional arguments a
    caller passes through the decorator's [*args]. *)
Definition list_files_in_folder (folder_id : string) (extra : list string)
    : M FileList :=
  retry_with_backoff "list_files_in_folder"
    (match extra with
     | [] =>
         let q := "'" ++ folder_id ++ "' in parents and trashed = false" in
         execute (FilesList q) (fun n => files_list svc n q)
     | _ :: _ =>
         raise (TypeError
                  ("list_files_in_folder() takes 2 positional arguments but "
                   ++ string_of_nat (2 + List.length extra) ++ " were given"))
     end).

(** [results.get('files', [])]. *)
Definition files_or_empty (results : FileList) : list FileResource :=
  match files results with
  | Some l => l
  | None => []
  end.

(** The [while 'nextPageToken' in results] loop of lines 232-234. *)
Fixpoint pagination_loop (fuel : nat) (file_id : string) (results : FileList)
    (items : list FileResource) : M (list FileResource) :=
  match nextPageToken results with
  | Some token =>
      match fuel with
      | O => timeout
      | S fuel' =>
          results' <- list_files_in_folder file_id [token] ;;
          pagination_loop fuel' file_id results'
            (items ++ files_or_empty results')
      end
  | None => ret items
  end.

(** Lines 227-237: [Some items] when the listing went through, [None] when
    the [except HttpError] clause made [process_item] return. *)
Definition list_children (fuel : nat) (file_id : string)
    : M (option (list FileResource)) :=
  try_except
    (results <- list_files_in_folder file_id [] ;;
     items <- pagination_loop fuel file_id results (files_or_empty results) ;;
     ret (Some items))
    is_HttpError
    (fun error => print (ListingError error) ;; ret None).

(** Lines 245-256, the branch of [process_item] for anything but a folder. *)
Definition process_file (file_metadata : FileResource)
    (file_id backup_folder_id : string) : M unit :=
  name <- getitem "name" (f_name file_metadata) ;;
  print (ProcessingFile name file_id) ;;
  copied_file_id <- copy_file file_id None ;;
  copied_file_id <-
    (if negb (truthy copied_file_id) then
       print CopyFailedTryingDownload ;;
       file_name <- getitem "name" (f_name file_metadata) ;;
       download_and_upload_file file_id file_name
     else ret copied_file_id) ;;
  if negb (truthy copied_file_id) then
    print (FailedToCopy file_id) ;; ret tt
  else
    move_file file_id backup_folder_id ;; ret tt.

(** [process_item] (lines 213-256); [fuel] bounds the depth of the walk. *)
Fixpoint process_item (fuel : nat) (file_id backup_folder_id : string)
    : M unit :=
  match fuel with
  | O => timeout
  | S fuel' =>
      file_metadata <- get_file_metadata file_id DEFAULT_FIELDS ;;
      match file_metadata with
      | None => print (SkippingNoMetadata file_id) ;; ret tt
      | Some md =>
          if dict_is_empty md then
            print (SkippingNoMetadata file_id) ;; ret tt
          else
            mime <- getitem "mimeType" (f_mimeType md) ;;
            if String.eqb mime FOLDER_MIME then
              name <- getitem "name" (f_name md) ;;
              print (ProcessingFolder name file_id) ;;
              name <- getitem "name" (f_name md) ;;
              new_folder_id <- create_folder name (Some backup_folder_id) ;;
              match new_folder_id with
              | Some new_id =>
                  if truthy new_folder_id then
                    listing <- list_children fuel file_id ;;
                    match listing with
                    | Some items =>
                        for_each
                          (fun item =>
                             id <- getitem "id" (f_id item) ;;
                             process_item fuel' id new_id)
                          items ;;
                        move_file file_id backup_folder_id ;;
                        ret tt
                    | None => ret tt
                    end
                  else print SubfolderError ;; ret tt
              | None => print SubfolderError ;; ret tt
              end
            else process_file md file_id backup_folder_id
      end
  end.

(** The loop body of lines 239-240. *)
Definition process_child (fuel : nat) (new_id : string) (item : FileResource)
    : M unit :=
  id <- getitem "id" (f_id item) ;;
  process_item fuel id new_id.

(** ** The manifest loop (lines 258-286) *)

(** The body of [for row in reader] (lines 266-281). *)
Definition process_row (fuel : nat) (backup_folder_id : string)
    (row : list string) : M unit :=
  if (List.length row <=? 1)%nat then ret tt
  else
    let url := strip (nth 1 row "") in
    let file_id := extract_file_id url in
    match file_id with
    | Some id =>
        if truthy file_id then
          print (ProcessingRow id url) ;;
          process_item fuel id backup_folder_id
        else print (SkippingRow url) ;; ret tt
    | None => print (SkippingRow url) ;; ret tt
    end.

(** [process_csv]: [contents] is what [csv.reader] yields for the file, or
    [None] when [open] raises [FileNotFoundError]. *)
Definition process_csv (fuel : nat) (csv_file : string)
    (contents : option (list (list string))) (backup_folder_id : string)
    : M unit :=
  match contents with
  | None => print (CsvNotFound csv_file)
  | Some reader =>
      try_except
        (for_each (process_row fuel backup_folder_id) (tl reader))
        (fun _ => true)
        (fun e => print (UnexpectedError e))
  end.

End Script.

(** ** Vocabulary of the properties *)

Definition is_attempt (name : string) (e : Event) : bool :=
  match e with
  | EvAttempt n => String.eqb n name
  | _ => false
  end.

(** How many times the decorator of [name] has invoked its function. *)
Definition attempts (name : string) (t : list Event) : nat :=
  List.length (filter (is_attempt name) t).

Definition event_ok (ok : Request -> bool) (e : Event) : bool :=
  match e with
  | EvCall r => ok r
  | _ => true
  end.

(** Every run of [m] only appends events, and every request among them
    satisfies [ok]. *)
Definition sends_only {A} (ok : Request -> bool) (m : M A) : Prop :=
  forall w r w',
    m w = (r, w') ->
    exists t, trace w' = (trace w ++ t)%list /\ forallb (event_ok ok) t = true.

(** The request that relocates an item. *)
Definition is_relocation (r : Request) : bool :=
  match r with
  | FilesUpdate _ _ _ => true
  | _ => false
  end.

Definition not_relocation (r : Request) : bool := negb (is_relocation r).

(** The event of sending such a request. *)
Definition relocation_event (e : Event) : bool :=
  match e with
  | EvCall r => is_relocation r
  | _ => false
  end.

(** A helper returned an identifier that [if not copied_file_id] accepts. *)
Definition yields_id (r : Result (option string)) : bool :=
  match r with
  | Ret o => truthy o
  | _ => false
  end.

Definition is_none {A} (o : option A) : bool :=
  match o with
  | None => true
  | Some _ => false
  end.

(** What the file branch of [process_item] may send for [file_id]: a
    [create] whose body has neither parents nor a mime type, and a
    relocation of [file_id] itself into [backup]. *)
Definition file_branch_ok (file_id backup : string) (r : Request) : bool :=
  match r with
  | FilesCreate body _ => is_none (body_parents body) && is_none (body_mimeType body)
  | FilesUpdate id added _ => String.eqb id file_id && String.eqb added backup
  | _ => true
  end.

(** The listing did not deliver the children. *)
Definition listing_failed (rl : Result (option (list FileResource))) : bool :=
  match rl with
  | Ret (Some _) => false
  | _ => true
  end.

(** [body] was run on the elements of the list in order, each run returning
    normally and handing its world to the next. *)
Inductive returned_in_order {A} (body : A -> M unit)
    : list A -> World -> World -> Prop :=
| returned_nil : forall w, returned_in_order body [] w w
| returned_cons : forall x xs w w1 w2,
    body x w = (Ret tt, w1) ->
    returned_in_order body xs w1 w2 ->
    returned_in_order body (x :: xs) w w2.

(** The request relocates, respectively duplicates, the item [id]. *)
Definition relocates (id : string) (e : Event) : bool :=
  match e with
  | EvCall (FilesUpdate i _ _) => String.eqb i id
  | _ => false
  end.

Definition duplicates (id : string) (e : Event) : bool :=
  match e with
  | EvCall (FilesCopy i _) => String.eqb i id
  | EvCall (FilesCreate _ (Some _)) => true
  | _ => false
  end.

(** The claim as stated, read on the trace of a run: if the folder is
    relocated, every listed child was duplicated and relocated. *)
Definition children_migrated_before_folder (t : list Event) (folder : string)
    (children : list string) : Prop :=
  existsb (relocates folder) t = true ->
  forall c, In c children ->
    existsb (duplicates c) t = true /\ existsb (relocates c) t = true.

(** The row for [id] was reached (line 280). *)
Definition attempts_row (id : string) (e : Event) : bool :=
  match e with
  | EvPrint (ProcessingRow i _) => String.eqb i id
  | _ => false
  end.

(** The claim as stated, read on the trace of a run of [process_csv]: every
    data row that yields an identifier is attempted. *)
Definition every_row_attempted (t : list Event) (reader : list (list string))
    : Prop :=
  forall row id,
    In row (tl reader) ->
    (1 <? List.length row)%nat = true ->
    extract_file_id (strip (nth 1 row "")) = Some id ->
    truthy (Some id) = true ->
    existsb (attempts_row id) t = true.

Fixpoint has_char (c : ascii) (s : string) : bool :=
  match s with
  | EmptyString => false
  | String a rest => Ascii.eqb a c || has_char c rest
  end.

(** Both markers begin with the host name, so a marker cannot start inside
    text that has no dot and is followed by [/], by [?] or by nothing. *)
Definition ends_identifier (t : string) : Prop :=
  match t with
  | EmptyString => True
  | String c _ => c = "/"%char \/ c = "?"%char
  end.

(** The claim as stated: the shapes [.../file/d/<id>/...] and
    [.../folders/<id>?...], whatever precedes them. *)
Definition shapes_yield_identifier : Prop :=
  (forall p id rest,
     has_char "/" id = false -> has_char "." id = false ->
     extract_file_id (p ++ "file/d/" ++ id ++ "/" ++ rest) = Some id)
  /\ (forall p id query,
        has_char "?" id = false -> has_char "." id = false ->
        extract_file_id (p ++ "folders/" ++ id ++ "?" ++ query) = Some id).

(** ** Scenarios *)

Definition resource (id name mime : string) : FileResource :=
  {| f_id := Some id; f_name := Some name; f_mimeType := Some mime;
     f_owners := None; f_parents := Some ["root"] |}.

Definition just_id (id : string) : FileResource :=
  {| f_id := Some id; f_name := None; f_mimeType := None;
     f_owners := None; f_parents := None |}.

(** A service that answers every request with HTTP 503 (and every download
    with the same error). *)
Definition service_unavailable : Service :=
  {| files_get := fun _ _ _ => inl (HttpError 503);
     files_create := fun _ _ _ => inl (HttpError 503);
     files_copy := fun _ _ _ => inl (HttpError 503);
     files_update := fun _ _ _ _ => inl (HttpError 503);
     files_list := fun _ _ => inl (HttpError 503);
     media_download :=
       fun _ _ => {| chunks := []; ending := inl (HttpError 503) |} |}.

(** A healthy service, except that [copy] is answered with HTTP 503. *)
Definition service_copy_unavailable : Service :=
  {| files_get := fun _ id _ => inr (resource id "notes.txt" "text/plain");
     files_create := fun _ _ _ => inr (just_id "NEW");
     files_copy := fun _ _ _ => inl (HttpError 503);
     files_update := fun _ id _ _ => inr (just_id id);
     files_list := fun _ _ => inr {| nextPageToken := None; files := Some [] |};
     media_download := fun _ _ => {| chunks := []; ending := inr "data" |} |}.

(** A folder [D1] whose listing comes in two pages. *)
Definition service_two_pages : Service :=
  {| files_get :=
       fun _ id _ =>
         if String.eqb id "D1" then inr (resource "D1" "Docs" FOLDER_MIME)
         else inr (resource id "notes.txt" "text/plain");
     files_create := fun _ _ _ => inr (just_id "MIRROR");
     files_copy := fun _ _ _ => inr (just_id "COPY");
     files_update := fun _ id _ _ => inr (just_id id);
     files_list :=
       fun n _ =>
         if (n <=? 2)%nat then
           inr {| nextPageToken := Some "PAGE2";
                  files := Some [resource "A" "a.txt" "text/plain"] |}
         else
           inr {| nextPageToken := None;
                  files := Some [resource "B" "b.txt" "text/plain"] |};
     media_download := fun _ _ => {| chunks := []; ending := inr "data" |} |}.

(** A service on which every request succeeds. *)
Definition service_healthy : Service :=
  {| files_get := fun _ id _ => inr (resource id "notes.txt" "text/plain");
     files_create := fun _ _ _ => inr (just_id "NEW");
     files_copy := fun _ _ _ => inr (just_id "COPY");
     files_update := fun _ id _ _ => inr (just_id id);
     files_list := fun _ _ => inr {| nextPageToken := None; files := Some [] |};
     media_download := fun _ _ => {| chunks := []; ending := inr "data" |} |}.

(** The namespace in which line 11 would also import [MediaIoBaseUpload]. *)
Definition globals_with_upload : Globals := {| has_MediaIoBaseUpload := true |}.

(** A Google document [DOC1], on a service where every request succeeds. *)
Definition service_document : Service :=
  {| files_get :=
       fun _ id _ =>
         inr (resource id "Report.v2" "application/vnd.google-apps.document");
     files_create := fun _ _ _ => inr (just_id "NEW");
     files_copy := fun _ _ _ => inr (just_id "COPY");
     files_update := fun _ id _ _ => inr (just_id id);
     files_list := fun _ _ => inr {| nextPageToken := None; files := Some [] |};
     media_download := fun _ _ => {| chunks := ["PK"]; ending := inr "data" |} |}.

(** A folder [D1] with one child [C1] whose metadata cannot be read. *)
Definition service_lost_child : Service :=
  {| files_get :=
       fun _ id _ =>
         if String.eqb id "D1" then inr (resource "D1" "Docs" FOLDER_MIME)
         else inl (HttpError 404);
     files_create := fun _ _ _ => inr (just_id "MIRROR");
     files_copy := fun _ _ _ => inr (just_id "COPY");
     files_update := fun _ id _ _ => inr (just_id id);
     files_list :=
       fun _ _ =>
         inr {| nextPageToken := None;
                files := Some [resource "C1" "a.txt" "text/plain"] |};
     media_download := fun _ _ => {| chunks := []; ending := inr "data" |} |}.

Definition manifest_two_files : list (list string) :=
  [ ["name"; "url"];
    ["first"; "https://drive.google.com/file/d/F1/view"];
    ["second"; "https://drive.google.com/file/d/F2/view"] ].

(** ** The entry point (lines 288-314) *)

Definition CSV_FILE : string := "files_to_migrate.csv".

(** The query of line 297. *)
Definition BACKUP_QUERY : string :=
  "mimeType = 'application/vnd.google-apps.folder' and name = '"
  ++ BACKUP_FOLDER_NAME ++ "' and 'root' in parents and trashed = false".

(** The lines [main] itself prints. *)
Inductive MainLine : Type :=
| ServiceInitFailed                        (* line 292 *)
| BackupExists (backup_folder_id : string) (* line 303 *)
| BackupCreateFailed                       (* line 307 *)
| BackupCheckFailed (e : Exn)              (* line 310 *)
| ScriptFinished.                          (* line 314 *)

(** Lines 296-311: the backup folder to use together with the line printed
    on the way, or the line printed before [main] returns without one. *)
Definition find_or_create_backup (svc : Service)
    : M (string * list MainLine + MainLine) :=
  try_except
    (response <- execute (FilesList BACKUP_QUERY)
                   (fun n => files_list svc n BACKUP_QUERY) ;;
     match files_or_empty response with
     | first :: _ =>
         backup_folder_id <- getitem "id" (f_id first) ;;
         ret (inl (backup_folder_id, [BackupExists backup_folder_id]))
     | [] =>
         backup_folder_id <- create_folder svc BACKUP_FOLDER_NAME None ;;
         match backup_folder_id with
         | Some id =>
             if truthy backup_folder_id then ret (inl (id, []))
             else ret (inr BackupCreateFailed)
         | None => ret (inr BackupCreateFailed)
         end
     end)
    is_HttpError
    (fun error => ret (inr (BackupCheckFailed error))).

(** [main]: [service] is what [get_drive_service] returned, [contents] what
    the manifest holds; the result lists the lines [main] itself printed. *)
Definition main (g : Globals) (service : option Service) (fuel : nat)
    (contents : option (list (list string))) : M (list MainLine) :=
  match service with
  | None => ret [ServiceInitFailed]
  | Some svc =>
      backup <- find_or_create_backup svc ;;
      match backup with
      | inl (backup_folder_id, printed) =>
          process_csv g svc fuel CSV_FILE contents backup_folder_id ;;
          ret (printed ++ [ScriptFinished])%list
      | inr line => ret [line]
      end
  end.

(** ** Further vocabulary *)

(** The waits of a run, in order. *)
Fixpoint sleeps (t : list Event) : list Z :=
  match t with
  | [] => []
  | EvSleep wait :: rest => wait :: sleeps rest
  | _ :: rest => sleeps rest
  end.

(** The requests of a run, in order. *)
Fixpoint requests (t : list Event) : list Request :=
  match t with
  | [] => []
  | EvCall r :: rest => r :: requests rest
  | _ :: rest => requests rest
  end.

(** No run of [m] makes more than [c] remote calls. *)
Definition at_most {A} (c : nat) (m : M A) : Prop :=
  forall w, calls (snd (m w)) <= calls w + c.

(** From [w] to [w'] exactly the requests [sent] were made, in this order. *)
Definition steps (w w' : World) (sent : list Request) : Prop :=
  calls w' = calls w + List.length sent
  /\ requests (trace w') = (requests (trace w) ++ sent)%list.

(** The code points for which [str.isspace()] holds, below 256. *)
Definition WHITESPACE : list nat :=
  [9; 10; 11; 12; 13; 28; 29; 30; 31; 32; 133; 160].

(** A string of whitespace. *)
Fixpoint all_space (s : string) : bool :=
  match s with
  | EmptyString => true
  | String c rest => isspace c && all_space rest
  end.

(** The media request of lines 168-171. *)
Definition media_request (file_id : string) (export_mime : option string)
    : Request :=
  match export_mime with
  | Some mime => ExportMedia file_id mime
  | None => GetMedia file_id
  end.

(** The type given to the upload at lines 187-190. *)
Definition upload_mimetype (export_mime mime_type : option string)
    : option string :=
  match export_mime with
  | Some mime => Some mime
  | None => mime_type
  end.

(** The content of the buffer when the loop of lines 176-178 has received
    [parts] and then [last]. *)
Definition buffer (parts : list string) (last : string) : string :=
  fold_left append parts "" ++ last.

(** A request that uploads content. *)
Definition is_upload (r : Request) : bool :=
  match r with
  | FilesCreate _ (Some _) => true
  | _ => false
  end.

Definition not_upload (r : Request) : bool := negb (is_upload r).

(** A request that names a destination names a non-empty one: a relocation
    its new parent, the creation of a folder its only parent. *)
Definition names_destination (r : Request) : bool :=
  match r with
  | FilesUpdate _ added _ => negb (String.eqb added "")
  | FilesCreate body None =>
      match body_parents body with
      | Some [parent] => negb (String.eqb parent "")
      | _ => false
      end
  | _ => true
  end.

(** A service whose listing fails twice with HTTP 503 before it answers. *)
Definition service_flaky_listing : Service :=
  {| files_get := fun _ id _ => inr (resource id "notes.txt" "text/plain");
     files_create := fun _ _ _ => inr (just_id "NEW");
     files_copy := fun _ _ _ => inr (just_id "COPY");
     files_update := fun _ id _ _ => inr (just_id id);
     files_list :=
       fun n _ =>
         if (n <? 2)%nat then inl (HttpError 503)
         else inr {| nextPageToken := None;
                     files := Some [resource "A" "a.txt" "text/plain"] |};
     media_download := fun _ _ => {| chunks := []; ending := inr "data" |} |}.

(** An item for which the service reports no parents. *)
Definition service_no_parents : Service :=
  {| files_get :=
       fun _ id fields =>
         if String.eqb fields "parents" then inr (just_id id)
         else inr (resource id "notes.txt" "text/plain");
     files_create := fun _ _ _ => inr (just_id "NEW");
     files_copy := fun _ _ _ => inr (just_id "COPY");
     files_update := fun _ id _ _ => inr (just_id id);
     files_list := fun _ _ => inr {| nextPageToken := None; files := Some [] |};
     media_download := fun _ _ => {| chunks := []; ending := inr "data" |} |}.

(** A drive that already holds a backup folder [BAK0]. *)
Definition service_with_backup : Service :=
  {| files_get := fun _ id _ => inr (resource id "notes.txt" "text/plain");
     files_create := fun _ _ _ => inr (just_id "NEW");
     files_copy := fun _ _ _ => inr (just_id "COPY");
     files_update := fun _ id _ _ => inr (just_id id);
     files_list :=
       fun _ _ =>
         inr {| nextPageToken := None;
                files := Some [resource "BAK0" "bak" FOLDER_MIME;
                               resource "BAK1" "bak" FOLDER_MIME] |};
     media_download := fun _ _ => {| chunks := []; ending := inr "data" |} |}.

(** An empty folder [D0]; the answer to its listing has no [files] key. *)
Definition service_with_folder : Service :=
  {| files_get := fun _ id _ => inr (resource id "Empty" FOLDER_MIME);
     files_create := fun _ _ _ => inr (just_id "MIRROR");
     files_copy := fun _ _ _ => inr (just_id "COPY");
     files_update := fun _ id _ _ => inr (just_id id);
     files_list := fun _ _ => inr {| nextPageToken := None; files := None |};
     media_download := fun _ _ => {| chunks := []; ending := inr "data" |} |}.

(** A service whose metadata answers hold an identifier and nothing else. *)
Definition service_nameless : Service :=
  {| files_get := fun _ id _ => inr (just_id id);
     files_create := fun _ _ _ => inr (just_id "NEW");
     files_copy := fun _ _ _ => inr (just_id "COPY");
     files_update := fun _ id _ _ => inr (just_id id);
     files_list := fun _ _ => inr {| nextPageToken := None; files := Some [] |};
     media_download := fun _ _ => {| chunks := []; ending := inr "data" |} |}.

(** A file that can be read once and is not found afterwards. *)
Definition service_vanishing : Service :=
  {| files_get :=
       fun n id _ =>
         if (n =? 0)%nat then inr (resource id "notes.txt" "text/plain")
         else inl (HttpError 404);
     files_create := fun _ _ _ => inr (just_id "NEW");
     files_copy := fun _ _ _ => inr (just_id "COPY");
     files_update := fun _ id _ _ => inr (just_id id);
     files_list := fun _ _ => inr {| nextPageToken := None; files := Some [] |};
     media_download := fun _ _ => {| chunks := []; ending := inr "data" |} |}.

(** A service whose downloads break off with a transport failure after two
    chunks. *)
Definition service_interrupted : Service :=
  {| files_get := fun _ id _ => inr (resource id "notes.txt" "text/plain");
     files_create := fun _ _ _ => inr (just_id "NEW");
     files_copy := fun _ _ _ => inl (HttpError 503);
     files_update := fun _ id _ _ => inr (just_id id);
     files_list := fun _ _ => inr {| nextPageToken := None; files := Some [] |};
     media_download :=
       fun _ _ => {| chunks := ["da"; "ta"]; ending := inl OSError |} |}.

(** A service whose every answer is a transport failure. *)
Definition service_offline : Service :=
  {| files_get := fun _ _ _ => inl OSError;
     files_create := fun _ _ _ => inl OSError;
     files_copy := fun _ _ _ => inl OSError;
     files_update := fun _ _ _ _ => inl OSError;
     files_list := fun _ _ => inl OSError;
     media_download := fun _ _ => {| chunks := []; ending := inl OSError |} |}.

(** * Properties *)

Open Scope list_scope.

(** ** The string operations on examples *)

Example split_commas : split "," "a,b,,c," = ["a"; "b"; ""; "c"; ""].
Proof. reflexivity. Qed.

Example split_long_sep : split "ab" "xabyabab" = ["x"; "y"; ""; ""].
Proof. reflexivity. Qed.

Example splitext_plain : splitext "report.txt" = ("report", ".txt").
Proof. reflexivity. Qed.

Example splitext_hidden : splitext ".bashrc" = (".bashrc", "").
Proof. reflexivity. Qed.

Example splitext_dir_dot : splitext "a/b.c/d" = ("a/b.c/d", "").
Proof. reflexivity. Qed.

Example splitext_two : splitext "archive.tar.gz" = ("archive.tar", ".gz").
Proof. reflexivity. Qed.

Example strip_both : strip "  a b	" = "a b".
Proof. reflexivity. Qed.

Example extract_file_example :
  extract_file_id "https://drive.google.com/file/d/ABC123/view" = Some "ABC123".
Proof. reflexivity. Qed.

Example extract_folder_example :
  extract_file_id "https://drive.google.com/drive/folders/XYZ789?usp=sharing"
  = Some "XYZ789".
Proof. reflexivity. Qed.

(** ** Basic facts about the monad *)

Lemma bind_ret_l : forall A B (a : A) (k : A -> M B) w, bind (ret a) k w = k a w.
Proof. reflexivity. Qed.

Lemma bind_Ret : forall A B (m : M A) (k : A -> M B) w a w',
  m w = (Ret a, w') -> bind m k w = k a w'.
Proof. intros A B m k w a w' H. unfold bind. now rewrite H. Qed.

Lemma bind_Raise : forall A B (m : M A) (k : A -> M B) w e w',
  m w = (Raise e, w') -> bind m k w = (Raise e, w').
Proof. intros A B m k w e w' H. unfold bind. now rewrite H. Qed.

Lemma bind_Timeout : forall A B (m : M A) (k : A -> M B) w w',
  m w = (Timeout, w') -> bind m k w = (Timeout, w').
Proof. intros A B m k w w' H. unfold bind. now rewrite H. Qed.

(** A [bind] that returns went through both of its halves. *)
Lemma bind_inv_Ret : forall A B (m : M A) (k : A -> M B) w b w',
  bind m k w = (Ret b, w') ->
  exists a w1, m w = (Ret a, w1) /\ k a w1 = (Ret b, w').
Proof.
  intros A B m k w b w'. unfold bind.
  destruct (m w) as [[a | e |] w1]; intro H; try discriminate.
  now exists a, w1.
Qed.

(** ** Counting the attempts of a decorated function *)

Lemma attempts_app : forall name t1 t2,
  attempts name (t1 ++ t2) = attempts name t1 + attempts name t2.
Proof.
  intros. unfold attempts. now rewrite filter_app, length_app.
Qed.

Lemma attempts_log_attempt : forall name w,
  attempts name (trace (snd (log (EvAttempt name) w)))
  = S (attempts name (trace w)).
Proof.
  intros. simpl. rewrite attempts_app. unfold attempts at 2. simpl.
  rewrite String.eqb_refl. simpl. lia.
Qed.

Lemma print_sleep_then : forall A d wait (m : M A) w,
  (print d ;; log (EvSleep wait) ;; m) w
  = m {| calls := calls w;
         trace := (trace w ++ [EvPrint d]) ++ [EvSleep wait] |}.
Proof. reflexivity. Qed.

(** One turn of the [while] loop of the decorator. *)
Lemma wrapper_loop_step : forall A name (func : M A) fuel retries w,
  retries < MAX_RETRIES ->
  wrapper_loop name func (S fuel) retries w
  = match func {| calls := calls w; trace := trace w ++ [EvAttempt name] |} with
    | (Raise (HttpError status), w') =>
        if retryable (HttpError status) then
          (print (Retrying (wait_time (S retries)) (S retries)) ;;
           log (EvSleep (wait_time (S retries))) ;;
           wrapper_loop name func fuel (S retries)) w'
        else (Raise (HttpError status), w')
    | (Raise OSError, w') =>
        (print (NetworkError (wait_time (S retries))) ;;
         log (EvSleep (wait_time (S retries))) ;;
         wrapper_loop name func fuel (S retries)) w'
    | other => other
    end.
Proof.
  intros A name func fuel retries w Hlt. cbn [wrapper_loop].
  replace (retries <? MAX_RETRIES)%nat with true
    by (symmetry; apply Nat.ltb_lt; exact Hlt).
  reflexivity.
Qed.

Lemma wrapper_loop_exhausted : forall A name (func : M A) fuel retries w,
  MAX_RETRIES <= retries ->
  wrapper_loop name func fuel retries w
  = (Raise (Exception (max_retries_message name)), w).
Proof.
  intros A name func fuel retries w Hle.
  destruct fuel; cbn [wrapper_loop];
    replace (retries <? MAX_RETRIES)%nat with false
      by (symmetry; apply Nat.ltb_ge; exact Hle);
    reflexivity.
Qed.

Section RetryPolicy.

Variable A : Type.
Variable name : string.
Variable func : M A.

(** The function does not re-enter its own decorator. *)
Hypothesis func_quiet : forall w,
  attempts name (trace (snd (func w))) = attempts name (trace w).

Lemma wrapper_loop_transient : forall fuel retries w,
  (forall w0, exists e w1, func w0 = (Raise e, w1) /\ retryable e = true) ->
  retries + fuel = MAX_RETRIES ->
  exists w',
    wrapper_loop name func fuel retries w
    = (Raise (Exception (max_retries_message name)), w')
    /\ attempts name (trace w') = attempts name (trace w) + fuel.
Proof.
  intros fuel retries w Htr. revert retries w.
  induction fuel as [| fuel IH]; intros retries w Hsum.
  - exists w. rewrite wrapper_loop_exhausted by lia.
    split; [reflexivity | lia].
  - rewrite wrapper_loop_step by lia.
    set (w0 := {| calls := calls w; trace := trace w ++ [EvAttempt name] |}).
    destruct (Htr w0) as (e & w1 & Hf & Hre).
    assert (Hcount : attempts name (trace w1) = S (attempts name (trace w))).
    { pose proof (func_quiet w0) as Hq. rewrite Hf in Hq. simpl in Hq.
      rewrite Hq. apply (attempts_log_attempt name w). }
    rewrite Hf.
    destruct e as [status | | n | m | k | m]; try discriminate Hre;
      try rewrite Hre; rewrite print_sleep_then;
      match goal with
      | |- context [wrapper_loop name func fuel (S retries) ?w2] =>
          destruct (IH (S retries) w2 ltac:(lia)) as (w' & Hrun & Hatt)
      end;
      exists w'; (split; [exact Hrun |]);
      rewrite Hatt; cbn [trace]; rewrite !attempts_app, Hcount;
      unfold attempts at 2 3; simpl; lia.
Qed.

Lemma wrapper_permanent : forall w e w1,
  func (snd (log (EvAttempt name) w)) = (Raise e, w1) ->
  retryable e = false ->
  retry_with_backoff name func w = (Raise e, w1)
  /\ attempts name (trace w1) = attempts name (trace w) + 1.
Proof.
  intros w e w1 Hf Hre. split.
  - unfold retry_with_backoff. change MAX_RETRIES with 5 at 1.
    rewrite wrapper_loop_step by (unfold MAX_RETRIES; lia).
    cbn [log snd] in Hf. rewrite Hf. destruct e; try reflexivity.
    + now rewrite Hre.
    + discriminate Hre.
  - pose proof (func_quiet (snd (log (EvAttempt name) w))) as Hq.
    rewrite Hf in Hq. simpl snd in Hq at 1. rewrite Hq.
    rewrite attempts_log_attempt. lia.
Qed.

End RetryPolicy.

(** C3.  A decorated operation that fails with a transient error (HTTP 429,
    500, 502, 503, 504, or [OSError]) at every attempt is invoked exactly
    [MAX_RETRIES] times, after which the decorator raises the exception
    "Max retries (5) exceeded for <name>."; one that raises any other
    exception at its first attempt is invoked exactly once and that very
    exception propagates. *)
Theorem retry_policy_attempt_count :
  forall (A : Type) (name : string) (func : M A) (w : World),
    (forall w0, attempts name (trace (snd (func w0))) = attempts name (trace w0)) ->
    ((forall w0, exists e w1, func w0 = (Raise e, w1) /\ retryable e = true) ->
     exists w',
       retry_with_backoff name func w
       = (Raise (Exception (max_retries_message name)), w')
       /\ attempts name (trace w') = attempts name (trace w) + MAX_RETRIES)
    /\ (forall e w1,
          func (snd (log (EvAttempt name) w)) = (Raise e, w1) ->
          retryable e = false ->
          retry_with_backoff name func w = (Raise e, w1)
          /\ attempts name (trace w1) = attempts name (trace w) + 1)
    /\ max_retries_message name
       = ("Max retries (5) exceeded for " ++ name ++ ".")%string.
Proof.
  intros A name func w Hquiet. repeat split.
  - intro Htr. unfold retry_with_backoff.
    apply wrapper_loop_transient; [exact Hquiet | exact Htr | reflexivity].
  - eapply wrapper_permanent; eassumption.
  - eapply wrapper_permanent; eassumption.
Qed.

Lemma retry_policy_attempt_count_witness :
  (exists w',
     retry_with_backoff "op" (raise OSError : M unit) initial_world
     = (Raise (Exception "Max retries (5) exceeded for op."), w')
     /\ attempts "op" (trace w') = 5)
  /\ retry_with_backoff "op" (raise (HttpError 404) : M unit) initial_world
     = (Raise (HttpError 404),
        {| calls := 0; trace := [EvAttempt "op"] |}).
Proof.
  split.
  - apply (proj1 (retry_policy_attempt_count (A := unit) "op" (raise OSError)
                    initial_world (fun _ => eq_refl))).
    intro w0. exists OSError, w0. split; reflexivity.
  - apply (proj1 (proj2 (retry_policy_attempt_count (A := unit) "op"
                           (raise (HttpError 404)) initial_world
                           (fun _ => eq_refl)))
             (HttpError 404) _ eq_refl eq_refl).
Defined.

(** C6.  Under a service that answers 503, [copy_file], [get_file_metadata],
    [create_folder] and [move_file] each make one attempt, never sleep, and
    return [None]: their own [except HttpError] clause turns the transient
    error into a failure result before the decorator sees it.  Only
    [list_files_in_folder], which has no such clause, is retried five
    times. *)
Theorem transient_http_error_not_retried :
  copy_file service_copy_unavailable "F1" None initial_world
  = (Ret None,
     {| calls := 2;
        trace := [EvAttempt "copy_file"; EvAttempt "get_file_metadata";
                  EvCall (FilesGet "F1" DEFAULT_FIELDS);
                  EvCall (FilesCopy "F1"
                            {| body_name := "notes.txt"; body_mimeType := None;
                               body_parents := None |});
                  EvPrint (CopyError "F1" (HttpError 503))] |})
  /\ get_file_metadata service_unavailable "F1" DEFAULT_FIELDS initial_world
     = (Ret None,
        {| calls := 1;
           trace := [EvAttempt "get_file_metadata";
                     EvCall (FilesGet "F1" DEFAULT_FIELDS);
                     EvPrint (ErrorOccurred (HttpError 503))] |})
  /\ create_folder service_unavailable "Docs" (Some "BAK") initial_world
     = (Ret None,
        {| calls := 1;
           trace := [EvAttempt "create_folder";
                     EvCall (FilesCreate
                               {| body_name := "Docs";
                                  body_mimeType := Some FOLDER_MIME;
                                  body_parents := Some ["BAK"] |} None);
                     EvPrint (ErrorOccurred (HttpError 503))] |})
  /\ move_file service_unavailable "F1" "BAK" initial_world
     = (Ret None,
        {| calls := 1;
           trace := [EvAttempt "move_file"; EvCall (FilesGet "F1" "parents");
                     EvPrint (ErrorOccurred (HttpError 503))] |})
  /\ (exists w,
        list_files_in_folder service_unavailable "D1" [] initial_world
        = (Raise (Exception "Max retries (5) exceeded for list_files_in_folder."), w)
        /\ attempts "list_files_in_folder" (trace w) = 5).
Proof.
  repeat split; try (vm_compute; reflexivity).
  exists (snd (list_files_in_folder service_unavailable "D1" [] initial_world)).
  split; vm_compute; reflexivity.
Qed.

(** C5.  When the first page of a listing carries a [nextPageToken], the
    second call passes three positional arguments to a function declared
    with two: it raises [TypeError] after a single request, no page is
    concatenated, and the exception leaves [process_item] before any child
    is processed or the folder moved. *)
Theorem second_page_raises_TypeError :
  list_children service_two_pages 5 "D1" initial_world
  = (Raise (TypeError
              "list_files_in_folder() takes 2 positional arguments but 3 were given"),
     {| calls := 1;
        trace := [EvAttempt "list_files_in_folder";
                  EvCall (FilesList "'D1' in parents and trashed = false");
                  EvAttempt "list_files_in_folder"] |})
  /\ process_item module_globals service_two_pages 5 "D1" "BAK" initial_world
     = (Raise (TypeError
                 "list_files_in_folder() takes 2 positional arguments but 3 were given"),
        {| calls := 3;
           trace := [EvAttempt "get_file_metadata";
                     EvCall (FilesGet "D1" DEFAULT_FIELDS);
                     EvPrint (ProcessingFolder "Docs" "D1");
                     EvAttempt "create_folder";
                     EvCall (FilesCreate
                               {| body_name := "Docs";
                                  body_mimeType := Some FOLDER_MIME;
                                  body_parents := Some ["BAK"] |} None);
                     EvPrint (FolderCreated "Docs" (Some "MIRROR"));
                     EvAttempt "list_files_in_folder";
                     EvCall (FilesList "'D1' in parents and trashed = false");
                     EvAttempt "list_files_in_folder"] |}).
Proof. split; vm_compute; reflexivity. Qed.

(** The same on every service and from every world: a page that carries a
    token ends the listing with [TypeError], after one more invocation of
    the decorated function and no request. *)
Lemma pagination_stops_at_token :
  forall svc fuel file_id results items token w,
    nextPageToken results = Some token ->
    pagination_loop svc (S fuel) file_id results items w
    = (Raise (TypeError
                "list_files_in_folder() takes 2 positional arguments but 3 were given"),
       snd (log (EvAttempt "list_files_in_folder") w)).
Proof.
  intros svc fuel file_id results items token w Htoken.
  cbn [pagination_loop]. rewrite Htoken.
  unfold bind, list_files_in_folder, retry_with_backoff.
  change MAX_RETRIES with 5 at 1.
  rewrite wrapper_loop_step by (unfold MAX_RETRIES; lia).
  reflexivity.
Qed.

(** ** Which requests a computation can send *)

Section SendsOnly.

Variable ok : Request -> bool.

Lemma sends_only_ret : forall A (a : A), sends_only ok (ret a).
Proof.
  intros A a w r w' H. inversion H; subst. exists []. now rewrite app_nil_r.
Qed.

Lemma sends_only_raise : forall A e, sends_only ok (raise e : M A).
Proof.
  intros A e w r w' H. inversion H; subst. exists []. now rewrite app_nil_r.
Qed.

Lemma sends_only_timeout : forall A, sends_only ok (timeout : M A).
Proof.
  intros A w r w' H. inversion H; subst. exists []. now rewrite app_nil_r.
Qed.

Lemma sends_only_log : forall e, event_ok ok e = true -> sends_only ok (log e).
Proof.
  intros e He w r w' H. inversion H; subst. exists [e]. simpl.
  now rewrite He.
Qed.

Lemma sends_only_print : forall d, sends_only ok (print d).
Proof. intro d. now apply sends_only_log. Qed.

Lemma sends_only_bind : forall A B (m : M A) (k : A -> M B),
  sends_only ok m -> (forall a, sends_only ok (k a)) -> sends_only ok (bind m k).
Proof.
  intros A B m k Hm Hk w r w'. unfold bind.
  destruct (m w) as [[a | e |] w1] eqn:E; intro H.
  - destruct (Hm _ _ _ E) as (t1 & H1 & F1).
    destruct (Hk a _ _ _ H) as (t2 & H2 & F2).
    exists (t1 ++ t2). rewrite H2, H1, app_assoc, forallb_app, F1, F2. now split.
  - inversion H; subst. exact (Hm _ _ _ E).
  - inversion H; subst. exact (Hm _ _ _ E).
Qed.

Lemma sends_only_try_except : forall A (body : M A) catches handler,
  sends_only ok body -> (forall e, sends_only ok (handler e)) ->
  sends_only ok (try_except body catches handler).
Proof.
  intros A body catches handler Hb Hh w r w'. unfold try_except.
  destruct (body w) as [[a | e |] w1] eqn:E; intro H.
  - inversion H; subst. exact (Hb _ _ _ E).
  - destruct (catches e).
    + destruct (Hb _ _ _ E) as (t1 & H1 & F1).
      destruct (Hh e _ _ _ H) as (t2 & H2 & F2).
      exists (t1 ++ t2). rewrite H2, H1, app_assoc, forallb_app, F1, F2.
      now split.
    + inversion H; subst. exact (Hb _ _ _ E).
  - inversion H; subst. exact (Hb _ _ _ E).
Qed.

Lemma sends_only_execute : forall R req (answer : nat -> Exn + R),
  ok req = true -> sends_only ok (execute req answer).
Proof.
  intros R req answer Hreq w r w'. unfold execute.
  destruct (answer (calls w)); intro H; inversion H; subst;
    exists [EvCall req]; simpl; now rewrite Hreq.
Qed.

Lemma sends_only_getitem : forall A key (o : option A),
  sends_only ok (getitem key o).
Proof.
  intros A key [v |]; [apply sends_only_ret | apply sends_only_raise].
Qed.

Lemma sends_only_for_each : forall A (body : A -> M unit) xs,
  (forall x, In x xs -> sends_only ok (body x)) ->
  sends_only ok (for_each body xs).
Proof.
  intros A body xs. induction xs as [| x xs IH]; intro Hb; simpl.
  - apply sends_only_ret.
  - apply sends_only_bind.
    + apply Hb. now left.
    + intros _. apply IH. intros y Hy. apply Hb. now right.
Qed.

Lemma sends_only_wrapper_loop : forall A name (func : M A) fuel retries,
  sends_only ok func -> sends_only ok (wrapper_loop name func fuel retries).
Proof.
  intros A name func fuel. induction fuel as [| fuel IH]; intros retries Hf.
  - simpl. destruct (retries <? MAX_RETRIES)%nat;
      [apply sends_only_timeout | apply sends_only_raise].
  - destruct (Nat.lt_ge_cases retries MAX_RETRIES) as [Hlt | Hge].
    + intros w r w'. rewrite wrapper_loop_step by exact Hlt.
      set (w0 := {| calls := calls w; trace := trace w ++ [EvAttempt name] |}).
      assert (Hnext : forall d,
                sends_only ok
                  (print d ;; log (EvSleep (wait_time (S retries))) ;;
                   wrapper_loop name func fuel (S retries))).
      { intro d. apply sends_only_bind; [apply sends_only_print | intros _].
        apply sends_only_bind; [now apply sends_only_log | intros _].
        now apply IH. }
      destruct (func w0) as [[a | e |] w1] eqn:E;
        destruct (Hf _ _ _ E) as (t1 & H1 & F1); simpl in H1.
      * intro H; inversion H; subst. exists (EvAttempt name :: t1).
        rewrite H1, <- app_assoc. now split.
      * assert (Hstop : forall r0 w0',
                  (@Raise A e, w1) = (r0, w0') ->
                  exists t, trace w0' = (trace w ++ t)%list
                            /\ forallb (event_ok ok) t = true).
        { intros r0 w0' H; inversion H; subst. exists (EvAttempt name :: t1).
          rewrite H1, <- app_assoc. now split. }
        assert (Hgo : forall d r0 w0',
                  (print d ;; log (EvSleep (wait_time (S retries))) ;;
                   wrapper_loop name func fuel (S retries)) w1 = (r0, w0') ->
                  exists t, trace w0' = (trace w ++ t)%list
                            /\ forallb (event_ok ok) t = true).
        { intros d r0 w0' H. destruct (Hnext d _ _ _ H) as (t2 & H2 & F2).
          exists ((EvAttempt name :: t1) ++ t2).
          rewrite H2, H1, <- !app_assoc, forallb_app. simpl.
          rewrite F1, F2. now split. }
        destruct e; try exact (Hstop r w').
        -- destruct (retryable (HttpError status));
             [exact (Hgo _ r w') | exact (Hstop r w')].
        -- exact (Hgo _ r w').
      * intro H; inversion H; subst. exists (EvAttempt name :: t1).
        rewrite H1, <- app_assoc. now split.
    + intros w r w'. rewrite wrapper_loop_exhausted by exact Hge.
      apply sends_only_raise.
Qed.

Lemma sends_only_retry_with_backoff : forall A name (func : M A),
  sends_only ok func -> sends_only ok (retry_with_backoff name func).
Proof. intros. now apply sends_only_wrapper_loop. Qed.

End SendsOnly.

Ltac sends_only_step :=
  first
    [ apply sends_only_ret
    | apply sends_only_raise
    | apply sends_only_timeout
    | apply sends_only_print
    | apply sends_only_getitem
    | apply sends_only_retry_with_backoff
    | apply sends_only_try_except; [| intro]
    | apply sends_only_bind; [| intro]
    | match goal with
      | |- sends_only _ (match ?x with _ => _ end) => destruct x
      | |- sends_only _ (let (_, _) := ?x in _) => destruct x
      end ].

Section Footprints.

Variable ok : Request -> bool.
Variable g : Globals.
Variable svc : Service.

Lemma sends_only_get_file_metadata : forall file_id fields,
  ok (FilesGet file_id fields) = true ->
  sends_only ok (get_file_metadata svc file_id fields).
Proof.
  intros file_id fields Hget. unfold get_file_metadata.
  repeat sends_only_step. now apply sends_only_execute.
Qed.

Lemma sends_only_create_folder : forall folder_name parent_id,
  (forall body, ok (FilesCreate body None) = true) ->
  sends_only ok (create_folder svc folder_name parent_id).
Proof.
  intros folder_name parent_id Hcreate. unfold create_folder.
  repeat sends_only_step. now apply sends_only_execute.
Qed.

Lemma sends_only_copy_file : forall file_id new_file_name,
  ok (FilesGet file_id DEFAULT_FIELDS) = true ->
  (forall body, ok (FilesCopy file_id body) = true) ->
  sends_only ok (copy_file svc file_id new_file_name).
Proof.
  intros file_id new_file_name Hget Hcopy. unfold copy_file.
  repeat sends_only_step;
    solve [ now apply sends_only_get_file_metadata
          | now apply sends_only_execute ].
Qed.

Lemma sends_only_move_file : forall file_id new_parent_id,
  ok (FilesGet file_id "parents") = true ->
  (forall removed, ok (FilesUpdate file_id new_parent_id removed) = true) ->
  sends_only ok (move_file svc file_id new_parent_id).
Proof.
  intros file_id new_parent_id Hget Hupdate. unfold move_file, join_parents.
  repeat sends_only_step; now apply sends_only_execute.
Qed.

Lemma sends_only_download_loop : forall request rest fh ending,
  ok request = true -> sends_only ok (download_loop request fh rest ending).
Proof.
  intros request rest. induction rest as [| chunk rest IH];
    intros fh ending Hreq; cbn [download_loop].
  - repeat sends_only_step. now apply sends_only_execute.
  - apply sends_only_bind; [now apply sends_only_execute |]. intro c.
    apply sends_only_bind; [apply sends_only_print |]. intros _.
    now apply IH.
Qed.

Lemma sends_only_download : forall request,
  ok request = true -> sends_only ok (download svc request).
Proof.
  intros request Hreq w r w' H. unfold download in H. cbv zeta in H.
  exact (sends_only_download_loop _ _ _ Hreq _ H).
Qed.

Lemma sends_only_MediaIoBaseUpload : forall fh mimetype resumable,
  sends_only ok (MediaIoBaseUpload g fh mimetype resumable).
Proof.
  intros. unfold MediaIoBaseUpload. repeat sends_only_step.
Qed.

Lemma sends_only_download_and_upload_file : forall file_id original_filename,
  ok (FilesGet file_id DEFAULT_FIELDS) = true ->
  (forall mime, ok (ExportMedia file_id mime) = true) ->
  ok (GetMedia file_id) = true ->
  (forall name media,
     ok (FilesCreate {| body_name := name; body_mimeType := None;
                        body_parents := None |} (Some media)) = true) ->
  sends_only ok (download_and_upload_file g svc file_id original_filename).
Proof.
  intros file_id original_filename Hget Hexport Hmedia Hcreate.
  unfold download_and_upload_file.
  repeat sends_only_step;
    solve [ now apply sends_only_get_file_metadata
          | apply sends_only_download;
            match goal with |- ok (match ?o with _ => _ end) = true =>
              now destruct o end
          | apply sends_only_MediaIoBaseUpload
          | now apply sends_only_execute ].
Qed.

Lemma sends_only_list_files_in_folder : forall folder_id extra,
  (forall q, ok (FilesList q) = true) ->
  sends_only ok (list_files_in_folder svc folder_id extra).
Proof.
  intros folder_id extra Hlist. unfold list_files_in_folder.
  repeat sends_only_step. now apply sends_only_execute.
Qed.

Lemma sends_only_pagination_loop : forall fuel file_id results items,
  (forall q, ok (FilesList q) = true) ->
  sends_only ok (pagination_loop svc fuel file_id results items).
Proof.
  intros fuel file_id results items Hlist. revert results items.
  induction fuel as [| fuel IH]; intros results items; simpl;
    destruct (nextPageToken results); try sends_only_step.
  - now apply sends_only_list_files_in_folder.
  - apply IH.
Qed.

Lemma sends_only_list_children : forall fuel file_id,
  (forall q, ok (FilesList q) = true) ->
  sends_only ok (list_children svc fuel file_id).
Proof.
  intros fuel file_id Hlist. unfold list_children.
  apply sends_only_try_except.
  - apply sends_only_bind; [now apply sends_only_list_files_in_folder |].
    intro results.
    apply sends_only_bind; [now apply sends_only_pagination_loop |].
    intro items. apply sends_only_ret.
  - intro e. apply sends_only_bind; [apply sends_only_print |].
    intros _. apply sends_only_ret.
Qed.

End Footprints.

(** ** Files: duplicate first, relocate afterwards *)

Lemma relocation_event_iff : forall t,
  existsb relocation_event t = negb (forallb (event_ok not_relocation) t).
Proof.
  induction t as [| e t IH]; [reflexivity |]. simpl. rewrite IH.
  destruct e as [r | | |]; simpl; try reflexivity.
  unfold not_relocation. now destruct (is_relocation r).
Qed.

Lemma copy_file_never_relocates : forall svc file_id new_file_name,
  sends_only not_relocation (copy_file svc file_id new_file_name).
Proof. intros. now apply sends_only_copy_file. Qed.

Lemma download_and_upload_file_never_relocates :
  forall g svc file_id original_filename,
    sends_only not_relocation
      (download_and_upload_file g svc file_id original_filename).
Proof. intros. now apply sends_only_download_and_upload_file. Qed.

Lemma process_file_without_duplicate :
  forall g svc md file_id backup name w r w' rc w2 rd w3,
    f_name md = Some name ->
    process_file g svc md file_id backup w = (r, w') ->
    copy_file svc file_id None (snd (print (ProcessingFile name file_id) w))
    = (rc, w2) ->
    download_and_upload_file g svc file_id name
      (snd (print CopyFailedTryingDownload w2)) = (rd, w3) ->
    yields_id rc = false -> yields_id rd = false ->
    exists t, trace w' = trace w ++ t
              /\ existsb relocation_event t = false.
Proof.
  intros g svc md file_id backup name w r w' rc w2 rd w3
    Hname Hrun Hcopy Hdl Hc Hd.
  destruct (copy_file_never_relocates _ _ _ _ Hcopy) as (tc & Htc & Fc).
  destruct (download_and_upload_file_never_relocates _ _ _ _ _ Hdl)
    as (td & Htd & Fd).
  cbn [print log snd trace] in Htc, Htd.
  unfold process_file in Hrun. rewrite Hname in Hrun. cbn [getitem] in Hrun.
  rewrite bind_ret_l in Hrun. unfold bind at 1 in Hrun.
  cbn [print log] in Hrun. cbn [print log snd] in Hcopy, Hdl.
  unfold bind at 1 in Hrun. rewrite Hcopy in Hrun.
  assert (Hquiet : forall t0,
            forallb (event_ok not_relocation) t0 = true ->
            existsb relocation_event t0 = false).
  { intros t0 F0. now rewrite relocation_event_iff, F0. }
  destruct rc as [c | e |].
  - simpl in Hc. rewrite Hc in Hrun. cbn [negb] in Hrun.
    unfold bind at 1 2 in Hrun. cbn [print log] in Hrun.
    rewrite bind_ret_l, Hdl in Hrun.
    destruct rd as [d | e |].
    + simpl in Hd. rewrite Hd in Hrun. cbn [negb] in Hrun.
      inversion Hrun; subst. cbn [trace].
      exists ((EvPrint (ProcessingFile name file_id) :: tc)
              ++ (EvPrint CopyFailedTryingDownload :: td)
              ++ [EvPrint (FailedToCopy file_id)]).
      split; [rewrite Htd, Htc; now rewrite <- !app_assoc |].
      apply Hquiet. rewrite !forallb_app. simpl. now rewrite Fc, Fd.
    + inversion Hrun; subst.
      exists ((EvPrint (ProcessingFile name file_id) :: tc)
              ++ (EvPrint CopyFailedTryingDownload :: td)).
      split; [rewrite Htd, Htc; now rewrite <- !app_assoc |].
      apply Hquiet. rewrite !forallb_app. simpl. now rewrite Fc, Fd.
    + inversion Hrun; subst.
      exists ((EvPrint (ProcessingFile name file_id) :: tc)
              ++ (EvPrint CopyFailedTryingDownload :: td)).
      split; [rewrite Htd, Htc; now rewrite <- !app_assoc |].
      apply Hquiet. rewrite !forallb_app. simpl. now rewrite Fc, Fd.
  - inversion Hrun; subst.
    exists (EvPrint (ProcessingFile name file_id) :: tc).
    split; [rewrite Htc; now rewrite <- app_assoc |].
    apply Hquiet. simpl. now rewrite Fc.
  - inversion Hrun; subst.
    exists (EvPrint (ProcessingFile name file_id) :: tc).
    split; [rewrite Htc; now rewrite <- app_assoc |].
    apply Hquiet. simpl. now rewrite Fc.
Qed.

(** C2.  In a run of the file branch, when neither [copy_file] nor
    [download_and_upload_file] returns an identifier, no relocation request
    is sent; hence a relocation request in the run implies that one of the
    two returned the identifier of a duplicate. *)
Theorem file_relocated_only_with_duplicate :
  forall g svc md file_id backup name w r w' t rc w2 rd w3,
    f_name md = Some name ->
    process_file g svc md file_id backup w = (r, w') ->
    trace w' = trace w ++ t ->
    copy_file svc file_id None (snd (print (ProcessingFile name file_id) w))
    = (rc, w2) ->
    download_and_upload_file g svc file_id name
      (snd (print CopyFailedTryingDownload w2)) = (rd, w3) ->
    (yields_id rc = false -> yields_id rd = false ->
     existsb relocation_event t = false)
    /\ (existsb relocation_event t = true ->
        yields_id rc = true \/ (yields_id rc = false /\ yields_id rd = true)).
Proof.
  intros g svc md file_id backup name w r w' t rc w2 rd w3
    Hname Hrun Ht Hcopy Hdl.
  assert (Hno : yields_id rc = false -> yields_id rd = false ->
                existsb relocation_event t = false).
  { intros Hc Hd.
    destruct (process_file_without_duplicate _ _ _ _ _ _ Hname Hrun Hcopy Hdl
                Hc Hd) as (t0 & Ht0 & F0).
    rewrite Ht in Ht0. apply app_inv_head in Ht0. now subst. }
  split; [exact Hno |].
  intro Hsome.
  destruct (yields_id rc) eqn:Ec; [now left | right].
  destruct (yields_id rd) eqn:Ed; [now split |].
  rewrite Hno in Hsome by reflexivity. discriminate.
Qed.

Lemma file_relocated_only_with_duplicate_witness :
  existsb relocation_event
    (trace (snd (process_file module_globals service_unavailable
                   (resource "F1" "notes.txt" "text/plain") "F1" "BAK"
                   initial_world))) = false
  /\ (yields_id
        (fst (copy_file service_healthy "F1" None
                (snd (print (ProcessingFile "notes.txt" "F1") initial_world))))
      = true
      \/ (yields_id
            (fst (copy_file service_healthy "F1" None
                    (snd (print (ProcessingFile "notes.txt" "F1")
                            initial_world)))) = false
          /\ yields_id
               (fst (download_and_upload_file module_globals service_healthy
                       "F1" "notes.txt"
                       (snd (print CopyFailedTryingDownload
                               (snd (copy_file service_healthy "F1" None
                                       (snd (print
                                               (ProcessingFile "notes.txt" "F1")
                                               initial_world))))))))
             = true)).
Proof.
  split.
  - apply (proj1 (@file_relocated_only_with_duplicate
                    module_globals service_unavailable
                    (resource "F1" "notes.txt" "text/plain") "F1" "BAK"
                    "notes.txt" initial_world _ _ _ _ _ _ _ eq_refl
                    (surjective_pairing _) eq_refl
                    (surjective_pairing _) (surjective_pairing _)));
      vm_compute; reflexivity.
  - apply (proj2 (@file_relocated_only_with_duplicate
                    module_globals service_healthy
                    (resource "F1" "notes.txt" "text/plain") "F1" "BAK"
                    "notes.txt" initial_world _ _ _ _ _ _ _ eq_refl
                    (surjective_pairing _) eq_refl
                    (surjective_pairing _) (surjective_pairing _))).
    vm_compute. reflexivity.
Defined.

(** ** What the file branch can create and relocate *)

Lemma sends_only_process_file : forall g svc md file_id backup,
  sends_only (file_branch_ok file_id backup)
    (process_file g svc md file_id backup).
Proof.
  intros g svc md file_id backup. unfold process_file.
  repeat first
    [ apply sends_only_copy_file; [reflexivity | reflexivity]
    | apply sends_only_download_and_upload_file; reflexivity
    | apply sends_only_move_file;
      [reflexivity | intro removed; simpl; now rewrite !String.eqb_refl]
    | sends_only_step ].
Qed.

(** In a run of the file branch, in any namespace, every [create] request
    carries a body with a name and nothing else, and every relocation
    request targets [file_id] and the backup destination. *)
Lemma file_branch_requests :
  forall g svc md file_id backup w r w' t req,
    process_file g svc md file_id backup w = (r, w') ->
    trace w' = trace w ++ t ->
    In (EvCall req) t ->
    match req with
    | FilesCreate body _ => body_parents body = None /\ body_mimeType body = None
    | FilesUpdate id added _ => id = file_id /\ added = backup
    | _ => True
    end.
Proof.
  intros g svc md file_id backup w r w' t req Hrun Ht Hin.
  destruct (sends_only_process_file _ _ _ _ _ _ Hrun) as (t0 & Ht0 & F0).
  rewrite Ht in Ht0. apply app_inv_head in Ht0. subst t0.
  rewrite forallb_forall in F0. specialize (F0 _ Hin). simpl in F0.
  destruct req as [| body media | | id added removed | | |]; try exact I.
  - simpl in F0. apply andb_true_iff in F0. destruct F0 as [Hp Hm].
    destruct (body_parents body), (body_mimeType body); try discriminate.
    now split.
  - simpl in F0. apply andb_true_iff in F0. destruct F0 as [Hi Ha].
    apply String.eqb_eq in Hi, Ha. now split.
Qed.

(** ** The fallback in the namespace of the script *)

(** The decorator returns an identifier only if the function did. *)
Lemma wrapper_loop_yields_id : forall name (func : M (option string)),
  (forall w, yields_id (fst (func w)) = false) ->
  forall fuel retries w,
    yields_id (fst (wrapper_loop name func fuel retries w)) = false.
Proof.
  intros name func Hf fuel.
  induction fuel as [| fuel IH]; intros retries w.
  - simpl. now destruct (retries <? MAX_RETRIES)%nat.
  - destruct (Nat.lt_ge_cases retries MAX_RETRIES) as [Hlt | Hge].
    + rewrite wrapper_loop_step by exact Hlt.
      match goal with
      | |- context [func ?w0] =>
          pose proof (Hf w0) as H0; destruct (func w0) as [[o | e |] w1]
      end; try exact H0; try reflexivity.
      destruct e; try reflexivity.
      * destruct (retryable (HttpError status)); [| reflexivity].
        rewrite print_sleep_then. apply IH.
      * rewrite print_sleep_then. apply IH.
    + now rewrite wrapper_loop_exhausted by exact Hge.
Qed.

(** With [MediaIoBaseUpload] unbound, [download_and_upload_file] never
    returns an identifier. *)
Lemma fallback_never_yields_id : forall svc file_id original_filename w,
  yields_id
    (fst (download_and_upload_file module_globals svc file_id
            original_filename w)) = false.
Proof.
  intros svc file_id original_filename. unfold download_and_upload_file.
  apply wrapper_loop_yields_id. intro w. unfold bind at 1.
  destruct (get_file_metadata _ _ _ w) as [[o | e |] w1]; try reflexivity.
  destruct (unavailable o); [reflexivity |].
  destruct (select_export _ _) as [export_mime file_extension].
  unfold try_except, bind at 1.
  destruct (download _ _ w1) as [[fh | e |] w2]; try reflexivity.
  - destruct export_mime; reflexivity.
  - destruct (is_HttpError e); reflexivity.
Qed.

(** C9.  The script selects the export type and downloads the content, but
    the name [MediaIoBaseUpload] it then refers to is not bound by its
    imports: the call raises [NameError] before any [create] request, so
    nothing is re-uploaded, whatever the item. *)
Theorem fallback_upload_raises_NameError :
  download_and_upload_file module_globals service_document "DOC1" "Report.v2"
    initial_world
  = (Raise (NameError "MediaIoBaseUpload"),
     {| calls := 3;
        trace :=
          [EvAttempt "download_and_upload_file"; EvAttempt "get_file_metadata";
           EvCall (FilesGet "DOC1" DEFAULT_FIELDS);
           EvCall (ExportMedia "DOC1"
                     "application/vnd.openxmlformats-officedocument.wordprocessingml.document");
           EvPrint DownloadProgress;
           EvCall (ExportMedia "DOC1"
                     "application/vnd.openxmlformats-officedocument.wordprocessingml.document");
           EvPrint DownloadProgress] |})
  /\ (forall svc file_id original_filename w,
        yields_id
          (fst (download_and_upload_file module_globals svc file_id
                  original_filename w)) = false).
Proof.
  split; [vm_compute; reflexivity | exact fallback_never_yields_id].
Qed.

(** What the same call does once the name is bound: the export is uploaded
    under the base name with the extension of the export format. *)
Example fallback_upload_when_bound :
  download_and_upload_file globals_with_upload service_document "DOC1"
    "Report.v2" initial_world
  = (Ret (Some "NEW"),
     {| calls := 4;
        trace :=
          [EvAttempt "download_and_upload_file"; EvAttempt "get_file_metadata";
           EvCall (FilesGet "DOC1" DEFAULT_FIELDS);
           EvCall (ExportMedia "DOC1"
                     "application/vnd.openxmlformats-officedocument.wordprocessingml.document");
           EvPrint DownloadProgress;
           EvCall (ExportMedia "DOC1"
                     "application/vnd.openxmlformats-officedocument.wordprocessingml.document");
           EvPrint DownloadProgress;
           EvCall
             (FilesCreate
                {| body_name := "Report.docx"; body_mimeType := None;
                   body_parents := None |}
                (Some
                   {| media_content := "PKdata";
                      media_mimetype :=
                        Some "application/vnd.openxmlformats-officedocument.wordprocessingml.document";
                      media_resumable := true |}));
           EvPrint (Reuploaded "Report.docx" (Some "NEW"))] |}).
Proof. vm_compute. reflexivity. Qed.

(** ** Folders *)

Section FolderBranch.

Variable g : Globals.
Variable svc : Service.

(** [process_item] on a folder, from the creation of the mirror on. *)
Lemma process_item_folder : forall n file_id backup w md w1 name,
  get_file_metadata svc file_id DEFAULT_FIELDS w = (Ret (Some md), w1) ->
  dict_is_empty md = false ->
  f_mimeType md = Some FOLDER_MIME ->
  f_name md = Some name ->
  process_item g svc (S n) file_id backup w
  = (new_folder_id <- create_folder svc name (Some backup) ;;
     match new_folder_id with
     | Some new_id =>
         if truthy new_folder_id then
           listing <- list_children svc (S n) file_id ;;
           match listing with
           | Some items =>
               for_each (process_child g svc n new_id) items ;;
               move_file svc file_id backup ;;
               ret tt
           | None => ret tt
           end
         else print SubfolderError ;; ret tt
     | None => print SubfolderError ;; ret tt
     end) (snd (print (ProcessingFolder name file_id) w1)).
Proof.
  intros n file_id backup w md w1 name Hmeta Hempty Hmime Hname.
  cbn [process_item]. unfold bind at 1. rewrite Hmeta, Hempty, Hmime.
  cbn [getitem]. rewrite bind_ret_l.
  replace (String.eqb FOLDER_MIME FOLDER_MIME) with true
    by (symmetry; apply String.eqb_refl).
  rewrite Hname. cbn [getitem]. rewrite bind_ret_l.
  unfold bind at 1. cbn [print log]. rewrite bind_ret_l. reflexivity.
Qed.

End FolderBranch.

Lemma no_relocation_sent : forall t,
  forallb (event_ok not_relocation) t = true ->
  existsb relocation_event t = false.
Proof. intros t F. now rewrite relocation_event_iff, F. Qed.

(** C7.  On a folder, when [create_folder] does not return an identifier
    (it returns [None] or an empty one, or raises), or when the listing of
    lines 227-237 fails (an [HttpError] caught there, or any other exception),
    [process_item] ends at that point: no request is sent after the failing
    step, so no child is processed, and the whole run sends no relocation
    request. *)
Theorem failed_folder_branch_not_relocated :
  forall g svc n file_id backup w md w1 name rc w2 rl w3,
    get_file_metadata svc file_id DEFAULT_FIELDS w = (Ret (Some md), w1) ->
    dict_is_empty md = false ->
    f_mimeType md = Some FOLDER_MIME ->
    f_name md = Some name ->
    create_folder svc name (Some backup)
      (snd (print (ProcessingFolder name file_id) w1)) = (rc, w2) ->
    list_children svc (S n) file_id w2 = (rl, w3) ->
    yields_id rc = false \/ listing_failed rl = true ->
    exists r w' t,
      process_item g svc (S n) file_id backup w = (r, w')
      /\ trace w' = trace w ++ t
      /\ existsb relocation_event t = false
      /\ calls w' = (if yields_id rc then calls w3 else calls w2)
      /\ r = match rc with
             | Ret o =>
                 if truthy o then
                   match rl with
                   | Ret _ => Ret tt
                   | Raise e => Raise e
                   | Timeout => Timeout
                   end
                 else Ret tt
             | Raise e => Raise e
             | Timeout => Timeout
             end.
Proof.
  intros g svc n file_id backup w md w1 name rc w2 rl w3
    Hmeta Hempty Hmime Hname Hcreate Hlist Hfail.
  destruct (@sends_only_get_file_metadata not_relocation svc file_id
              DEFAULT_FIELDS eq_refl _ _ _ Hmeta) as (tm & Htm & Fm).
  destruct (@sends_only_create_folder not_relocation svc name (Some backup)
              (fun _ => eq_refl) _ _ _ Hcreate) as (tc & Htc & Fc).
  destruct (@sends_only_list_children not_relocation svc (S n) file_id
              (fun _ => eq_refl) _ _ _ Hlist) as (tl & Htl & Fl).
  cbn [print log snd trace] in Htc.
  rewrite (process_item_folder g svc n file_id backup w Hmeta Hempty Hmime Hname).
  unfold bind at 1. rewrite Hcreate.
  assert (Hstop : existsb relocation_event
                    (tm ++ EvPrint (ProcessingFolder name file_id) :: tc)
                  = false).
  { apply no_relocation_sent. rewrite forallb_app. simpl. now rewrite Fm, Fc. }
  assert (Hstop' : existsb relocation_event
                     (tm ++ EvPrint (ProcessingFolder name file_id) :: tc
                      ++ [EvPrint SubfolderError]) = false).
  { apply no_relocation_sent. rewrite forallb_app. simpl.
    rewrite forallb_app. simpl. now rewrite Fm, Fc. }
  assert (Hlisted : existsb relocation_event
                      (tm ++ EvPrint (ProcessingFolder name file_id) :: tc
                       ++ tl) = false).
  { apply no_relocation_sent. rewrite forallb_app. simpl.
    rewrite forallb_app. now rewrite Fm, Fc, Fl. }
  assert (Ht2 : trace w2
                = trace w ++ tm ++ EvPrint (ProcessingFolder name file_id) :: tc).
  { rewrite Htc, Htm, <- !app_assoc. reflexivity. }
  destruct rc as [[new_id |] | e |].
  - cbn [yields_id] in Hfail |- *.
    destruct (truthy (Some new_id)) eqn:Etruthy.
    + destruct Hfail as [Hc | Hl]; [discriminate Hc |].
      unfold bind at 1. rewrite Hlist.
      assert (Ht3 : trace w3
                    = trace w ++ tm
                      ++ EvPrint (ProcessingFolder name file_id) :: tc ++ tl).
      { rewrite Htl, Ht2, <- !app_assoc. reflexivity. }
      destruct rl as [[items |] | e |]; [discriminate Hl | | |];
        do 3 eexists; (split; [reflexivity |]);
        (split; [exact Ht3 |]); (split; [exact Hlisted |]); now split.
    + do 3 eexists. split; [reflexivity |]. cbn [print log bind trace calls].
      split; [| split; [exact Hstop' | now split]].
      rewrite Ht2, <- !app_assoc. reflexivity.
  - do 3 eexists. split; [reflexivity |]. cbn [print log bind trace calls].
    split; [| split; [exact Hstop' | now split]].
    rewrite Ht2, <- !app_assoc. reflexivity.
  - do 3 eexists. split; [reflexivity |].
    split; [exact Ht2 |]. split; [exact Hstop | now split].
  - do 3 eexists. split; [reflexivity |].
    split; [exact Ht2 |]. split; [exact Hstop | now split].
Qed.

Lemma failed_folder_branch_not_relocated_witness :
  exists w' t,
    process_item module_globals service_two_pages 5 "D1" "BAK" initial_world
    = (Raise (TypeError
                "list_files_in_folder() takes 2 positional arguments but 3 were given"),
       w')
    /\ trace w' = t
    /\ existsb relocation_event t = false.
Proof.
  pose (w1 := snd (get_file_metadata service_two_pages "D1" DEFAULT_FIELDS
                     initial_world)).
  pose (create := create_folder service_two_pages "Docs" (Some "BAK")
                    (snd (print (ProcessingFolder "Docs" "D1") w1))).
  pose (listing := list_children service_two_pages 5 "D1" (snd create)).
  destruct (@failed_folder_branch_not_relocated
              module_globals service_two_pages 4 "D1" "BAK" initial_world
              (resource "D1" "Docs" FOLDER_MIME) w1 "Docs"
              (fst create) (snd create) (fst listing) (snd listing))
    as (r & w' & t & Hrun & Ht & Hno & Hcalls & Hr).
  - vm_compute. reflexivity.
  - reflexivity.
  - reflexivity.
  - reflexivity.
  - apply surjective_pairing.
  - apply surjective_pairing.
  - right. vm_compute. reflexivity.
  - exists w', t. rewrite Hrun. vm_compute in Hr. subst r.
    split; [reflexivity |]. split; [exact Ht | exact Hno].
Defined.

(** ** A folder and its children *)

Lemma for_each_returned : forall A (body : A -> M unit) xs w u w',
  for_each body xs w = (Ret u, w') -> returned_in_order body xs w w'.
Proof.
  intros A body xs. induction xs as [| x xs IH]; intros w u w' H.
  - inversion H; subst. constructor.
  - simpl in H. apply bind_inv_Ret in H. destruct H as ([] & w1 & Hx & Hrest).
    econstructor; [exact Hx | exact (IH _ _ _ Hrest)].
Qed.

Lemma returned_for_each : forall A (body : A -> M unit) xs w w',
  returned_in_order body xs w w' -> for_each body xs w = (Ret tt, w').
Proof.
  intros A body xs w w' H. induction H as [| x xs w w1 w2 Hx _ IH].
  - reflexivity.
  - simpl. now rewrite (bind_Ret _ _ _ Hx).
Qed.

(** C1 (amended).  On a folder whose mirror was created and whose children
    were listed, [process_item] runs [process_item] on every listed child,
    in order, and only once each of these calls has returned does it call
    [move_file] on the folder; when a child's call raises, the run ends
    there and the folder is not relocated.  Whether a child was copied or
    relocated plays no part. *)
Theorem folder_relocated_after_children_return :
  forall g svc n file_id backup w md w1 name new_id w2 items w3 r w',
    get_file_metadata svc file_id DEFAULT_FIELDS w = (Ret (Some md), w1) ->
    dict_is_empty md = false ->
    f_mimeType md = Some FOLDER_MIME ->
    f_name md = Some name ->
    create_folder svc name (Some backup)
      (snd (print (ProcessingFolder name file_id) w1))
    = (Ret (Some new_id), w2) ->
    truthy (Some new_id) = true ->
    list_children svc (S n) file_id w2 = (Ret (Some items), w3) ->
    process_item g svc (S n) file_id backup w = (r, w') ->
    (exists wk,
       returned_in_order (process_child g svc n new_id) items w3 wk
       /\ (move_file svc file_id backup ;; ret tt) wk = (r, w'))
    \/ (r <> Ret tt
        /\ for_each (process_child g svc n new_id) items w3 = (r, w')).
Proof.
  intros g svc n file_id backup w md w1 name new_id w2 items w3 r w'
    Hmeta Hempty Hmime Hname Hcreate Htruthy Hlist Hrun.
  rewrite (process_item_folder g svc n file_id backup w Hmeta Hempty Hmime Hname)
    in Hrun.
  rewrite (bind_Ret _ _ _ Hcreate), Htruthy, (bind_Ret _ _ _ Hlist) in Hrun.
  unfold bind at 1 in Hrun.
  destruct (for_each (process_child g svc n new_id) items w3)
    as [[[] | e |] wk] eqn:Eloop.
  - left. exists wk. split; [exact (for_each_returned _ _ _ Eloop) | exact Hrun].
  - right. inversion Hrun; subst. split; [discriminate | reflexivity].
  - right. inversion Hrun; subst. split; [discriminate | reflexivity].
Qed.

Lemma folder_moved_despite_failed_child :
  let run :=
    process_item module_globals service_lost_child 5 "D1" "BAK" initial_world in
  fst run = Ret tt
  /\ fst (list_children service_lost_child 5 "D1" initial_world)
     = Ret (Some [resource "C1" "a.txt" "text/plain"])
  /\ ~ children_migrated_before_folder (trace (snd run)) "D1" ["C1"].
Proof.
  intro run. split; [vm_compute; reflexivity |].
  split; [vm_compute; reflexivity |].
  intro Hclaim.
  assert (Hmoved : existsb (relocates "D1") (trace (snd run)) = true)
    by (vm_compute; reflexivity).
  destruct (Hclaim Hmoved "C1" (or_introl eq_refl)) as [_ Hchild].
  vm_compute in Hchild. discriminate Hchild.
Qed.

Lemma folder_relocated_after_children_return_witness :
  let w1 := snd (get_file_metadata service_lost_child "D1" DEFAULT_FIELDS
                   initial_world) in
  let w2 := snd (create_folder service_lost_child "Docs" (Some "BAK")
                   (snd (print (ProcessingFolder "Docs" "D1") w1))) in
  let w3 := snd (list_children service_lost_child 5 "D1" w2) in
  let run :=
    process_item module_globals service_lost_child 5 "D1" "BAK" initial_world in
  (exists wk,
     returned_in_order (process_child module_globals service_lost_child 4 "MIRROR")
       [resource "C1" "a.txt" "text/plain"] w3 wk
     /\ (move_file service_lost_child "D1" "BAK" ;; ret tt) wk
        = (fst run, snd run))
  \/ (fst run <> Ret tt
      /\ for_each (process_child module_globals service_lost_child 4 "MIRROR")
           [resource "C1" "a.txt" "text/plain"] w3 = (fst run, snd run)).
Proof.
  intros w1 w2 w3 run.
  apply (@folder_relocated_after_children_return
           module_globals service_lost_child 4 "D1" "BAK" initial_world
           (resource "D1" "Docs" FOLDER_MIME) w1 "Docs" "MIRROR" w2
           [resource "C1" "a.txt" "text/plain"] w3 (fst run) (snd run)).
  - vm_compute. reflexivity.
  - reflexivity.
  - reflexivity.
  - reflexivity.
  - vm_compute. reflexivity.
  - reflexivity.
  - vm_compute. reflexivity.
  - apply surjective_pairing.
Defined.

(** ** The manifest loop *)

Lemma for_each_app : forall A (body : A -> M unit) xs ys w,
  for_each body (xs ++ ys) w = (for_each body xs ;; for_each body ys) w.
Proof.
  intros A body xs ys. induction xs as [| x xs IH]; intro w.
  - reflexivity.
  - simpl. unfold bind.
    destruct (body x w) as [[[] | e |] w1]; try reflexivity.
    specialize (IH w1). unfold bind in IH. exact IH.
Qed.

(** An item whose metadata cannot be read is reported and skipped: the call
    returns. *)
Lemma unavailable_item_is_skipped : forall g svc n file_id backup w w1,
  get_file_metadata svc file_id DEFAULT_FIELDS w = (Ret None, w1) ->
  process_item g svc (S n) file_id backup w
  = (Ret tt, snd (print (SkippingNoMetadata file_id) w1)).
Proof.
  intros g svc n file_id backup w w1 H. cbn [process_item].
  now rewrite (bind_Ret _ _ _ H).
Qed.

(** C4 (amended).  Rows are taken in order.  A row is attempted, in the world
    the rows before it left, provided each of these returned (a reported
    failure returns too); once the processing of a row raises an exception,
    the [except Exception] clause around the whole loop reports it and
    [process_csv] returns without attempting any later row. *)
Theorem rows_attempted_until_one_raises :
  forall g svc fuel csv_file backup header before row after w r1 w1,
    for_each (process_row g svc fuel backup) before w = (r1, w1) ->
    (r1 = Ret tt ->
     process_csv g svc fuel csv_file (Some (header :: before ++ row :: after))
       backup w
     = try_except
         (process_row g svc fuel backup row ;;
          for_each (process_row g svc fuel backup) after)
         (fun _ => true)
         (fun e => print (UnexpectedError e)) w1)
    /\ (forall e,
          r1 = Raise e ->
          process_csv g svc fuel csv_file
            (Some (header :: before ++ row :: after)) backup w
          = (Ret tt, snd (print (UnexpectedError e) w1))).
Proof.
  intros g svc fuel csv_file backup header before row after w r1 w1 Hbefore.
  split.
  - intros ->. unfold process_csv, try_except. cbn [tl].
    rewrite for_each_app, (bind_Ret _ _ _ Hbefore). reflexivity.
  - intros e ->. unfold process_csv, try_except. cbn [tl].
    rewrite for_each_app, (@bind_Raise _ _ _ _ _ _ _ Hbefore). reflexivity.
Qed.

Lemma later_rows_dropped_after_exception :
  let run :=
    process_csv module_globals service_copy_unavailable 5 "files_to_migrate.csv"
      (Some manifest_two_files) "BAK" initial_world in
  fst run = Ret tt
  /\ existsb (attempts_row "F1") (trace (snd run)) = true
  /\ last (trace (snd run)) (EvSleep 0)
     = EvPrint (UnexpectedError (NameError "MediaIoBaseUpload"))
  /\ ~ every_row_attempted (trace (snd run)) manifest_two_files.
Proof.
  intro run. repeat split; try (vm_compute; reflexivity).
  intro Hclaim.
  assert (Hrow : existsb (attempts_row "F2") (trace (snd run)) = true).
  { apply (Hclaim ["second"; "https://drive.google.com/file/d/F2/view"] "F2").
    - simpl. right. left. reflexivity.
    - reflexivity.
    - vm_compute. reflexivity.
    - reflexivity. }
  vm_compute in Hrow. discriminate Hrow.
Qed.

Lemma rows_attempted_until_one_raises_witness :
  let body := process_row module_globals service_copy_unavailable 5 "BAK" in
  let first := ["first"; "https://drive.google.com/file/d/F1/view"] in
  let second := ["second"; "https://drive.google.com/file/d/F2/view"] in
  let short := ["only a name"] in
  (process_csv module_globals service_copy_unavailable 5 "files_to_migrate.csv"
     (Some (["name"; "url"] :: [short] ++ first :: [second])) "BAK"
     initial_world
   = try_except (body first ;; for_each body [second]) (fun _ => true)
       (fun e => print (UnexpectedError e)) initial_world)
  /\ (process_csv module_globals service_copy_unavailable 5
        "files_to_migrate.csv"
        (Some (["name"; "url"] :: [first] ++ second :: [])) "BAK" initial_world
      = (Ret tt,
         snd (print (UnexpectedError (NameError "MediaIoBaseUpload"))
                (snd (for_each body [first] initial_world))))).
Proof.
  intros body first second short. split.
  - apply (proj1 (@rows_attempted_until_one_raises
                    module_globals service_copy_unavailable 5
                    "files_to_migrate.csv" "BAK" ["name"; "url"] [short]
                    first [second] initial_world (Ret tt) initial_world
                    eq_refl) eq_refl).
  - apply (proj2 (@rows_attempted_until_one_raises
                    module_globals service_copy_unavailable 5
                    "files_to_migrate.csv" "BAK" ["name"; "url"] [first]
                    second [] initial_world
                    (fst (for_each body [first] initial_world))
                    (snd (for_each body [first] initial_world))
                    (surjective_pairing _))).
    vm_compute. reflexivity.
Defined.

(** ** Identifiers in manifest URLs *)

Section UrlExtraction.

Local Open Scope string_scope.

Lemma string_app_assoc : forall a b c : string, (a ++ b) ++ c = a ++ (b ++ c).
Proof. induction a as [| x a IH]; intros; simpl; [| rewrite IH]; reflexivity. Qed.

Lemma string_app_nil_r : forall a : string, a ++ "" = a.
Proof. induction a as [| x a IH]; simpl; [| rewrite IH]; reflexivity. Qed.

Lemma prefix_app : forall sep s, prefix sep (sep ++ s) = true.
Proof.
  induction sep as [| c sep IH]; intro s; simpl.
  - now destruct s.
  - destruct (ascii_dec c c) as [_ | N]; [apply IH | now elim N].
Qed.

(** Passing over the rest of a separator. *)
Lemma split_from_skip : forall sep a cur s,
  split_from sep (String.length a) cur (a ++ s) = split_from sep 0 cur s.
Proof.
  intros sep a. induction a as [| c a IH]; intros cur s.
  - reflexivity.
  - simpl. apply IH.
Qed.

(** A separator at the head of the text closes the current piece. *)
Lemma split_from_match : forall c sep cur s,
  split_from (String c sep) 0 cur (String c sep ++ s)
  = cur :: split_from (String c sep) 0 "" s.
Proof.
  intros c sep cur s.
  change (String c sep ++ s) with (String c (sep ++ s)).
  cbn [split_from].
  change (String c (sep ++ s)) with (String c sep ++ s).
  rewrite prefix_app. cbn [String.length Nat.sub]. rewrite Nat.sub_0_r.
  now rewrite split_from_skip.
Qed.

(** The text before the first occurrence of the separator is read into the
    current piece. *)
Lemma split_from_first : forall sep p cur s,
  find sep (p ++ s) = Some (String.length p) ->
  split_from sep 0 cur (p ++ s) = split_from sep 0 (cur ++ p) s.
Proof.
  intros sep p. induction p as [| c p IH]; intros cur s Hfind.
  - now rewrite string_app_nil_r.
  - change (String c p ++ s) with (String c (p ++ s)) in *.
    cbn [find String.length] in Hfind. cbn [split_from].
    destruct (prefix sep (String c (p ++ s))); [discriminate Hfind |].
    destruct (find sep (p ++ s)) as [i |] eqn:E; [| discriminate Hfind].
    simpl in Hfind. injection Hfind as ->.
    rewrite (IH _ _ E), string_app_assoc. reflexivity.
Qed.

(** The first piece extends the current one. *)
Lemma split_from_head : forall sep s skip cur,
  exists t, nth 0 (split_from sep skip cur s) "" = cur ++ t.
Proof.
  intros sep s. induction s as [| c s IH]; intros skip cur.
  - exists "". simpl. now rewrite string_app_nil_r.
  - cbn [split_from]. destruct skip as [| k].
    + destruct (prefix sep (String c s)).
      * exists "". simpl. now rewrite string_app_nil_r.
      * destruct (IH 0 (cur ++ String c "")) as (t & Ht).
        exists (String c t). rewrite Ht, string_app_assoc. reflexivity.
    + apply IH.
Qed.

(** Splitting at a character: text without it is read into the piece. *)
Lemma split_from_char : forall c a cur s,
  has_char c a = false ->
  split_from (String c "") 0 cur (a ++ s)
  = split_from (String c "") 0 (cur ++ a) s.
Proof.
  intros c a. induction a as [| x a IH]; intros cur s Hno.
  - now rewrite string_app_nil_r.
  - simpl in Hno. apply orb_false_iff in Hno. destruct Hno as [Hx Ha].
    change (String x a ++ s) with (String x (a ++ s)). cbn [split_from prefix].
    destruct (ascii_dec c x) as [-> | _].
    + now rewrite Ascii.eqb_refl in Hx.
    + rewrite (IH _ _ Ha), string_app_assoc. reflexivity.
Qed.

(** The piece before the first [c], or the whole text when there is none. *)
Lemma first_piece : forall c a tail,
  has_char c a = false ->
  tail = "" \/ (exists rest, tail = String c rest) ->
  nth 0 (split (String c "") (a ++ tail)) "" = a.
Proof.
  intros c a tail Hno [-> | (rest & ->)]; unfold split.
  - rewrite split_from_char by exact Hno. reflexivity.
  - rewrite split_from_char by exact Hno.
    change (String c rest) with (String c "" ++ rest).
    now rewrite split_from_match.
Qed.

Lemma marker_not_at : forall m s t,
  has_char "." s = false ->
  ends_identifier t ->
  prefix ("drive." ++ m) (s ++ t) = false.
Proof.
  intros m s t Hdot Ht.
  destruct s as [| c0 [| c1 [| c2 [| c3 [| c4 [| c5 s']]]]]];
    cbn [append prefix];
    repeat match goal with
           | |- context [ascii_dec ?a ?b] =>
               destruct (ascii_dec a b); [subst | reflexivity]
           end;
    first
      [ simpl in Hdot; discriminate Hdot
      | destruct t as [| c t']; [reflexivity |];
        cbn [prefix];
        match goal with
        | |- context [ascii_dec ?a c] =>
            destruct (ascii_dec a c); [subst | reflexivity]
        end;
        destruct Ht as [Ht | Ht]; discriminate Ht ].
Qed.

Lemma split_from_identifier : forall m id cur t,
  has_char "." id = false ->
  ends_identifier t ->
  split_from ("drive." ++ m) 0 cur (id ++ t)
  = split_from ("drive." ++ m) 0 (cur ++ id) t.
Proof.
  intros m id. induction id as [| x id IH]; intros cur t Hdot Ht.
  - now rewrite string_app_nil_r.
  - pose proof (marker_not_at m (String x id) t Hdot Ht) as Hnot.
    simpl in Hdot. apply orb_false_iff in Hdot. destruct Hdot as [_ Hid].
    change (String x id ++ t) with (String x (id ++ t)) in *.
    change (split_from ("drive." ++ m) 0 cur (String x (id ++ t)))
      with (if prefix ("drive." ++ m) (String x (id ++ t))
            then cur :: split_from ("drive." ++ m)
                          (String.length ("drive." ++ m) - 1) "" (id ++ t)
            else split_from ("drive." ++ m) 0 (cur ++ String x "") (id ++ t)).
    rewrite Hnot, (IH _ _ Hid Ht), string_app_assoc. reflexivity.
Qed.

Lemma split_from_match_marker : forall m cur s,
  split_from ("drive." ++ m) 0 cur (("drive." ++ m) ++ s)
  = cur :: split_from ("drive." ++ m) 0 "" s.
Proof. intros m cur s. exact (split_from_match "d" ("rive." ++ m) cur s). Qed.

(** The piece after the first marker starts with the identifier and what
    ends it. *)
Lemma piece_after_marker : forall m p id t,
  find ("drive." ++ m) (p ++ ("drive." ++ m) ++ id ++ t)
  = Some (String.length p) ->
  has_char "." id = false ->
  ends_identifier t ->
  exists more,
    nth 1 (split ("drive." ++ m) (p ++ ("drive." ++ m) ++ id ++ t)) ""
    = id ++ more
    /\ (t = "" -> more = "")
    /\ (forall c rest, t = String c rest -> exists more', more = String c more').
Proof.
  intros m p id t Hfind Hdot Ht. unfold split.
  rewrite (split_from_first _ _ _ _ Hfind), split_from_match_marker.
  cbn [nth]. rewrite (split_from_identifier _ _ _ _ Hdot Ht).
  change ("" ++ id) with id.
  destruct t as [| c rest].
  - exists "". simpl. rewrite string_app_nil_r.
    split; [reflexivity |]. split; [reflexivity | discriminate].
  - assert (Hnot : prefix ("drive." ++ m) (String c rest) = false).
    { cbn [append prefix]. destruct Ht as [-> | ->]; reflexivity. }
    change (split_from ("drive." ++ m) 0 id (String c rest))
      with (if prefix ("drive." ++ m) (String c rest)
            then id :: split_from ("drive." ++ m)
                         (String.length ("drive." ++ m) - 1) "" rest
            else split_from ("drive." ++ m) 0 (id ++ String c "") rest).
    rewrite Hnot.
    destruct (split_from_head ("drive." ++ m) rest 0 (id ++ String c ""))
      as (more & Hmore).
    exists (String c more). rewrite Hmore, string_app_assoc.
    split; [reflexivity |]. split; [discriminate |].
    intros c' rest' E. injection E as -> _. now exists more.
Qed.

End UrlExtraction.

Section UrlClaims.

Local Open Scope string_scope.

Lemma extract_file_id_file : forall p id rest,
  find FILE_MARKER (p ++ FILE_MARKER ++ id ++ "/" ++ rest)
  = Some (String.length p) ->
  has_char "/" id = false ->
  has_char "." id = false ->
  extract_file_id (p ++ FILE_MARKER ++ id ++ "/" ++ rest) = Some id.
Proof.
  intros p id rest Hfind Hslash Hdot.
  unfold extract_file_id, contains. rewrite Hfind.
  destruct (piece_after_marker "google.com/file/d/" p id ("/" ++ rest)
              Hfind Hdot (or_introl eq_refl))
    as (more & Hpiece & _ & Hmore).
  destruct (Hmore "/"%char rest eq_refl) as (more' & ->).
  change FILE_MARKER with ("drive." ++ "google.com/file/d/").
  rewrite Hpiece, first_piece; [reflexivity | exact Hslash |].
  right. now exists more'.
Qed.

Lemma extract_file_id_folder : forall p id tail,
  contains FILE_MARKER (p ++ FOLDER_MARKER ++ id ++ tail) = false ->
  find FOLDER_MARKER (p ++ FOLDER_MARKER ++ id ++ tail)
  = Some (String.length p) ->
  tail = "" \/ (exists query, tail = "?" ++ query) ->
  has_char "?" id = false ->
  has_char "." id = false ->
  extract_file_id (p ++ FOLDER_MARKER ++ id ++ tail) = Some id.
Proof.
  intros p id tail Hfile Hfind Htail Hquery Hdot.
  unfold extract_file_id. rewrite Hfile. unfold contains. rewrite Hfind.
  assert (Hends : ends_identifier tail).
  { destruct Htail as [-> | (query & ->)]; simpl; auto. }
  destruct (piece_after_marker "google.com/drive/folders/" p id tail
              Hfind Hdot Hends)
    as (more & Hpiece & Hnil & Hmore).
  change FOLDER_MARKER with ("drive." ++ "google.com/drive/folders/").
  rewrite Hpiece, first_piece; [reflexivity | exact Hquery |].
  destruct Htail as [-> | (query & ->)].
  - left. now apply Hnil.
  - right. exact (Hmore "?"%char query eq_refl).
Qed.

Lemma extract_file_id_none : forall url,
  contains FILE_MARKER url = false ->
  contains FOLDER_MARKER url = false ->
  extract_file_id url = None.
Proof.
  intros url Hfile Hfolder. unfold extract_file_id.
  now rewrite Hfile, Hfolder.
Qed.

Lemma row_without_identifier_skipped :
  forall g svc fuel backup name raw more w,
    extract_file_id (strip raw) = None ->
    process_row g svc fuel backup (name :: raw :: more) w
    = (Ret tt, snd (print (SkippingRow (strip raw)) w)).
Proof.
  intros g svc fuel backup name raw more w Hnone.
  unfold process_row. cbn [List.length Nat.leb nth]. rewrite Hnone.
  reflexivity.
Qed.

(** C8 (amended).  The two shapes are recognised by the markers
    [drive.google.com/file/d/] and [drive.google.com/drive/folders/], host
    included.  A URL whose first file marker is followed by an identifier
    (without [/] or [.]) and a [/] yields that identifier; a URL without
    file marker whose first folder marker is followed by an identifier
    (without [?] or [.]) and then nothing or [?...] yields that identifier;
    a URL that contains neither marker yields nothing, and its row is
    skipped with the diagnostic of line 277. *)
Theorem url_identifier_extraction :
  (forall p id rest,
     find FILE_MARKER (p ++ FILE_MARKER ++ id ++ "/" ++ rest)
     = Some (String.length p) ->
     has_char "/" id = false ->
     has_char "." id = false ->
     extract_file_id (p ++ FILE_MARKER ++ id ++ "/" ++ rest) = Some id)
  /\ (forall p id tail,
        contains FILE_MARKER (p ++ FOLDER_MARKER ++ id ++ tail) = false ->
        find FOLDER_MARKER (p ++ FOLDER_MARKER ++ id ++ tail)
        = Some (String.length p) ->
        tail = "" \/ (exists query, tail = "?" ++ query) ->
        has_char "?" id = false ->
        has_char "." id = false ->
        extract_file_id (p ++ FOLDER_MARKER ++ id ++ tail) = Some id)
  /\ (forall g svc fuel backup name raw more w,
        contains FILE_MARKER (strip raw) = false ->
        contains FOLDER_MARKER (strip raw) = false ->
        extract_file_id (strip raw) = None
        /\ process_row g svc fuel backup (name :: raw :: more) w
           = (Ret tt, snd (print (SkippingRow (strip raw)) w))).
Proof.
  split; [exact extract_file_id_file |].
  split; [exact extract_file_id_folder |].
  intros g svc fuel backup name raw more w Hfile Hfolder.
  pose proof (extract_file_id_none _ Hfile Hfolder) as Hnone.
  split; [exact Hnone | now apply row_without_identifier_skipped].
Qed.

Lemma url_identifier_extraction_witness :
  extract_file_id "https://drive.google.com/file/d/ABC123/view" = Some "ABC123"
  /\ extract_file_id "https://drive.google.com/drive/folders/XYZ789?usp=sharing"
     = Some "XYZ789"
  /\ (extract_file_id (strip " https://example.org/ABC123 ") = None
      /\ process_row module_globals service_healthy 5 "BAK"
           ["name"; " https://example.org/ABC123 "] initial_world
         = (Ret tt,
            snd (print (SkippingRow (strip " https://example.org/ABC123 "))
                   initial_world))).
Proof.
  split; [| split].
  - apply (proj1 url_identifier_extraction "https://" "ABC123" "view");
      vm_compute; reflexivity.
  - apply (proj1 (proj2 url_identifier_extraction) "https://" "XYZ789"
             "?usp=sharing");
      try (vm_compute; reflexivity).
    right. now exists "usp=sharing".
  - apply (proj2 (proj2 url_identifier_extraction)); vm_compute; reflexivity.
Defined.

Lemma other_hosts_and_paths_yield_nothing :
  extract_file_id "https://docs.google.com/file/d/ABC123/view" = None
  /\ extract_file_id "https://drive.google.com/drive/u/0/folders/XYZ789?usp=sharing"
     = None
  /\ ~ shapes_yield_identifier.
Proof.
  split; [vm_compute; reflexivity |]. split; [vm_compute; reflexivity |].
  intros [Hfile _].
  specialize (Hfile "https://docs.google.com/" "ABC123" "view" eq_refl eq_refl).
  vm_compute in Hfile. discriminate Hfile.
Qed.

End UrlClaims.

(** * Further properties *)

(** ** What the decorator lets through *)

Lemma wrapper_loop_raise_origin :
  forall A name (func : M A) fuel retries w e w',
    wrapper_loop name func fuel retries w = (Raise e, w') ->
    retryable e = false
    /\ (e = Exception (max_retries_message name)
        \/ exists w0 w1, func w0 = (Raise e, w1)).
Proof.
  intros A name func fuel.
  induction fuel as [| fuel IH]; intros retries w e w' H.
  - simpl in H. destruct (retries <? MAX_RETRIES)%nat; [discriminate H |].
    inversion H; subst. split; [reflexivity | now left].
  - destruct (Nat.lt_ge_cases retries MAX_RETRIES) as [Hlt | Hge].
    + rewrite wrapper_loop_step in H by exact Hlt.
      match type of H with
      | context [func ?w0] => destruct (func w0) as [[a | e0 |] w1] eqn:E
      end; try discriminate H.
      destruct e0 as [status | | n | m | k | m];
        try (inversion H; subst; split; [reflexivity | right; eauto]).
      * destruct (retryable (HttpError status)) eqn:Er.
        -- rewrite print_sleep_then in H. exact (IH _ _ _ _ H).
        -- inversion H; subst. split; [exact Er | right; eauto].
      * rewrite print_sleep_then in H. exact (IH _ _ _ _ H).
    + rewrite wrapper_loop_exhausted in H by exact Hge.
      inversion H; subst. split; [reflexivity | now left].
Qed.

(** X1.  Whatever the decorated function does, an exception that leaves
    [retry_with_backoff] is never a transient one (HTTP 429, 500, 502, 503,
    504 or [OSError]): it is the "Max retries" exception, or an exception
    the function itself raised. *)
Theorem retry_never_leaks_transient :
  forall A name (func : M A) w e w',
    retry_with_backoff name func w = (Raise e, w') ->
    retryable e = false
    /\ (e = Exception (max_retries_message name)
        \/ exists w0 w1, func w0 = (Raise e, w1)).
Proof. intros A name func w e w'. apply wrapper_loop_raise_origin. Qed.

Lemma retry_never_leaks_transient_witness :
  retryable (Exception (max_retries_message "list_files_in_folder")) = false
  /\ (Exception (max_retries_message "list_files_in_folder")
      = Exception (max_retries_message "list_files_in_folder")
      \/ exists w0 w1,
           execute (FilesList "'D1' in parents and trashed = false")
             (fun n => files_list service_offline n
                         "'D1' in parents and trashed = false") w0
           = (Raise (Exception (max_retries_message "list_files_in_folder")),
              w1)).
Proof.
  apply (@retry_never_leaks_transient _ "list_files_in_folder"
           (execute (FilesList "'D1' in parents and trashed = false")
              (fun n => files_list service_offline n
                          "'D1' in parents and trashed = false"))
           initial_world _
           (snd (list_files_in_folder service_offline "D1" [] initial_world))).
  vm_compute. reflexivity.
Defined.

(** A clause [except HttpError] whose handler returns lets no [HttpError]
    out. *)
Lemma try_except_catches_HttpError :
  forall A (body : M A) (handler : Exn -> M A) w e w',
    (forall e0 w0 e1 w1, handler e0 w0 <> (Raise e1, w1)) ->
    try_except body is_HttpError handler w = (Raise e, w') ->
    is_HttpError e = false.
Proof.
  intros A body handler w e w' Hh H. unfold try_except in H.
  destruct (body w) as [[a | e0 |] w1]; try discriminate H.
  destruct (is_HttpError e0) eqn:E0.
  - now elim (Hh _ _ _ _ H).
  - now inversion H; subst.
Qed.

Lemma print_then_ret_never_raises : forall A d (v : A) w e1 w1,
  (print d ;; ret v) w <> (Raise e1, w1).
Proof. intros. discriminate. Qed.

(** A decorated function whose body is one [try / except HttpError] with a
    returning handler raises neither [HttpError] nor [OSError]. *)
Lemma guarded_helper_exceptions :
  forall A name (body : M A) (handler : Exn -> M A) w e w',
    (forall e0 w0 e1 w1, handler e0 w0 <> (Raise e1, w1)) ->
    retry_with_backoff name (try_except body is_HttpError handler) w
    = (Raise e, w') ->
    is_HttpError e = false /\ e <> OSError.
Proof.
  intros A name body handler w e w' Hh H.
  destruct (wrapper_loop_raise_origin _ _ _ _ _ H)
    as [Hre [-> | (w0 & w1 & Hf)]].
  - split; [reflexivity | discriminate].
  - split.
    + exact (try_except_catches_HttpError _ _ _ Hh Hf).
    + intros ->. discriminate Hre.
Qed.

(** X2.  [get_file_metadata], [create_folder], [copy_file] and [move_file]
    never raise an [HttpError] and never raise an [OSError], on any service:
    an HTTP error becomes the result [None], a transport error is retried
    until the "Max retries" exception replaces it. *)
Theorem helpers_raise_no_http_or_transport_error :
  forall svc e w w',
    (forall file_id fields,
       get_file_metadata svc file_id fields w = (Raise e, w') ->
       is_HttpError e = false /\ e <> OSError)
    /\ (forall folder_name parent_id,
          create_folder svc folder_name parent_id w = (Raise e, w') ->
          is_HttpError e = false /\ e <> OSError)
    /\ (forall file_id new_file_name,
          copy_file svc file_id new_file_name w = (Raise e, w') ->
          is_HttpError e = false /\ e <> OSError)
    /\ (forall file_id new_parent_id,
          move_file svc file_id new_parent_id w = (Raise e, w') ->
          is_HttpError e = false /\ e <> OSError).
Proof.
  intros svc e w w'.
  split; [| split; [| split]]; intros ? ? H;
    unfold get_file_metadata, create_folder, copy_file, move_file in H;
    cbv zeta in H;
    (eapply guarded_helper_exceptions; [| exact H]);
    intros; apply print_then_ret_never_raises.
Qed.

Lemma helpers_raise_no_http_or_transport_error_witness :
  is_HttpError (Exception (max_retries_message "get_file_metadata")) = false
  /\ Exception (max_retries_message "get_file_metadata") <> OSError.
Proof.
  apply (proj1 (helpers_raise_no_http_or_transport_error service_offline
                  (Exception (max_retries_message "get_file_metadata"))
                  initial_world
                  (snd (get_file_metadata service_offline "F1" DEFAULT_FIELDS
                          initial_world)))
           "F1" DEFAULT_FIELDS).
  vm_compute. reflexivity.
Defined.

(** ** The waits of the decorator *)

Lemma sleeps_app : forall t1 t2, sleeps (t1 ++ t2) = sleeps t1 ++ sleeps t2.
Proof.
  induction t1 as [| e t1 IH]; intro t2; [reflexivity |].
  destruct e; simpl; now rewrite IH.
Qed.

Lemma wrapper_loop_schedule : forall A name (func : M A) fuel retries w,
  (forall w0, exists e w1,
     func w0 = (Raise e, w1) /\ retryable e = true
     /\ sleeps (trace w1) = sleeps (trace w0)) ->
  retries + fuel = MAX_RETRIES ->
  exists w',
    wrapper_loop name func fuel retries w
    = (Raise (Exception (max_retries_message name)), w')
    /\ sleeps (trace w')
       = sleeps (trace w) ++ map wait_time (seq (S retries) fuel)
    /\ (0 < fuel ->
        exists t, trace w' = t ++ [EvSleep (wait_time MAX_RETRIES)]).
Proof.
  intros A name func fuel.
  induction fuel as [| fuel IH]; intros retries w Htr Hsum.
  - exists w. rewrite wrapper_loop_exhausted by lia.
    split; [reflexivity |]. split; [simpl; now rewrite app_nil_r | lia].
  - rewrite wrapper_loop_step by lia.
    set (w0 := {| calls := calls w; trace := trace w ++ [EvAttempt name] |}).
    destruct (Htr w0) as (e & w1 & Hf & Hre & Hquiet).
    assert (H1 : sleeps (trace w1) = sleeps (trace w)).
    { rewrite Hquiet. unfold w0. cbn [trace]. rewrite sleeps_app. simpl.
      now rewrite app_nil_r. }
    rewrite Hf.
    destruct e as [status | | n | m | k | m]; try discriminate Hre;
      try rewrite Hre; rewrite print_sleep_then;
      match goal with
      | |- context [wrapper_loop name func fuel (S retries) ?w2] =>
          destruct (IH (S retries) w2 Htr ltac:(lia)) as (w' & Hrun & Hs & Hl);
          exists w'; (split; [exact Hrun |]); split;
          [ rewrite Hs; cbn [trace]; rewrite !sleeps_app, H1; simpl;
            rewrite app_nil_r, <- app_assoc; reflexivity
          | intros _; destruct fuel as [| fuel'];
            [ rewrite wrapper_loop_exhausted in Hrun by lia;
              inversion Hrun; subst w'; cbn [trace];
              replace (S retries) with MAX_RETRIES by lia; eauto
            | apply Hl; lia ] ]
      end.
Qed.

(** X3.  A decorated function that fails with a transient error at every
    attempt (and does not sleep itself) makes the caller wait five times,
    for 2, 4, 8, 16 and 32 seconds (each plus a jitter below one second):
    the wait doubles, and the last wait is spent just before the "Max
    retries" exception, although no attempt follows it. *)
Theorem retry_backoff_schedule :
  forall A name (func : M A) w,
    (forall w0, exists e w1,
       func w0 = (Raise e, w1) /\ retryable e = true
       /\ sleeps (trace w1) = sleeps (trace w0)) ->
    exists w' t,
      retry_with_backoff name func w
      = (Raise (Exception (max_retries_message name)), w')
      /\ sleeps (trace w') = sleeps (trace w) ++ [2; 4; 8; 16; 32]%Z
      /\ trace w' = t ++ [EvSleep 32].
Proof.
  intros A name func w Htr.
  destruct (@wrapper_loop_schedule A name func MAX_RETRIES 0 w Htr eq_refl)
    as (w' & Hrun & Hs & Hl).
  destruct (Hl ltac:(unfold MAX_RETRIES; lia)) as (t & Ht).
  exists w', t. split; [exact Hrun |]. split; [exact Hs | exact Ht].
Qed.

Lemma retry_backoff_schedule_witness :
  exists w' t,
    retry_with_backoff "op" (raise OSError : M unit) initial_world
    = (Raise (Exception (max_retries_message "op")), w')
    /\ sleeps (trace w') = sleeps (trace initial_world) ++ [2; 4; 8; 16; 32]%Z
    /\ trace w' = t ++ [EvSleep 32].
Proof.
  apply (@retry_backoff_schedule unit "op" (raise OSError) initial_world).
  intro w0. exists OSError, w0. repeat split.
Defined.

(** ** How many remote calls a helper can make *)

Lemma at_most_ret : forall A (a : A), at_most 0 (ret a).
Proof. intros A a w. simpl. lia. Qed.

Lemma at_most_raise : forall A e, at_most 0 (raise e : M A).
Proof. intros A e w. simpl. lia. Qed.

Lemma at_most_log : forall e, at_most 0 (log e).
Proof. intros e w. simpl. lia. Qed.

Lemma at_most_getitem : forall A key (o : option A), at_most 0 (getitem key o).
Proof. intros A key [v |] w; simpl; lia. Qed.

Lemma at_most_execute : forall R req (answer : nat -> Exn + R),
  at_most 1 (execute req answer).
Proof.
  intros R req answer w. unfold execute. destruct (answer (calls w)); simpl; lia.
Qed.

Lemma at_most_weaken : forall A (m : M A) c c',
  at_most c m -> c <= c' -> at_most c' m.
Proof. intros A m c c' H Hle w. specialize (H w). lia. Qed.

Lemma at_most_bind : forall A B (m : M A) (k : A -> M B) c1 c2,
  at_most c1 m -> (forall a, at_most c2 (k a)) -> at_most (c1 + c2) (bind m k).
Proof.
  intros A B m k c1 c2 Hm Hk w. unfold bind. specialize (Hm w).
  destruct (m w) as [[a | e |] w1]; simpl in *; try lia.
  specialize (Hk a w1). lia.
Qed.

Lemma at_most_try_except : forall A (body : M A) catches handler c1 c2,
  at_most c1 body -> (forall e, at_most c2 (handler e)) ->
  at_most (c1 + c2) (try_except body catches handler).
Proof.
  intros A body catches handler c1 c2 Hb Hh w. unfold try_except.
  specialize (Hb w).
  destruct (body w) as [[a | e |] w1]; simpl in *; try lia.
  destruct (catches e); simpl; [| lia]. specialize (Hh e w1). lia.
Qed.

Lemma at_most_wrapper_loop : forall A name (func : M A) c fuel retries,
  at_most c func ->
  at_most (c * (MAX_RETRIES - retries)) (wrapper_loop name func fuel retries).
Proof.
  intros A name func c fuel.
  induction fuel as [| fuel IH]; intros retries Hf w.
  - simpl. destruct (retries <? MAX_RETRIES)%nat; simpl; lia.
  - destruct (Nat.lt_ge_cases retries MAX_RETRIES) as [Hlt | Hge].
    + rewrite wrapper_loop_step by exact Hlt.
      set (w0 := {| calls := calls w; trace := trace w ++ [EvAttempt name] |}).
      pose proof (Hf w0) as H0. change (calls w0) with (calls w) in H0.
      assert (Hmul : c * (MAX_RETRIES - retries)
                     = c + c * (MAX_RETRIES - S retries)).
      { replace (MAX_RETRIES - retries) with (S (MAX_RETRIES - S retries))
          by lia. lia. }
      assert (Hnext : forall d w1,
                calls w1 <= calls w + c ->
                calls (snd ((print d ;;
                             log (EvSleep (wait_time (S retries))) ;;
                             wrapper_loop name func fuel (S retries)) w1))
                <= calls w + c * (MAX_RETRIES - retries)).
      { intros d w1 H1. rewrite print_sleep_then.
        match goal with
        | |- context [wrapper_loop name func fuel (S retries) ?w2] =>
            pose proof (IH (S retries) Hf w2) as H2
        end.
        cbn [calls] in H2. rewrite Hmul.
        apply (Nat.le_trans _ _ _ H2). rewrite Nat.add_assoc.
        apply Nat.add_le_mono_r. exact H1. }
      destruct (func w0) as [[a | e |] w1]; cbn [snd] in H0 |- *.
      * rewrite Hmul. apply (Nat.le_trans _ _ _ H0);
          rewrite Nat.add_assoc; apply Nat.le_add_r.
      * destruct e; cbn [snd];
          try (rewrite Hmul; apply (Nat.le_trans _ _ _ H0);
               rewrite Nat.add_assoc; apply Nat.le_add_r).
        -- destruct (retryable (HttpError status)); [now apply Hnext |].
           cbn [snd]. rewrite Hmul. apply (Nat.le_trans _ _ _ H0);
          rewrite Nat.add_assoc; apply Nat.le_add_r.
        -- now apply Hnext.
      * rewrite Hmul. apply (Nat.le_trans _ _ _ H0);
          rewrite Nat.add_assoc; apply Nat.le_add_r.
    + rewrite wrapper_loop_exhausted by exact Hge. simpl. lia.
Qed.

Lemma at_most_retry_with_backoff : forall A name (func : M A) c,
  at_most c func -> at_most (c * MAX_RETRIES) (retry_with_backoff name func).
Proof.
  intros A name func c Hf. unfold retry_with_backoff.
  replace (c * MAX_RETRIES) with (c * (MAX_RETRIES - 0))
    by (now rewrite Nat.sub_0_r).
  now apply at_most_wrapper_loop.
Qed.

Lemma at_most_get_file_metadata : forall svc file_id fields,
  at_most 5 (get_file_metadata svc file_id fields).
Proof.
  intros. unfold get_file_metadata.
  apply at_most_retry_with_backoff with (c := 1).
  apply at_most_try_except with (c1 := 1) (c2 := 0).
  - apply at_most_bind with (c1 := 1) (c2 := 0);
      [apply at_most_execute | intro; apply at_most_ret].
  - intro. apply at_most_bind with (c1 := 0) (c2 := 0);
      [apply at_most_log | intro; apply at_most_ret].
Qed.

Lemma at_most_print_ret : forall A d (v : A), at_most 0 (print d ;; ret v).
Proof. intros A d v w. simpl. lia. Qed.

Lemma at_most_create_folder : forall svc folder_name parent_id,
  at_most 5 (create_folder svc folder_name parent_id).
Proof.
  intros. unfold create_folder. cbv zeta.
  apply at_most_retry_with_backoff with (c := 1).
  apply at_most_try_except with (c1 := 1) (c2 := 0).
  - apply at_most_bind with (c1 := 1) (c2 := 0);
      [apply at_most_execute | intro; apply at_most_print_ret].
  - intro. apply at_most_print_ret.
Qed.

Lemma at_most_list_files_in_folder : forall svc folder_id extra,
  at_most 5 (list_files_in_folder svc folder_id extra).
Proof.
  intros. unfold list_files_in_folder.
  apply at_most_retry_with_backoff with (c := 1).
  destruct extra.
  - apply at_most_execute.
  - apply at_most_weaken with (c := 0); [apply at_most_raise | lia].
Qed.

Lemma at_most_move_file : forall svc file_id new_parent_id,
  at_most 10 (move_file svc file_id new_parent_id).
Proof.
  intros. unfold move_file.
  apply at_most_retry_with_backoff with (c := 2).
  apply at_most_try_except with (c1 := 2) (c2 := 0).
  - apply at_most_bind with (c1 := 1) (c2 := 1); [apply at_most_execute |].
    intro file. apply at_most_bind with (c1 := 0) (c2 := 1).
    + unfold join_parents. destruct (f_parents file);
        [apply at_most_ret | apply at_most_raise].
    + intro. apply at_most_bind with (c1 := 1) (c2 := 0);
        [apply at_most_execute | intro; apply at_most_print_ret].
  - intro. apply at_most_print_ret.
Qed.

Lemma at_most_copy_file : forall svc file_id new_file_name,
  at_most 30 (copy_file svc file_id new_file_name).
Proof.
  intros. unfold copy_file.
  apply at_most_retry_with_backoff with (c := 6).
  apply at_most_try_except with (c1 := 6) (c2 := 0).
  - apply at_most_bind with (c1 := 5) (c2 := 1);
      [apply at_most_get_file_metadata |].
    intros [original |]; [| apply at_most_weaken with (c := 0);
                             [apply at_most_print_ret | lia]].
    destruct (dict_is_empty original);
      [apply at_most_weaken with (c := 0); [apply at_most_print_ret | lia] |].
    apply at_most_bind with (c1 := 0) (c2 := 1).
    + destruct new_file_name as [n |];
        [destruct (truthy (Some n)); [apply at_most_ret |] |];
        apply at_most_getitem.
    + intro name. cbv zeta.
      apply at_most_bind with (c1 := 1) (c2 := 0); [apply at_most_execute |].
      intro copied.
      apply at_most_bind with (c1 := 0) (c2 := 0); [apply at_most_getitem |].
      intro. apply at_most_print_ret.
  - intro. apply at_most_print_ret.
Qed.

(** A download makes one call for each chunk and one for the call that ends
    it. *)
Lemma at_most_download_loop : forall request rest fh ending,
  at_most (S (List.length rest)) (download_loop request fh rest ending).
Proof.
  intros request rest. induction rest as [| chunk rest IH]; intros fh ending;
    cbn [download_loop List.length].
  - apply at_most_bind with (c1 := 1) (c2 := 0); [apply at_most_execute |].
    intro. apply at_most_print_ret.
  - apply at_most_bind with (c1 := 1) (c2 := S (List.length rest));
      [apply at_most_execute |].
    intro. apply at_most_bind with (c1 := 0) (c2 := S (List.length rest));
      [apply at_most_log | intro; apply IH].
Qed.

Lemma at_most_download : forall svc request c,
  (forall n, List.length (chunks (media_download svc n request)) <= c) ->
  at_most (S c) (download svc request).
Proof.
  intros svc request c Hc w. unfold download. cbv zeta.
  pose proof (at_most_download_loop request
                (chunks (media_download svc (calls w) request)) ""
                (ending (media_download svc (calls w) request)) w) as H.
  specialize (Hc (calls w)). lia.
Qed.

(** In the namespace of the script an attempt of the fallback ends, at the
    latest, with the reference to [MediaIoBaseUpload]. *)
Lemma at_most_download_and_upload_file :
  forall svc file_id original_filename c,
    (forall n request,
       List.length (chunks (media_download svc n request)) <= c) ->
    at_most (5 * (c + 6))
      (download_and_upload_file module_globals svc file_id original_filename).
Proof.
  intros svc file_id original_filename c Hc.
  unfold download_and_upload_file.
  replace (5 * (c + 6)) with ((c + 6) * MAX_RETRIES)
    by (unfold MAX_RETRIES; lia).
  apply at_most_retry_with_backoff with (c := c + 6).
  apply at_most_weaken with (c := 5 + S c); [| lia].
  apply at_most_bind with (c1 := 5) (c2 := S c);
    [apply at_most_get_file_metadata |].
  intro original_file.
  destruct (unavailable original_file);
    [apply at_most_weaken with (c := 0); [apply at_most_print_ret | lia] |].
  cbv zeta. destruct (select_export _ _) as [export_mime file_extension].
  apply at_most_weaken with (c := S c + 0); [| lia].
  apply at_most_try_except with (c1 := S c) (c2 := 0).
  - apply at_most_weaken with (c := S c + 0); [| lia].
    apply at_most_bind with (c1 := S c) (c2 := 0);
      [apply at_most_download; intro n; apply Hc |].
    intros fh w. unfold MediaIoBaseUpload. cbn [has_MediaIoBaseUpload module_globals].
    destruct export_mime; simpl; lia.
  - intro. apply at_most_print_ret.
Qed.

(** X4.  On any service, however it fails, a call of a helper makes a
    bounded number of remote calls: at most 5 for [get_file_metadata],
    [create_folder] and [list_files_in_folder], 10 for [move_file] and 30
    for [copy_file] (which fetches the metadata again at every attempt).
    [download_and_upload_file] has no such bound of its own, since every
    [next_chunk()] is a remote call and every attempt starts the download
    again: on a service none of whose downloads takes more than [c + 1]
    calls of [next_chunk()], it makes at most [5 * (c + 6)] remote calls,
    five for the metadata and [c + 1] for the download at each attempt. *)
Theorem helpers_remote_calls_bounded :
  forall svc w,
    (forall file_id fields,
       calls (snd (get_file_metadata svc file_id fields w)) <= calls w + 5)
    /\ (forall folder_name parent_id,
          calls (snd (create_folder svc folder_name parent_id w))
          <= calls w + 5)
    /\ (forall folder_id extra,
          calls (snd (list_files_in_folder svc folder_id extra w))
          <= calls w + 5)
    /\ (forall file_id new_parent_id,
          calls (snd (move_file svc file_id new_parent_id w)) <= calls w + 10)
    /\ (forall file_id new_file_name,
          calls (snd (copy_file svc file_id new_file_name w)) <= calls w + 30)
    /\ (forall c file_id original_filename,
          (forall n request,
             List.length (chunks (media_download svc n request)) <= c) ->
          calls (snd (download_and_upload_file module_globals svc file_id
                        original_filename w)) <= calls w + 5 * (c + 6)).
Proof.
  intros svc w. repeat split; intros.
  - apply at_most_get_file_metadata.
  - apply at_most_create_folder.
  - apply at_most_list_files_in_folder.
  - apply at_most_move_file.
  - apply at_most_copy_file.
  - now apply at_most_download_and_upload_file.
Qed.

Lemma helpers_remote_calls_bounded_witness :
  calls (snd (download_and_upload_file module_globals service_interrupted
                "F1" "notes.txt" initial_world))
  <= calls initial_world + 5 * (2 + 6).
Proof.
  destruct (@helpers_remote_calls_bounded service_interrupted initial_world)
    as (_ & _ & _ & _ & _ & H).
  apply H. intros n request. simpl. lia.
Defined.

(** On that service the fallback makes twenty remote calls: at each of its
    five attempts the metadata request and the three calls of
    [next_chunk()], the last of which fails. *)
Example interrupted_download_restarts :
  calls (snd (download_and_upload_file module_globals service_interrupted
                "F1" "notes.txt" initial_world)) = 20
  /\ fst (download_and_upload_file module_globals service_interrupted
            "F1" "notes.txt" initial_world)
     = Raise (Exception (max_retries_message "download_and_upload_file")).
Proof. split; vm_compute; reflexivity. Qed.

(** ** What the helpers do when the service answers *)

Lemma requests_app : forall t1 t2,
  requests (t1 ++ t2) = requests t1 ++ requests t2.
Proof.
  induction t1 as [| e t1 IH]; intro t2; [reflexivity |].
  destruct e; simpl; now rewrite IH.
Qed.

Ltac solve_requests :=
  repeat rewrite requests_app; simpl;
  repeat rewrite app_nil_r; repeat rewrite <- app_assoc; simpl;
  reflexivity.

Lemma steps_refl : forall w, steps w w [].
Proof. intro w. split; [simpl; lia | now rewrite app_nil_r]. Qed.

Lemma steps_trans : forall w1 w2 w3 s1 s2,
  steps w1 w2 s1 -> steps w2 w3 s2 -> steps w1 w3 (s1 ++ s2).
Proof.
  intros w1 w2 w3 s1 s2 [C1 R1] [C2 R2]. split.
  - rewrite C2, C1, length_app. lia.
  - now rewrite R2, R1, app_assoc.
Qed.

Lemma steps_log : forall w d, steps w (snd (print d w)) [].
Proof.
  intros w d. split; simpl; [lia |].
  rewrite requests_app. reflexivity.
Qed.

(** The first attempt settles the call unless it fails transiently. *)
Lemma retry_first_attempt : forall A name (func : M A) w r w',
  func (snd (log (EvAttempt name) w)) = (r, w') ->
  match r with Raise e => retryable e = false | _ => True end ->
  retry_with_backoff name func w = (r, w').
Proof.
  intros A name func w r w' Hf Hr. unfold retry_with_backoff.
  change MAX_RETRIES with 5 at 1.
  rewrite wrapper_loop_step by (unfold MAX_RETRIES; lia).
  cbn [log snd] in Hf. rewrite Hf.
  destruct r as [a | e |]; try reflexivity.
  destruct e; try reflexivity; [now rewrite Hr | discriminate Hr].
Qed.

Lemma dict_with_name_not_empty : forall d name,
  f_name d = Some name -> dict_is_empty d = false.
Proof.
  intros d name H. unfold dict_is_empty. rewrite H.
  now destruct (f_id d).
Qed.

Lemma get_file_metadata_answered : forall svc file_id fields w md,
  files_get svc (calls w) file_id fields = inr md ->
  exists w1,
    get_file_metadata svc file_id fields w = (Ret (Some md), w1)
    /\ steps w w1 [FilesGet file_id fields].
Proof.
  intros svc file_id fields w md H. unfold get_file_metadata.
  eexists. split.
  - apply retry_first_attempt; [| exact I].
    unfold try_except, bind, execute. cbn [log snd calls trace].
    rewrite H. reflexivity.
  - split; cbn [calls trace]; [simpl; lia |].
    solve_requests.
Qed.

Lemma create_folder_answered : forall svc folder_name parent w folder,
  parent <> ""%string ->
  files_create svc (calls w)
    {| body_name := folder_name; body_mimeType := Some FOLDER_MIME;
       body_parents := Some [parent] |} None = inr folder ->
  exists w1,
    create_folder svc folder_name (Some parent) w = (Ret (f_id folder), w1)
    /\ steps w w1
         [FilesCreate
            {| body_name := folder_name; body_mimeType := Some FOLDER_MIME;
               body_parents := Some [parent] |} None].
Proof.
  intros svc folder_name parent w folder Hparent H. unfold create_folder.
  assert (Htruthy : truthy (Some parent) = true).
  { simpl. destruct (String.eqb_spec parent ""); [contradiction | reflexivity]. }
  rewrite Htruthy. cbv zeta.
  eexists. split.
  - apply retry_first_attempt; [| exact I].
    unfold try_except, bind, execute. cbn [log snd calls trace].
    rewrite H. reflexivity.
  - split; cbn [calls trace print log snd]; [simpl; lia |].
    solve_requests.
Qed.

Lemma copy_file_answered : forall svc file_id w md name copied,
  files_get svc (calls w) file_id DEFAULT_FIELDS = inr md ->
  f_name md = Some name ->
  files_copy svc (S (calls w)) file_id
    {| body_name := name; body_mimeType := None; body_parents := None |}
  = inr copied ->
  exists w1,
    copy_file svc file_id None w = (Ret (f_id copied), w1)
    /\ steps w w1
         [FilesGet file_id DEFAULT_FIELDS;
          FilesCopy file_id
            {| body_name := name; body_mimeType := None;
               body_parents := None |}].
Proof.
  intros svc file_id w md name copied Hget Hname Hcopy. unfold copy_file.
  destruct (get_file_metadata_answered svc file_id DEFAULT_FIELDS
              (snd (log (EvAttempt "copy_file") w)) Hget)
    as (w1 & Hmeta & [C1 R1]).
  cbn [log snd calls trace] in C1, R1.
  eexists. split.
  - apply retry_first_attempt; [| exact I].
    unfold try_except. rewrite (bind_Ret _ _ _ Hmeta).
    rewrite (dict_with_name_not_empty _ Hname), Hname. cbn [getitem].
    rewrite bind_ret_l. cbv zeta. unfold bind, execute.
    rewrite C1. cbn [List.length Nat.add]. rewrite Nat.add_comm.
    cbn [Nat.add]. rewrite Hcopy. reflexivity.
  - split; cbn [calls trace print log snd].
    + simpl. lia.
    + rewrite !requests_app, R1. solve_requests.
Qed.

Lemma move_file_answered : forall svc file_id new_parent w meta parents moved,
  files_get svc (calls w) file_id "parents" = inr meta ->
  f_parents meta = Some parents ->
  files_update svc (S (calls w)) file_id new_parent (String.concat "," parents)
  = inr moved ->
  exists w1,
    move_file svc file_id new_parent w = (Ret (f_id moved), w1)
    /\ steps w w1
         [FilesGet file_id "parents";
          FilesUpdate file_id new_parent (String.concat "," parents)].
Proof.
  intros svc file_id new_parent w meta parents moved Hget Hparents Hupdate.
  unfold move_file.
  eexists. split.
  - apply retry_first_attempt; [| exact I].
    unfold try_except, bind, execute, join_parents.
    cbn [log snd calls trace]. rewrite Hget, Hparents.
    cbn [ret calls]. rewrite Hupdate. reflexivity.
  - split; cbn [calls trace print log snd]; [simpl; lia |].
    solve_requests.
Qed.

(** X5.  When the service reports no [parents] for an item, [move_file]
    raises [TypeError] from the [join] of line 133, after the one request
    that read the parents: no [update] request is sent, and the exception
    is not retried. *)
Theorem move_file_without_parents :
  forall svc file_id new_parent w meta,
    files_get svc (calls w) file_id "parents" = inr meta ->
    f_parents meta = None ->
    exists w1,
      move_file svc file_id new_parent w
      = (Raise (TypeError "can only join an iterable"), w1)
      /\ steps w w1 [FilesGet file_id "parents"]
      /\ attempts "move_file" (trace w1) = attempts "move_file" (trace w) + 1.
Proof.
  intros svc file_id new_parent w meta Hget Hparents. unfold move_file.
  eexists. split; [| split].
  - apply retry_first_attempt; [| reflexivity].
    unfold try_except, bind, execute, join_parents.
    cbn [log snd calls trace]. rewrite Hget, Hparents. reflexivity.
  - split; cbn [calls trace]; [simpl; lia | solve_requests].
  - cbn [trace]. rewrite !attempts_app. unfold attempts at 2 3. simpl. lia.
Qed.

Lemma move_file_without_parents_witness :
  exists w1,
    move_file service_no_parents "F1" "BAK" initial_world
    = (Raise (TypeError "can only join an iterable"), w1)
    /\ steps initial_world w1 [FilesGet "F1" "parents"]
    /\ attempts "move_file" (trace w1)
       = attempts "move_file" (trace initial_world) + 1.
Proof.
  apply (@move_file_without_parents service_no_parents "F1" "BAK"
           initial_world (just_id "F1")); reflexivity.
Defined.

(** X6.  A file whose requests are all answered, and whose copy comes back
    with an identifier, is migrated by [process_item] with exactly five
    requests, in this order: its metadata, its metadata again (inside
    [copy_file], whose answer names the copy), the copy, its parents, and
    the update that makes the backup folder its only parent. *)
Theorem file_migration_requests :
  forall g svc fuel file_id backup w md mime name md2 name2 copied dup
         meta parents moved,
    files_get svc (calls w) file_id DEFAULT_FIELDS = inr md ->
    f_mimeType md = Some mime ->
    String.eqb mime FOLDER_MIME = false ->
    f_name md = Some name ->
    files_get svc (calls w + 1) file_id DEFAULT_FIELDS = inr md2 ->
    f_name md2 = Some name2 ->
    files_copy svc (calls w + 2) file_id
      {| body_name := name2; body_mimeType := None; body_parents := None |}
    = inr copied ->
    f_id copied = Some dup ->
    dup <> ""%string ->
    files_get svc (calls w + 3) file_id "parents" = inr meta ->
    f_parents meta = Some parents ->
    files_update svc (calls w + 4) file_id backup (String.concat "," parents)
    = inr moved ->
    exists w',
      process_item g svc (S fuel) file_id backup w = (Ret tt, w')
      /\ steps w w'
           [FilesGet file_id DEFAULT_FIELDS;
            FilesGet file_id DEFAULT_FIELDS;
            FilesCopy file_id
              {| body_name := name2; body_mimeType := None;
                 body_parents := None |};
            FilesGet file_id "parents";
            FilesUpdate file_id backup (String.concat "," parents)].
Proof.
  intros g svc fuel file_id backup w md mime name md2 name2 copied dup
    meta parents moved Hget Hmime Hfile Hname Hget2 Hname2 Hcopy Hdup Hne
    Hget3 Hparents Hupdate.
  destruct (get_file_metadata_answered svc file_id DEFAULT_FIELDS w Hget)
    as (w1 & Hmeta & S1).
  pose (w1p := snd (print (ProcessingFile name file_id) w1)).
  assert (S1p : steps w w1p [FilesGet file_id DEFAULT_FIELDS]).
  { rewrite <- (app_nil_r [_]). exact (steps_trans S1 (steps_log w1 _)). }
  assert (C1p : calls w1p = calls w + 1) by (destruct S1p as [C _]; exact C).
  destruct (@copy_file_answered svc file_id w1p md2 name2 copied)
    as (w2 & Hcopied & S2).
  { rewrite C1p. exact Hget2. }
  { exact Hname2. }
  { rewrite C1p. replace (S (calls w + 1)) with (calls w + 2) by lia.
    exact Hcopy. }
  assert (C2 : calls w2 = calls w + 3).
  { destruct S2 as [C _]. rewrite C, C1p. simpl. lia. }
  destruct (@move_file_answered svc file_id backup w2 meta parents moved)
    as (w3 & Hmoved & S3).
  { rewrite C2. exact Hget3. }
  { exact Hparents. }
  { rewrite C2. replace (S (calls w + 3)) with (calls w + 4) by lia.
    exact Hupdate. }
  exists w3. split.
  - cbn [process_item]. rewrite (bind_Ret _ _ _ Hmeta).
    rewrite (dict_with_name_not_empty _ Hname), Hmime. cbn [getitem].
    rewrite bind_ret_l, Hfile. unfold process_file. rewrite Hname.
    cbn [getitem]. rewrite bind_ret_l.
    rewrite (bind_Ret _ _ _
               (eq_refl : print (ProcessingFile name file_id) w1
                          = (Ret tt, w1p))).
    rewrite (bind_Ret _ _ _ Hcopied), Hdup.
    assert (Htruthy : truthy (Some dup) = true).
    { simpl. destruct (String.eqb_spec dup ""); [contradiction | reflexivity]. }
    rewrite Htruthy. cbn [negb]. rewrite bind_ret_l, Htruthy. cbn [negb].
    rewrite (bind_Ret _ _ _ Hmoved). reflexivity.
  - exact (steps_trans S1p (steps_trans S2 S3)).
Qed.

Lemma file_migration_requests_witness :
  exists w',
    process_item module_globals service_healthy 1 "F1" "BAK" initial_world
    = (Ret tt, w')
    /\ steps initial_world w'
         [FilesGet "F1" DEFAULT_FIELDS;
          FilesGet "F1" DEFAULT_FIELDS;
          FilesCopy "F1"
            {| body_name := "notes.txt"; body_mimeType := None;
               body_parents := None |};
          FilesGet "F1" "parents";
          FilesUpdate "F1" "BAK" (String.concat "," ["root"])].
Proof.
  apply (@file_migration_requests module_globals service_healthy 0 "F1" "BAK"
           initial_world (resource "F1" "notes.txt" "text/plain") "text/plain"
           "notes.txt" (resource "F1" "notes.txt" "text/plain") "notes.txt"
           (just_id "COPY") "COPY" (resource "F1" "notes.txt" "text/plain")
           ["root"] (just_id "F1"));
    try reflexivity.
  discriminate.
Defined.

(** ** Listings *)

Lemma pagination_loop_no_token : forall svc fuel file_id results items w,
  nextPageToken results = None ->
  pagination_loop svc fuel file_id results items w = (Ret items, w).
Proof.
  intros svc fuel file_id results items w H.
  destruct fuel; simpl; now rewrite H.
Qed.

Lemma list_children_single_page :
  forall svc fuel file_id w results,
    files_list svc (calls w)
      ("'" ++ file_id ++ "' in parents and trashed = false")%string
    = inr results ->
    nextPageToken results = None ->
    exists w1,
      list_children svc fuel file_id w
      = (Ret (Some (files_or_empty results)), w1)
      /\ steps w w1
           [FilesList
              ("'" ++ file_id ++ "' in parents and trashed = false")%string]
      /\ (files results = None -> files_or_empty results = []).
Proof.
  intros svc fuel file_id w results Hlist Htoken.
  assert (Hcall : exists w1,
            list_files_in_folder svc file_id [] w = (Ret results, w1)
            /\ steps w w1
                 [FilesList
                    ("'" ++ file_id ++ "' in parents and trashed = false")%string]).
  { unfold list_files_in_folder. cbv zeta. eexists. split.
    - apply retry_first_attempt; [| exact I].
      unfold execute. cbn [log snd calls trace]. rewrite Hlist. reflexivity.
    - split; cbn [calls trace]; [simpl; lia | solve_requests]. }
  destruct Hcall as (w1 & Hcall & S1).
  exists w1. split; [| split; [exact S1 |]].
  - unfold list_children, try_except.
    rewrite (bind_Ret _ _ _ Hcall).
    rewrite (bind_Ret _ _ _ (pagination_loop_no_token svc fuel file_id results
                               (files_or_empty results) w1 Htoken)).
    reflexivity.
  - intro Hnone. unfold files_or_empty. now rewrite Hnone.
Qed.

(** X7.  A listing answered without [nextPageToken] costs one request and
    yields the files of the answer, in the order received; an answer
    without a [files] key yields the empty list. *)
Theorem single_page_listing :
  forall svc fuel file_id w results,
    files_list svc (calls w)
      ("'" ++ file_id ++ "' in parents and trashed = false")%string
    = inr results ->
    nextPageToken results = None ->
    exists w1,
      list_children svc fuel file_id w
      = (Ret (Some (files_or_empty results)), w1)
      /\ steps w w1
           [FilesList
              ("'" ++ file_id ++ "' in parents and trashed = false")%string]
      /\ (files results = None -> files_or_empty results = []).
Proof. exact list_children_single_page. Qed.

Lemma single_page_listing_witness :
  exists w1,
    list_children service_lost_child 3 "D1" initial_world
    = (Ret (Some (files_or_empty
                    {| nextPageToken := None;
                       files := Some [resource "C1" "a.txt" "text/plain"] |})),
       w1)
    /\ steps initial_world w1
         [FilesList ("'" ++ "D1" ++ "' in parents and trashed = false")%string]
    /\ (files {| nextPageToken := None;
                 files := Some [resource "C1" "a.txt" "text/plain"] |} = None ->
        files_or_empty
          {| nextPageToken := None;
             files := Some [resource "C1" "a.txt" "text/plain"] |} = []).
Proof.
  apply (@single_page_listing service_lost_child 3 "D1" initial_world);
    reflexivity.
Defined.

(** A request repeated by the decorator: after [k] transient failures the
    answer is returned, and the waits grow from the current one on. *)
Lemma wrapper_loop_recovers :
  forall R name req (answer : nat -> Exn + R) result k fuel retries w,
    retries + k < MAX_RETRIES ->
    k < fuel ->
    (forall i, i < k ->
       exists e, answer (calls w + i) = inl e /\ retryable e = true) ->
    answer (calls w + k) = inr result ->
    exists w',
      wrapper_loop name (execute req answer) fuel retries w = (Ret result, w')
      /\ calls w' = calls w + S k
      /\ sleeps (trace w')
         = sleeps (trace w) ++ map wait_time (seq (S retries) k).
Proof.
  intros R name req answer result k.
  induction k as [| k IH]; intros fuel retries w Hret Hfuel Hfail Hok.
  - destruct fuel as [| fuel]; [lia |].
    rewrite wrapper_loop_step by lia. unfold execute. cbn [calls trace].
    rewrite Nat.add_0_r in Hok. rewrite Hok.
    eexists. split; [reflexivity |]. cbn [calls trace]. split; [lia |].
    rewrite !sleeps_app. simpl. now rewrite !app_nil_r.
  - destruct fuel as [| fuel]; [lia |].
    rewrite wrapper_loop_step by lia. unfold execute at 1. cbn [calls trace].
    destruct (Hfail 0 ltac:(lia)) as (e & He & Hre).
    rewrite Nat.add_0_r in He. rewrite He.
    assert (Hnext : forall d,
              exists w',
                (print d ;; log (EvSleep (wait_time (S retries))) ;;
                 wrapper_loop name (execute req answer) fuel (S retries))
                  {| calls := S (calls w);
                     trace := (trace w ++ [EvAttempt name]) ++ [EvCall req] |}
                = (Ret result, w')
                /\ calls w' = calls w + S (S k)
                /\ sleeps (trace w')
                   = sleeps (trace w)
                     ++ map wait_time (seq (S retries) (S k))).
    { intro d. rewrite print_sleep_then.
      match goal with
      | |- context [wrapper_loop name _ fuel (S retries) ?w2] =>
          destruct (IH fuel (S retries) w2) as (w' & Hrun & Hc & Hs)
      end.
      - lia.
      - lia.
      - intros i Hi. cbn [calls].
        destruct (Hfail (S i) ltac:(lia)) as (e' & He' & Hre').
        exists e'. split; [| exact Hre'].
        replace (S (calls w) + i) with (calls w + S i) by lia. exact He'.
      - cbn [calls]. replace (S (calls w) + k) with (calls w + S k) by lia.
        exact Hok.
      - exists w'. split; [exact Hrun |]. cbn [calls trace] in Hc, Hs.
        split; [lia |]. rewrite Hs, !sleeps_app. simpl.
        rewrite !app_nil_r, <- app_assoc. reflexivity. }
    destruct e as [status | | n | m | x | m]; try discriminate Hre.
    + rewrite Hre. apply Hnext.
    + apply Hnext.
Qed.

(** X8.  [list_files_in_folder] recovers from transient failures: when the
    first [k] answers ([k] at most 4) are HTTP 429/500/502/503/504 or
    transport errors and the next one is a listing, the call returns that
    listing after [k + 1] requests and waits of 2, 4, ... seconds. *)
Theorem listing_recovers_from_transient_failures :
  forall svc folder_id w k results,
    k < MAX_RETRIES ->
    (forall i, i < k ->
       exists e,
         files_list svc (calls w + i)
           ("'" ++ folder_id ++ "' in parents and trashed = false")%string
         = inl e /\ retryable e = true) ->
    files_list svc (calls w + k)
      ("'" ++ folder_id ++ "' in parents and trashed = false")%string
    = inr results ->
    exists w',
      list_files_in_folder svc folder_id [] w = (Ret results, w')
      /\ calls w' = calls w + S k
      /\ sleeps (trace w') = sleeps (trace w) ++ map wait_time (seq 1 k).
Proof.
  intros svc folder_id w k results Hk Hfail Hok.
  unfold list_files_in_folder, retry_with_backoff. cbv zeta.
  apply (@wrapper_loop_recovers FileList "list_files_in_folder"
           (FilesList ("'" ++ folder_id ++ "' in parents and trashed = false")%string)
           (fun n => files_list svc n
                       ("'" ++ folder_id ++ "' in parents and trashed = false")%string)
           results k MAX_RETRIES 0 w); try assumption; lia.
Qed.

Lemma listing_recovers_from_transient_failures_witness :
  exists w',
    list_files_in_folder service_flaky_listing "D1" [] initial_world
    = (Ret {| nextPageToken := None;
              files := Some [resource "A" "a.txt" "text/plain"] |}, w')
    /\ calls w' = calls initial_world + 3
    /\ sleeps (trace w') = sleeps (trace initial_world) ++ map wait_time (seq 1 2).
Proof.
  apply (@listing_recovers_from_transient_failures service_flaky_listing "D1"
           initial_world 2).
  - unfold MAX_RETRIES. lia.
  - intros i Hi. exists (HttpError 503).
    destruct i as [| [| i]]; [split; reflexivity | split; reflexivity | lia].
  - reflexivity.
Defined.

(** X9.  An empty folder whose requests are all answered is migrated with
    exactly five requests: its metadata, the creation of its mirror (a
    folder of the same name whose only parent is the backup destination),
    the listing, its parents, and the update that moves it into the backup
    destination, beside its mirror. *)
Theorem empty_folder_migration_requests :
  forall g svc fuel file_id backup w md name folder new_id results
         meta parents moved,
    files_get svc (calls w) file_id DEFAULT_FIELDS = inr md ->
    f_mimeType md = Some FOLDER_MIME ->
    f_name md = Some name ->
    backup <> ""%string ->
    files_create svc (calls w + 1)
      {| body_name := name; body_mimeType := Some FOLDER_MIME;
         body_parents := Some [backup] |} None = inr folder ->
    f_id folder = Some new_id ->
    new_id <> ""%string ->
    files_list svc (calls w + 2)
      ("'" ++ file_id ++ "' in parents and trashed = false")%string
    = inr results ->
    nextPageToken results = None ->
    files_or_empty results = [] ->
    files_get svc (calls w + 3) file_id "parents" = inr meta ->
    f_parents meta = Some parents ->
    files_update svc (calls w + 4) file_id backup (String.concat "," parents)
    = inr moved ->
    exists w',
      process_item g svc (S fuel) file_id backup w = (Ret tt, w')
      /\ steps w w'
           [FilesGet file_id DEFAULT_FIELDS;
            FilesCreate
              {| body_name := name; body_mimeType := Some FOLDER_MIME;
                 body_parents := Some [backup] |} None;
            FilesList
              ("'" ++ file_id ++ "' in parents and trashed = false")%string;
            FilesGet file_id "parents";
            FilesUpdate file_id backup (String.concat "," parents)].
Proof.
  intros g svc fuel file_id backup w md name folder new_id results
    meta parents moved Hget Hmime Hname Hbackup Hcreate Hid Hnew Hlist Htoken
    Hempty Hget2 Hparents Hupdate.
  destruct (get_file_metadata_answered svc file_id DEFAULT_FIELDS w Hget)
    as (w1 & Hmeta & S1).
  pose (w1p := snd (print (ProcessingFolder name file_id) w1)).
  assert (S1p : steps w w1p [FilesGet file_id DEFAULT_FIELDS]).
  { rewrite <- (app_nil_r [_]). exact (steps_trans S1 (steps_log w1 _)). }
  assert (C1p : calls w1p = calls w + 1) by (destruct S1p as [C _]; exact C).
  destruct (@create_folder_answered svc name backup w1p folder Hbackup)
    as (w2 & Hcreated & S2).
  { rewrite C1p. exact Hcreate. }
  assert (C2 : calls w2 = calls w + 2).
  { destruct S2 as [C _]. rewrite C, C1p. simpl. lia. }
  destruct (@list_children_single_page svc (S fuel) file_id w2 results)
    as (w3 & Hlisted & S3 & _).
  { rewrite C2. exact Hlist. }
  { exact Htoken. }
  assert (C3 : calls w3 = calls w + 3).
  { destruct S3 as [C _]. rewrite C, C2. simpl. lia. }
  destruct (@move_file_answered svc file_id backup w3 meta parents moved)
    as (w4 & Hmoved & S4).
  { rewrite C3. exact Hget2. }
  { exact Hparents. }
  { rewrite C3. replace (S (calls w + 3)) with (calls w + 4) by lia.
    exact Hupdate. }
  exists w4. split.
  - rewrite (process_item_folder g svc fuel file_id backup w Hmeta
               (dict_with_name_not_empty _ Hname) Hmime Hname).
    fold w1p. rewrite (bind_Ret _ _ _ Hcreated), Hid.
    assert (Htruthy : truthy (Some new_id) = true).
    { simpl. destruct (String.eqb_spec new_id ""); [contradiction | reflexivity]. }
    rewrite Htruthy, (bind_Ret _ _ _ Hlisted), Hempty.
    cbn [for_each]. rewrite bind_ret_l, (bind_Ret _ _ _ Hmoved). reflexivity.
  - exact (steps_trans S1p (steps_trans S2 (steps_trans S3 S4))).
Qed.

Lemma empty_folder_migration_requests_witness :
  exists w',
    process_item module_globals service_with_folder 1 "D0" "BAK" initial_world
    = (Ret tt, w')
    /\ steps initial_world w'
         [FilesGet "D0" DEFAULT_FIELDS;
          FilesCreate
            {| body_name := "Empty"; body_mimeType := Some FOLDER_MIME;
               body_parents := Some ["BAK"] |} None;
          FilesList ("'" ++ "D0" ++ "' in parents and trashed = false")%string;
          FilesGet "D0" "parents";
          FilesUpdate "D0" "BAK" (String.concat "," ["root"])].
Proof.
  apply (@empty_folder_migration_requests module_globals service_with_folder 0
           "D0" "BAK" initial_world (resource "D0" "Empty" FOLDER_MIME)
           "Empty" (just_id "MIRROR") "MIRROR"
           {| nextPageToken := None; files := None |}
           (resource "D0" "Empty" FOLDER_MIME) ["root"] (just_id "D0"));
    try reflexivity; discriminate.
Defined.

(** ** Invariants of a whole walk *)

Lemma sends_only_bind_ret : forall ok A B (m : M A) (k : A -> M B),
  sends_only ok m ->
  (forall a w w', m w = (Ret a, w') -> sends_only ok (k a)) ->
  sends_only ok (bind m k).
Proof.
  intros ok A B m k Hm Hk w r w'. unfold bind.
  destruct (m w) as [[a | e |] w1] eqn:E; intro H.
  - destruct (Hm _ _ _ E) as (t1 & H1 & F1).
    destruct (Hk a _ _ E _ _ _ H) as (t2 & H2 & F2).
    exists (t1 ++ t2). rewrite H2, H1, app_assoc, forallb_app, F1, F2. now split.
  - inversion H; subst. exact (Hm _ _ _ E).
  - inversion H; subst. exact (Hm _ _ _ E).
Qed.

Lemma truthy_not_empty : forall s, truthy (Some s) = true -> s <> ""%string.
Proof.
  intros s H ->. discriminate H.
Qed.

Section Walk.

Variable ok : Request -> bool.
Variable good : string -> Prop.
Variable g : Globals.
Variable svc : Service.

Hypothesis good_identifier : forall s, s <> ""%string -> good s.
Hypothesis ok_get : forall id fields, ok (FilesGet id fields) = true.
Hypothesis ok_mirror : forall name parent,
  good parent -> parent <> ""%string ->
  ok (FilesCreate {| body_name := name; body_mimeType := Some FOLDER_MIME;
                     body_parents := Some [parent] |} None) = true.
Hypothesis ok_mirror_orphan : forall name parent,
  good parent -> parent = ""%string ->
  ok (FilesCreate {| body_name := name; body_mimeType := Some FOLDER_MIME;
                     body_parents := None |} None) = true.
Hypothesis ok_copy : forall id body, ok (FilesCopy id body) = true.
Hypothesis ok_update : forall id parent removed,
  good parent -> ok (FilesUpdate id parent removed) = true.
Hypothesis ok_list : forall q, ok (FilesList q) = true.
Hypothesis ok_export : forall id mime, ok (ExportMedia id mime) = true.
Hypothesis ok_media : forall id, ok (GetMedia id) = true.
Hypothesis ok_upload : has_MediaIoBaseUpload g = true ->
  forall name media,
    ok (FilesCreate {| body_name := name; body_mimeType := None;
                       body_parents := None |} (Some media)) = true.

Lemma walk_create_folder : forall name parent,
  good parent -> sends_only ok (create_folder svc name (Some parent)).
Proof.
  intros name parent Hgood. unfold create_folder.
  apply sends_only_retry_with_backoff. cbv zeta.
  apply sends_only_try_except.
  - apply sends_only_bind.
    + apply sends_only_execute. cbn [truthy].
      destruct (String.eqb_spec parent "") as [E | N]; cbn [negb].
      * now apply ok_mirror_orphan with (parent := parent).
      * now apply ok_mirror.
    + intro. apply sends_only_bind; [apply sends_only_print |].
      intro. apply sends_only_ret.
  - intro. apply sends_only_bind; [apply sends_only_print |].
    intro. apply sends_only_ret.
Qed.

Lemma walk_download_and_upload_file : forall file_id original_filename,
  sends_only ok (download_and_upload_file g svc file_id original_filename).
Proof.
  intros file_id original_filename. unfold download_and_upload_file.
  apply sends_only_retry_with_backoff.
  apply sends_only_bind; [now apply sends_only_get_file_metadata |].
  intro original_file.
  destruct (unavailable original_file).
  { apply sends_only_bind; [apply sends_only_print | intro; apply sends_only_ret]. }
  cbv zeta. destruct (select_export _ _) as [export_mime file_extension].
  apply sends_only_try_except.
  - apply sends_only_bind.
    + apply sends_only_download. destruct export_mime; [apply ok_export | apply ok_media].
    + intro fh. apply sends_only_bind_ret.
      * destruct export_mime; apply sends_only_MediaIoBaseUpload.
      * intros media w w' Hret.
        assert (Hbound : has_MediaIoBaseUpload g = true).
        { unfold MediaIoBaseUpload in Hret.
          destruct (has_MediaIoBaseUpload g); [reflexivity |].
          destruct export_mime; discriminate Hret. }
        apply sends_only_bind; [apply sends_only_execute; now apply ok_upload |].
        intro. apply sends_only_bind; [apply sends_only_print |].
        intro. apply sends_only_ret.
  - intro. apply sends_only_bind; [apply sends_only_print |].
    intro. apply sends_only_ret.
Qed.

Lemma walk_process_file : forall md file_id backup,
  good backup -> sends_only ok (process_file g svc md file_id backup).
Proof.
  intros md file_id backup Hgood. unfold process_file.
  repeat first
    [ apply sends_only_copy_file; [apply ok_get | intro; apply ok_copy]
    | apply walk_download_and_upload_file
    | apply sends_only_move_file;
      [apply ok_get | intro; now apply ok_update]
    | sends_only_step ].
Qed.

Lemma walk_process_item : forall fuel file_id backup,
  good backup -> sends_only ok (process_item g svc fuel file_id backup).
Proof.
  induction fuel as [| fuel IH]; intros file_id backup Hgood.
  - apply sends_only_timeout.
  - cbn [process_item].
    apply sends_only_bind; [now apply sends_only_get_file_metadata |].
    intros [md |];
      [| apply sends_only_bind; [apply sends_only_print | intro; apply sends_only_ret]].
    destruct (dict_is_empty md);
      [apply sends_only_bind; [apply sends_only_print | intro; apply sends_only_ret] |].
    apply sends_only_bind; [apply sends_only_getitem |]. intro mime.
    destruct (String.eqb mime FOLDER_MIME); [| now apply walk_process_file].
    apply sends_only_bind; [apply sends_only_getitem |]. intro name.
    apply sends_only_bind; [apply sends_only_print |]. intros _.
    apply sends_only_bind; [apply sends_only_getitem |]. intro name'.
    apply sends_only_bind; [now apply walk_create_folder |].
    intros [new_id |];
      [| apply sends_only_bind; [apply sends_only_print | intro; apply sends_only_ret]].
    destruct (truthy (Some new_id)) eqn:Etruthy;
      [| apply sends_only_bind; [apply sends_only_print | intro; apply sends_only_ret]].
    apply sends_only_bind; [now apply sends_only_list_children |].
    intros [items |]; [| apply sends_only_ret].
    apply sends_only_bind.
    + apply sends_only_for_each. intros item _.
      apply sends_only_bind; [apply sends_only_getitem |]. intro id.
      apply IH. apply good_identifier. now apply truthy_not_empty.
    + intros _. apply sends_only_bind; [| intro; apply sends_only_ret].
      apply sends_only_move_file; [apply ok_get | intro; now apply ok_update].
Qed.

Lemma walk_process_csv : forall fuel csv_file contents backup,
  good backup -> sends_only ok (process_csv g svc fuel csv_file contents backup).
Proof.
  intros fuel csv_file contents backup Hgood. unfold process_csv.
  destruct contents as [reader |]; [| apply sends_only_print].
  apply sends_only_try_except; [| intro; apply sends_only_print].
  apply sends_only_for_each. intros row _. unfold process_row.
  destruct (List.length row <=? 1)%nat; [apply sends_only_ret |].
  cbv zeta. destruct (extract_file_id _) as [id |] eqn:E;
    [| apply sends_only_bind; [apply sends_only_print | intro; apply sends_only_ret]].
  destruct (truthy (Some id));
    [| apply sends_only_bind; [apply sends_only_print | intro; apply sends_only_ret]].
  apply sends_only_bind; [apply sends_only_print |]. intros _.
  now apply walk_process_item.
Qed.

End Walk.

Lemma eqb_empty_false : forall s, s <> ""%string -> negb (String.eqb s "") = true.
Proof.
  intros s H. destruct (String.eqb_spec s ""); [contradiction | reflexivity].
Qed.

(** X10.  With the imports of the script, a run of [process_csv] never sends
    an upload (a [create] with a media body), on any service and for any
    manifest: every path to the upload of line 192 ends in the [NameError]
    of lines 188/190. *)
Theorem script_never_uploads :
  forall svc fuel csv_file contents backup w r w' t,
    process_csv module_globals svc fuel csv_file contents backup w = (r, w') ->
    trace w' = trace w ++ t ->
    forallb (event_ok not_upload) t = true.
Proof.
  intros svc fuel csv_file contents backup w r w' t Hrun Ht.
  destruct (@walk_process_csv not_upload (fun _ => True) module_globals svc)
    with (fuel := fuel) (csv_file := csv_file) (contents := contents)
         (backup := backup) (w := w) (r := r) (w' := w')
    as (t0 & Ht0 & F0); try reflexivity; try exact I; try exact Hrun.
  - discriminate.
  - rewrite Ht in Ht0. apply app_inv_head in Ht0. now subst.
Qed.

Lemma script_never_uploads_witness :
  forallb (event_ok not_upload)
    (trace (snd (process_csv module_globals service_copy_unavailable 5
                   CSV_FILE (Some manifest_two_files) "BAK" initial_world)))
  = true.
Proof.
  apply (@script_never_uploads service_copy_unavailable 5 CSV_FILE
           (Some manifest_two_files) "BAK" initial_world _ _ _
           (surjective_pairing _) eq_refl).
Defined.

(** X11.  When the backup folder has a non-empty identifier, every
    relocation of a run of [process_csv] moves its item under a non-empty
    parent, and every folder the run creates has exactly one, non-empty,
    parent: a mirror folder is used as destination only if the identifier
    returned for it is non-empty. *)
Theorem destinations_never_empty :
  forall g svc fuel csv_file contents backup w r w' t,
    backup <> ""%string ->
    process_csv g svc fuel csv_file contents backup w = (r, w') ->
    trace w' = trace w ++ t ->
    forallb (event_ok names_destination) t = true.
Proof.
  intros g svc fuel csv_file contents backup w r w' t Hbackup Hrun Ht.
  destruct (@walk_process_csv names_destination (fun s => s <> ""%string) g svc)
    with (fuel := fuel) (csv_file := csv_file) (contents := contents)
         (backup := backup) (w := w) (r := r) (w' := w')
    as (t0 & Ht0 & F0); try reflexivity; try exact Hrun; try exact Hbackup.
  - intros s Hs. exact Hs.
  - intros name parent _ Hparent. simpl. now apply eqb_empty_false.
  - intros name parent Hgood Hparent. contradiction.
  - intros id parent removed Hparent. simpl. now apply eqb_empty_false.
  - rewrite Ht in Ht0. apply app_inv_head in Ht0. now subst.
Qed.

Lemma destinations_never_empty_witness :
  forallb (event_ok names_destination)
    (trace (snd (process_csv module_globals service_lost_child 5 CSV_FILE
                   (Some [["name"; "url"];
                          ["docs"; "https://drive.google.com/drive/folders/D1"]])
                   "BAK" initial_world)))
  = true.
Proof.
  apply (@destinations_never_empty module_globals service_lost_child 5 CSV_FILE
           (Some [["name"; "url"];
                  ["docs"; "https://drive.google.com/drive/folders/D1"]])
           "BAK" initial_world _ _ _
           ltac:(discriminate) (surjective_pairing _) eq_refl).
Defined.

(** ** Rows of the manifest *)

Lemma short_rows_skipped : forall g svc fuel backup rows w,
  (forall row, In row rows -> List.length row <= 1) ->
  for_each (process_row g svc fuel backup) rows w = (Ret tt, w).
Proof.
  intros g svc fuel backup rows. induction rows as [| row rows IH]; intros w H.
  - reflexivity.
  - cbn [for_each]. unfold bind, process_row at 1.
    replace (List.length row <=? 1)%nat with true
      by (symmetry; apply Nat.leb_le; apply H; now left).
    cbn [ret]. apply IH. intros r Hr. apply H. now right.
Qed.

(** X12.  The first row of the manifest is discarded whatever it holds, and
    rows with fewer than two columns are passed over in silence: a manifest
    with no other rows (the empty file included) makes [process_csv] return
    without any request or output. *)
Theorem manifest_without_url_rows :
  forall g svc fuel csv_file reader backup w,
    (forall row, In row (tl reader) -> List.length row <= 1) ->
    process_csv g svc fuel csv_file (Some reader) backup w = (Ret tt, w).
Proof.
  intros g svc fuel csv_file reader backup w H.
  unfold process_csv, try_except.
  now rewrite short_rows_skipped by exact H.
Qed.

Lemma manifest_without_url_rows_witness :
  process_csv module_globals service_healthy 5 CSV_FILE
    (Some [["name"; "https://drive.google.com/file/d/HEADER/view"];
           []; ["only a name"]]) "BAK" initial_world
  = (Ret tt, initial_world).
Proof.
  apply manifest_without_url_rows.
  intros row [<- | [<- | []]]; simpl; lia.
Defined.

Lemma rstrip_idempotent : forall s, rstrip (rstrip s) = rstrip s.
Proof.
  induction s as [| c s IH]; [reflexivity |].
  cbn [rstrip]. destruct (rstrip s) as [| k kept] eqn:E.
  - destruct (isspace c) eqn:Ec; [reflexivity |].
    cbn [rstrip]. now rewrite Ec.
  - cbn [rstrip] in IH |- *. 
    change (rstrip (String k kept)) with
      (match rstrip kept with
       | EmptyString => if isspace k then EmptyString else String k EmptyString
       | String a b => String k (String a b)
       end) in IH.
    change (match rstrip (String k kept) with
            | EmptyString => if isspace c then EmptyString else String c EmptyString
            | String a b => String c (String a b)
            end = String c (String k kept)).
    change (rstrip (String k kept)) with
      (match rstrip kept with
       | EmptyString => if isspace k then EmptyString else String k EmptyString
       | String a b => String k (String a b)
       end).
    now rewrite IH.
Qed.

Lemma lstrip_head : forall s,
  lstrip s = EmptyString
  \/ exists c rest, lstrip s = String c rest /\ isspace c = false.
Proof.
  induction s as [| c s IH]; [now left |].
  cbn [lstrip]. destruct (isspace c) eqn:E; [exact IH |].
  right. now exists c, s.
Qed.

Lemma lstrip_rstrip_stripped : forall c rest,
  isspace c = false ->
  lstrip (rstrip (String c rest)) = rstrip (String c rest).
Proof.
  intros c rest Hc. cbn [rstrip].
  destruct (rstrip rest); rewrite ?Hc; cbn [lstrip]; now rewrite Hc.
Qed.

Lemma strip_idempotent : forall s, strip (strip s) = strip s.
Proof.
  intro s. unfold strip.
  destruct (lstrip_head s) as [-> | (c & rest & -> & Hc)]; [reflexivity |].
  rewrite lstrip_rstrip_stripped by exact Hc. apply rstrip_idempotent.
Qed.

(** [isspace] holds of the twelve code points of [WHITESPACE] and of no
    other. *)
Lemma isspace_code_points : forall c,
  isspace c = existsb (Nat.eqb (nat_of_ascii c)) WHITESPACE.
Proof.
  intros [[] [] [] [] [] [] [] []]; reflexivity.
Qed.

Example strip_no_break_space :
  strip (String (ascii_of_nat 160)
           ("XYZ789" ++ String (ascii_of_nat 133) (String (ascii_of_nat 9) " ")))
  = "XYZ789"%string.
Proof. reflexivity. Qed.

Lemma lstrip_all_space : forall s, all_space s = true -> lstrip s = ""%string.
Proof.
  induction s as [| c s IH]; [reflexivity |]. cbn [all_space lstrip].
  intro H. apply andb_true_iff in H. destruct H as [Hc Hs].
  rewrite Hc. now apply IH.
Qed.

Lemma rstrip_all_space : forall s, all_space s = true -> rstrip s = ""%string.
Proof.
  induction s as [| c s IH]; [reflexivity |]. cbn [all_space rstrip].
  intro H. apply andb_true_iff in H. destruct H as [Hc Hs].
  now rewrite (IH Hs), Hc.
Qed.

Lemma lstrip_app : forall s t,
  lstrip (s ++ t)%string
  = if all_space s then lstrip t else (lstrip s ++ t)%string.
Proof.
  induction s as [| c s IH]; intro t; [reflexivity |].
  cbn [append lstrip all_space].
  destruct (isspace c); [apply IH | reflexivity].
Qed.

Lemma rstrip_app_space : forall s t,
  all_space t = true -> rstrip (s ++ t)%string = rstrip s.
Proof.
  induction s as [| c s IH]; intros t Ht.
  - now apply rstrip_all_space.
  - cbn [append rstrip]. now rewrite IH.
Qed.

(** [strip] removes the whitespace around a text, and nothing more than
    [strip] of the text itself removes. *)
Lemma strip_padded : forall left url right,
  all_space left = true -> all_space right = true ->
  strip (left ++ url ++ right)%string = strip url.
Proof.
  intros left url right Hl Hr. unfold strip.
  rewrite lstrip_app, Hl, lstrip_app.
  destruct (all_space url) eqn:E.
  - now rewrite (lstrip_all_space _ Hr), (lstrip_all_space _ E).
  - now apply rstrip_app_space.
Qed.

(** X13.  Of a data row only the second column matters, and only up to
    surrounding whitespace (the characters of [WHITESPACE], the no-break
    space and the next-line control among them): the first column, any
    further column and any whitespace around the URL do not change what
    [process_csv] does for the row. *)
Theorem row_depends_on_stripped_url :
  forall g svc fuel backup name left url right more name' more' w,
    all_space left = true ->
    all_space right = true ->
    process_row g svc fuel backup
      (name :: (left ++ url ++ right)%string :: more) w
    = process_row g svc fuel backup (name' :: strip url :: more') w.
Proof.
  intros g svc fuel backup name left url right more name' more' w Hl Hr.
  unfold process_row. cbn [List.length Nat.leb nth].
  now rewrite strip_idempotent, (@strip_padded _ url _ Hl Hr).
Qed.

Lemma row_depends_on_stripped_url_witness :
  process_row module_globals service_healthy 1 "BAK"
    ["first";
     (String (ascii_of_nat 160) " "
      ++ "https://drive.google.com/drive/folders/XYZ789"
      ++ String (ascii_of_nat 160) (String (ascii_of_nat 133) ""))%string;
     "a note"]
    initial_world
  = process_row module_globals service_healthy 1 "BAK"
      ["other";
       strip "https://drive.google.com/drive/folders/XYZ789"]
      initial_world.
Proof.
  apply (@row_depends_on_stripped_url module_globals service_healthy 1 "BAK"
           "first" (String (ascii_of_nat 160) " ")
           "https://drive.google.com/drive/folders/XYZ789"
           (String (ascii_of_nat 160) (String (ascii_of_nat 133) ""))
           ["a note"] "other" [] initial_world);
    reflexivity.
Defined.

(** ** The extracted identifier and the name of the re-upload *)

Section Pieces.

Local Open Scope string_scope.

Lemma has_char_app : forall c a b,
  has_char c (a ++ b) = has_char c a || has_char c b.
Proof.
  intros c a b. induction a as [| x a IH]; [reflexivity |].
  simpl. now rewrite IH, orb_assoc.
Qed.

(** The first piece of a split at a character does not contain it. *)
Lemma first_piece_has_no_separator : forall c s cur,
  has_char c cur = false ->
  has_char c (nth 0 (split_from (String c "") 0 cur s) "") = false.
Proof.
  intros c s. induction s as [| x s IH]; intros cur Hcur.
  - exact Hcur.
  - cbn [split_from prefix].
    destruct (ascii_dec c x) as [-> | N].
    + destruct s; exact Hcur.
    + apply IH. rewrite has_char_app, Hcur. simpl.
      destruct (Ascii.eqb_spec x c) as [E | _]; [now elim N | reflexivity].
Qed.

(** X14.  An identifier extracted from a file URL never contains [/], and
    one extracted from a folder URL never contains [?], whatever the
    URL. *)
Theorem extracted_identifier_characters :
  forall url id,
    extract_file_id url = Some id ->
    (contains FILE_MARKER url = true -> has_char "/" id = false)
    /\ (contains FILE_MARKER url = false -> has_char "?" id = false).
Proof.
  intros url id H. unfold extract_file_id in H.
  destruct (contains FILE_MARKER url).
  - injection H as <-. split; [intros _ | discriminate].
    now apply first_piece_has_no_separator.
  - destruct (contains FOLDER_MARKER url); [| discriminate H].
    injection H as <-. split; [discriminate | intros _].
    now apply first_piece_has_no_separator.
Qed.

Lemma extracted_identifier_characters_witness :
  (contains FILE_MARKER "https://drive.google.com/file/d/A?b/c?d" = true ->
   has_char "/" "A?b" = false)
  /\ (contains FILE_MARKER "https://drive.google.com/file/d/A?b/c?d" = false ->
      has_char "?" "A?b" = false).
Proof.
  apply (@extracted_identifier_characters
           "https://drive.google.com/file/d/A?b/c?d" "A?b").
  vm_compute. reflexivity.
Defined.

Lemma substring_split : forall p d,
  substring 0 d p ++ substring d (String.length p - d) p = p.
Proof.
  induction p as [| c p IH]; intro d.
  - destruct d; reflexivity.
  - destruct d as [| d].
    + cbn [substring String.length Nat.sub append].
      f_equal. specialize (IH 0). cbn [substring] in IH.
      rewrite Nat.sub_0_r in IH.
      destruct (String.length p) eqn:E.
      * destruct p; [reflexivity | discriminate E].
      * clear IH. rewrite <- E. clear E n.
        induction p as [| x p IHp]; [reflexivity |].
        cbn [String.length substring]. f_equal.
        destruct p; [reflexivity | exact IHp].
    + cbn [substring String.length Nat.sub append]. f_equal. apply IH.
Qed.

(** [os.path.splitext] cuts the path in two: nothing is lost. *)
Lemma splitext_concat : forall p, fst (splitext p) ++ snd (splitext p) = p.
Proof.
  intro p. unfold splitext. cbv zeta.
  destruct (rfind "." p >? rfind "/" p)%Z;
    [| cbn [fst snd]; apply string_app_nil_r].
  destruct (has_non_dot _ _ _); cbn [fst snd];
    [apply substring_split | apply string_app_nil_r].
Qed.

(** X15.  For an item that is not a Google document, spreadsheet or
    presentation, the name built for the re-upload (line 182) is the
    original file name, unchanged, whatever dots and slashes it holds. *)
Theorem reupload_keeps_name_of_plain_files :
  forall mime_type original_filename,
    fst (select_export mime_type original_filename) = None ->
    fst (splitext original_filename)
    ++ snd (select_export mime_type original_filename)
    = original_filename.
Proof.
  intros mime_type original_filename H.
  assert (E : snd (select_export mime_type original_filename)
              = snd (splitext original_filename)).
  { unfold select_export in *. destruct mime_type as [m |]; [| reflexivity].
    destruct (String.eqb m "application/vnd.google-apps.document");
      [discriminate H |].
    destruct (String.eqb m "application/vnd.google-apps.spreadsheet");
      [discriminate H |].
    destruct (String.eqb m "application/vnd.google-apps.presentation");
      [discriminate H | reflexivity]. }
  rewrite E. apply splitext_concat.
Qed.

Lemma reupload_keeps_name_of_plain_files_witness :
  fst (splitext "backup.2024/.notes.tar.gz")
  ++ snd (select_export (Some "application/gzip") "backup.2024/.notes.tar.gz")
  = "backup.2024/.notes.tar.gz".
Proof.
  apply (@reupload_keeps_name_of_plain_files (Some "application/gzip")
           "backup.2024/.notes.tar.gz").
  reflexivity.
Defined.

End Pieces.

(** ** The entry point *)

(** X16.  When the lookup of line 298 lists at least one folder, [main]
    creates nothing: after that single request it runs [process_csv] with
    the identifier of the first folder listed as backup destination, and
    then prints its last line. *)
Theorem main_reuses_first_backup_folder :
  forall g svc fuel contents w response first others id,
    files_list svc (calls w) BACKUP_QUERY = inr response ->
    files response = Some (first :: others) ->
    f_id first = Some id ->
    main g (Some svc) fuel contents w
    = (process_csv g svc fuel CSV_FILE contents id ;;
       ret [BackupExists id; ScriptFinished])
        (snd (log (EvCall (FilesList BACKUP_QUERY))
                {| calls := S (calls w); trace := trace w |})).
Proof.
  intros g svc fuel contents w response first others id Hlist Hfiles Hid.
  assert (Hexec : execute (FilesList BACKUP_QUERY)
                    (fun n => files_list svc n BACKUP_QUERY) w
                  = (Ret response,
                     {| calls := S (calls w);
                        trace := trace w ++ [EvCall (FilesList BACKUP_QUERY)] |})).
  { unfold execute. now rewrite Hlist. }
  assert (Hfound : find_or_create_backup svc w
                   = (Ret (inl (id, [BackupExists id])),
                      {| calls := S (calls w);
                         trace := trace w ++ [EvCall (FilesList BACKUP_QUERY)] |})).
  { unfold find_or_create_backup, try_except.
    rewrite (bind_Ret _ _ _ Hexec). unfold files_or_empty.
    rewrite Hfiles, Hid. reflexivity. }
  unfold main. rewrite (bind_Ret _ _ _ Hfound). reflexivity.
Qed.

Lemma main_reuses_first_backup_folder_witness :
  main module_globals (Some service_with_backup) 5
    (Some manifest_two_files) initial_world
  = (process_csv module_globals service_with_backup 5 CSV_FILE
       (Some manifest_two_files) "BAK0" ;;
     ret [BackupExists "BAK0"; ScriptFinished])
      (snd (log (EvCall (FilesList BACKUP_QUERY))
              {| calls := S (calls initial_world);
                 trace := trace initial_world |})).
Proof.
  apply (@main_reuses_first_backup_folder module_globals service_with_backup 5
           (Some manifest_two_files) initial_world
           {| nextPageToken := None;
              files := Some [resource "BAK0" "bak" FOLDER_MIME;
                             resource "BAK1" "bak" FOLDER_MIME] |}
           (resource "BAK0" "bak" FOLDER_MIME)
           [resource "BAK1" "bak" FOLDER_MIME] "BAK0");
    reflexivity.
Defined.

(** X17.  The lookup of the backup folder is the one request of the script
    that does not go through [retry_with_backoff]: when it fails, [main]
    ends after that single request without reading the manifest.  An
    [HttpError] (a transient one included) is reported; any other
    exception, a transport error included, leaves [main]. *)
Theorem main_lookup_failure :
  forall g svc fuel contents w e,
    files_list svc (calls w) BACKUP_QUERY = inl e ->
    exists w',
      steps w w' [FilesList BACKUP_QUERY]
      /\ sleeps (trace w') = sleeps (trace w)
      /\ main g (Some svc) fuel contents w
         = (if is_HttpError e then Ret [BackupCheckFailed e] else Raise e, w').
Proof.
  intros g svc fuel contents w e Hlist.
  exists {| calls := S (calls w);
            trace := trace w ++ [EvCall (FilesList BACKUP_QUERY)] |}.
  assert (Hexec : execute (FilesList BACKUP_QUERY)
                    (fun n => files_list svc n BACKUP_QUERY) w
                  = (Raise e,
                     {| calls := S (calls w);
                        trace := trace w ++ [EvCall (FilesList BACKUP_QUERY)] |})).
  { unfold execute. now rewrite Hlist. }
  split; [| split].
  - split; cbn [calls trace]; [simpl; lia | solve_requests].
  - cbn [trace]. rewrite sleeps_app. simpl. now rewrite app_nil_r.
  - assert (Hfind : find_or_create_backup svc w
                    = (if is_HttpError e
                       then Ret (inr (BackupCheckFailed e))
                       else Raise e,
                       {| calls := S (calls w);
                          trace := trace w ++ [EvCall (FilesList BACKUP_QUERY)] |})).
    { unfold find_or_create_backup, try_except.
      rewrite (@bind_Raise _ _ _ _ _ _ _ Hexec).
      destruct (is_HttpError e); reflexivity. }
    unfold main, bind. rewrite Hfind.
    destruct (is_HttpError e); reflexivity.
Qed.

Lemma main_lookup_failure_witness :
  exists w',
    steps initial_world w' [FilesList BACKUP_QUERY]
    /\ sleeps (trace w') = sleeps (trace initial_world)
    /\ main module_globals (Some service_offline) 5 (Some manifest_two_files)
         initial_world
       = (if is_HttpError OSError then Ret [BackupCheckFailed OSError]
          else Raise OSError, w').
Proof.
  apply (@main_lookup_failure module_globals service_offline 5
           (Some manifest_two_files) initial_world OSError).
  reflexivity.
Defined.

(** X18.  When the lookup lists no folder, [main] creates one named [bak]
    with no parent in its metadata.  If the creation is answered with a
    non-empty identifier, [process_csv] runs with it as destination, two
    requests after the start; if the creation is answered with an
    [HttpError], [main] ends there, without reading the manifest. *)
Theorem main_creates_backup_folder :
  forall g svc fuel contents w response,
    files_list svc (calls w) BACKUP_QUERY = inr response ->
    files_or_empty response = [] ->
    let body :=
      {| body_name := BACKUP_FOLDER_NAME; body_mimeType := Some FOLDER_MIME;
         body_parents := None |} in
    exists w2,
      steps w w2 [FilesList BACKUP_QUERY; FilesCreate body None]
      /\ (forall folder id,
            files_create svc (calls w + 1) body None = inr folder ->
            f_id folder = Some id ->
            id <> ""%string ->
            main g (Some svc) fuel contents w
            = (process_csv g svc fuel CSV_FILE contents id ;;
               ret [ScriptFinished])
                (snd (print (FolderCreated BACKUP_FOLDER_NAME (Some id)) w2)))
      /\ (forall status,
            files_create svc (calls w + 1) body None = inl (HttpError status) ->
            main g (Some svc) fuel contents w
            = (Ret [BackupCreateFailed],
               snd (print (ErrorOccurred (HttpError status)) w2))).
Proof.
  intros g svc fuel contents w response Hlist Hempty body.
  pose (w1 := {| calls := S (calls w);
                 trace := trace w ++ [EvCall (FilesList BACKUP_QUERY)] |}).
  pose (w2 := {| calls := S (S (calls w));
                 trace := (trace w1 ++ [EvAttempt "create_folder"])
                          ++ [EvCall (FilesCreate body None)] |}).
  assert (Hexec : execute (FilesList BACKUP_QUERY)
                    (fun n => files_list svc n BACKUP_QUERY) w
                  = (Ret response, w1)).
  { unfold execute. now rewrite Hlist. }
  assert (Hcreate : forall r wr,
            (try_except
               (folder <- execute (FilesCreate body None)
                            (fun n => files_create svc n body None) ;;
                print (FolderCreated BACKUP_FOLDER_NAME (f_id folder)) ;;
                ret (f_id folder))
               is_HttpError
               (fun error => print (ErrorOccurred error) ;; ret None))
              (snd (log (EvAttempt "create_folder") w1)) = (r, wr) ->
            match r with Raise e => retryable e = false | _ => True end ->
            find_or_create_backup svc w
            = (match r with
               | Ret (Some id) =>
                   if truthy (Some id) then Ret (inl (id, []))
                   else Ret (inr BackupCreateFailed)
               | Ret None => Ret (inr BackupCreateFailed)
               | Raise e =>
                   if is_HttpError e then Ret (inr (BackupCheckFailed e))
                   else Raise e
               | Timeout => Timeout
               end, wr)).
  { intros r wr Hbody Hr.
    unfold find_or_create_backup, try_except at 1.
    rewrite (bind_Ret _ _ _ Hexec), Hempty.
    assert (Hcall : create_folder svc BACKUP_FOLDER_NAME None w1 = (r, wr)).
    { unfold create_folder. cbv zeta. fold body.
      now apply retry_first_attempt. }
    unfold bind. rewrite Hcall.
    destruct r as [[id |] | e |]; try reflexivity.
    - now destruct (truthy (Some id)).
    - now destruct (is_HttpError e). }
  exists w2. split; [| split].
  - unfold w2, w1. split; cbn [calls trace]; [simpl; lia | solve_requests].
  - intros folder id Hanswer Hid Hne.
    replace (calls w + 1) with (S (calls w)) in Hanswer by lia.
    assert (Htruthy : truthy (Some id) = true).
    { simpl. now apply eqb_empty_false. }
    pose proof
      (Hcreate (Ret (Some id))
         (snd (print (FolderCreated BACKUP_FOLDER_NAME (Some id)) w2))
         ltac:(unfold try_except, bind, execute, w1;
               cbn [log snd calls trace];
               rewrite Hanswer, Hid; reflexivity)
         I) as Hfound.
    cbv iota in Hfound. rewrite Htruthy in Hfound.
    unfold main. rewrite (bind_Ret _ _ _ Hfound). reflexivity.
  - intros status Hanswer.
    replace (calls w + 1) with (S (calls w)) in Hanswer by lia.
    pose proof
      (Hcreate (Ret None)
         (snd (print (ErrorOccurred (HttpError status)) w2))
         ltac:(unfold try_except, bind, execute, w1;
               cbn [log snd calls trace];
               rewrite Hanswer; reflexivity)
         I) as Hfound.
    cbv iota in Hfound.
    unfold main. rewrite (bind_Ret _ _ _ Hfound). reflexivity.
Qed.

Lemma main_creates_backup_folder_witness :
  exists w2,
    steps initial_world w2
      [FilesList BACKUP_QUERY;
       FilesCreate {| body_name := BACKUP_FOLDER_NAME;
                      body_mimeType := Some FOLDER_MIME;
                      body_parents := None |} None]
    /\ main module_globals (Some service_with_folder) 5
         (Some manifest_two_files) initial_world
       = (process_csv module_globals service_with_folder 5 CSV_FILE
            (Some manifest_two_files) "MIRROR" ;;
          ret [ScriptFinished])
           (snd (print (FolderCreated BACKUP_FOLDER_NAME (Some "MIRROR")) w2)).
Proof.
  destruct (@main_creates_backup_folder module_globals service_with_folder 5
              (Some manifest_two_files) initial_world
              {| nextPageToken := None; files := None |} eq_refl eq_refl)
    as (w2 & Hsteps & Hcreated & _).
  exists w2. split; [exact Hsteps |].
  apply (Hcreated (just_id "MIRROR") "MIRROR"); [reflexivity | reflexivity |].
  discriminate.
Defined.

(** ** Items that cannot be read *)

Lemma get_file_metadata_refused : forall svc file_id fields w status,
  files_get svc (calls w) file_id fields = inl (HttpError status) ->
  exists w1,
    get_file_metadata svc file_id fields w = (Ret None, w1)
    /\ steps w w1 [FilesGet file_id fields].
Proof.
  intros svc file_id fields w status H. unfold get_file_metadata.
  eexists. split.
  - apply retry_first_attempt; [| exact I].
    unfold try_except, bind, execute. cbn [log snd calls trace].
    rewrite H. reflexivity.
  - split; cbn [calls trace print log snd]; [simpl; lia | solve_requests].
Qed.

Lemma copy_file_refused : forall svc file_id w status,
  files_get svc (calls w) file_id DEFAULT_FIELDS = inl (HttpError status) ->
  exists w1,
    copy_file svc file_id None w = (Ret None, w1)
    /\ steps w w1 [FilesGet file_id DEFAULT_FIELDS].
Proof.
  intros svc file_id w status H. unfold copy_file.
  destruct (@get_file_metadata_refused svc file_id DEFAULT_FIELDS
              (snd (log (EvAttempt "copy_file") w)) status H)
    as (w1 & Hmeta & [C1 R1]).
  cbn [log snd calls trace] in C1, R1.
  eexists. split.
  - apply retry_first_attempt; [| exact I].
    unfold try_except. rewrite (bind_Ret _ _ _ Hmeta). reflexivity.
  - split; cbn [calls trace print log snd].
    + rewrite C1. simpl. lia.
    + rewrite !requests_app, R1. solve_requests.
Qed.

Lemma download_and_upload_file_refused :
  forall g svc file_id original_filename w status,
    files_get svc (calls w) file_id DEFAULT_FIELDS = inl (HttpError status) ->
    exists w1,
      download_and_upload_file g svc file_id original_filename w
      = (Ret None, w1)
      /\ steps w w1 [FilesGet file_id DEFAULT_FIELDS].
Proof.
  intros g svc file_id original_filename w status H.
  unfold download_and_upload_file.
  destruct (@get_file_metadata_refused svc file_id DEFAULT_FIELDS
              (snd (log (EvAttempt "download_and_upload_file") w)) status H)
    as (w1 & Hmeta & [C1 R1]).
  cbn [log snd calls trace] in C1, R1.
  eexists. split.
  - apply retry_first_attempt; [| exact I].
    rewrite (bind_Ret _ _ _ Hmeta). reflexivity.
  - split; cbn [calls trace print log snd].
    + rewrite C1. simpl. lia.
    + rewrite !requests_app, R1. solve_requests.
Qed.

(** X19.  Metadata that arrives without a [mimeType] makes [process_item]
    raise [KeyError] at line 220, after the one request that fetched it:
    nothing is created, copied or moved for the item, and the exception
    goes on to the caller. *)
Theorem metadata_without_mimeType :
  forall g svc fuel file_id backup w md,
    files_get svc (calls w) file_id DEFAULT_FIELDS = inr md ->
    dict_is_empty md = false ->
    f_mimeType md = None ->
    exists w1,
      process_item g svc (S fuel) file_id backup w
      = (Raise (KeyError "mimeType"), w1)
      /\ steps w w1 [FilesGet file_id DEFAULT_FIELDS].
Proof.
  intros g svc fuel file_id backup w md Hget Hempty Hmime.
  destruct (get_file_metadata_answered svc file_id DEFAULT_FIELDS w Hget)
    as (w1 & Hmeta & S1).
  exists w1. split; [| exact S1].
  cbn [process_item]. rewrite (bind_Ret _ _ _ Hmeta), Hempty, Hmime.
  reflexivity.
Qed.

Lemma metadata_without_mimeType_witness :
  exists w1,
    process_item module_globals service_nameless 1 "F1" "BAK" initial_world
    = (Raise (KeyError "mimeType"), w1)
    /\ steps initial_world w1 [FilesGet "F1" DEFAULT_FIELDS].
Proof.
  apply (@metadata_without_mimeType module_globals service_nameless 0 "F1"
           "BAK" initial_world (just_id "F1")); reflexivity.
Defined.

(** X20.  A file whose metadata was read once but is refused afterwards
    (an [HttpError] for each later metadata request) is left where it is:
    [copy_file] and [download_and_upload_file] each give up after their own
    metadata request, without a copy, a download or a relocation, and
    [process_item] returns after three requests in all. *)
Theorem file_refused_after_first_read :
  forall g svc fuel file_id backup w md mime name status1 status2,
    files_get svc (calls w) file_id DEFAULT_FIELDS = inr md ->
    f_mimeType md = Some mime ->
    String.eqb mime FOLDER_MIME = false ->
    f_name md = Some name ->
    files_get svc (calls w + 1) file_id DEFAULT_FIELDS
    = inl (HttpError status1) ->
    files_get svc (calls w + 2) file_id DEFAULT_FIELDS
    = inl (HttpError status2) ->
    exists w',
      process_item g svc (S fuel) file_id backup w = (Ret tt, w')
      /\ steps w w'
           [FilesGet file_id DEFAULT_FIELDS; FilesGet file_id DEFAULT_FIELDS;
            FilesGet file_id DEFAULT_FIELDS]
      /\ last (trace w') (EvSleep 0) = EvPrint (FailedToCopy file_id).
Proof.
  intros g svc fuel file_id backup w md mime name status1 status2
    Hget Hmime Hfile Hname Hget2 Hget3.
  destruct (get_file_metadata_answered svc file_id DEFAULT_FIELDS w Hget)
    as (w1 & Hmeta & S1).
  pose (w1p := snd (print (ProcessingFile name file_id) w1)).
  assert (S1p : steps w w1p [FilesGet file_id DEFAULT_FIELDS]).
  { rewrite <- (app_nil_r [_]). exact (steps_trans S1 (steps_log w1 _)). }
  assert (C1p : calls w1p = calls w + 1) by (destruct S1p as [C _]; exact C).
  destruct (@copy_file_refused svc file_id w1p status1) as (w2 & Hcopy & S2).
  { rewrite C1p. exact Hget2. }
  pose (w2p := snd (print CopyFailedTryingDownload w2)).
  assert (S2p : steps w1p w2p [FilesGet file_id DEFAULT_FIELDS]).
  { rewrite <- (app_nil_r [_]). exact (steps_trans S2 (steps_log w2 _)). }
  assert (C2p : calls w2p = calls w + 2).
  { destruct S2p as [C _]. rewrite C, C1p. simpl. lia. }
  destruct (@download_and_upload_file_refused g svc file_id name w2p status2)
    as (w3 & Hdl & S3).
  { rewrite C2p. exact Hget3. }
  exists (snd (print (FailedToCopy file_id) w3)). split; [| split].
  - cbn [process_item]. rewrite (bind_Ret _ _ _ Hmeta).
    rewrite (dict_with_name_not_empty _ Hname), Hmime. cbn [getitem].
    rewrite bind_ret_l, Hfile. unfold process_file. rewrite Hname.
    cbn [getitem]. rewrite bind_ret_l.
    rewrite (bind_Ret _ _ _
               (eq_refl : print (ProcessingFile name file_id) w1
                          = (Ret tt, w1p))).
    rewrite (bind_Ret _ _ _ Hcopy). cbn [truthy negb].
    assert (Hfallback :
              (print CopyFailedTryingDownload ;;
               file_name <- ret name ;;
               download_and_upload_file g svc file_id file_name) w2
              = (Ret None, w3)).
    { rewrite (bind_Ret _ _ _
                 (eq_refl : print CopyFailedTryingDownload w2 = (Ret tt, w2p))).
      rewrite bind_ret_l. exact Hdl. }
    rewrite (bind_Ret _ _ _ Hfallback). reflexivity.
  - replace [FilesGet file_id DEFAULT_FIELDS; FilesGet file_id DEFAULT_FIELDS;
             FilesGet file_id DEFAULT_FIELDS]
      with (([FilesGet file_id DEFAULT_FIELDS]
             ++ [FilesGet file_id DEFAULT_FIELDS]
             ++ [FilesGet file_id DEFAULT_FIELDS]) ++ [])
      by reflexivity.
    exact (steps_trans (steps_trans S1p (steps_trans S2p S3))
             (steps_log w3 _)).
  - cbn [print log snd trace]. apply last_last.
Qed.

Lemma file_refused_after_first_read_witness :
  exists w',
    process_item module_globals service_vanishing 1 "F1" "BAK" initial_world
    = (Ret tt, w')
    /\ steps initial_world w'
         [FilesGet "F1" DEFAULT_FIELDS; FilesGet "F1" DEFAULT_FIELDS;
          FilesGet "F1" DEFAULT_FIELDS]
    /\ last (trace w') (EvSleep 0) = EvPrint (FailedToCopy "F1").
Proof.
  apply (@file_refused_after_first_read module_globals service_vanishing 0
           "F1" "BAK" initial_world (resource "F1" "notes.txt" "text/plain")
           "text/plain" "notes.txt" 404 404);
    reflexivity.
Defined.

(** ** The fallback in a run of the file branch *)

Lemma download_loop_returns : forall request rest fh last w,
  exists w',
    download_loop request fh rest (inr last) w
    = (Ret (fold_left append rest fh ++ last)%string, w')
    /\ steps w w' (repeat request (S (List.length rest))).
Proof.
  intros request rest. induction rest as [| chunk rest IH]; intros fh last w.
  - eexists. split; [reflexivity |].
    split; cbn [calls trace]; [simpl; lia | solve_requests].
  - pose (w1 := snd (print DownloadProgress
                       (snd (execute request
                               (fun _ => inr chunk : Exn + string) w)))).
    destruct (IH (fh ++ chunk)%string last w1) as (w' & Hrun & S').
    exists w'. split; [exact Hrun |].
    assert (S1 : steps w w1 [request]).
    { unfold w1, execute. split; cbn [print log snd calls trace];
        [simpl; lia | solve_requests]. }
    exact (steps_trans S1 S').
Qed.

Lemma download_returns : forall svc request w parts last,
  media_download svc (calls w) request
  = {| chunks := parts; ending := inr last |} ->
  exists w',
    download svc request w = (Ret (buffer parts last), w')
    /\ steps w w' (repeat request (S (List.length parts))).
Proof.
  intros svc request w parts last H. unfold download. cbv zeta.
  rewrite H. cbn [chunks ending]. apply download_loop_returns.
Qed.

(** [download_and_upload_file] once its metadata request is answered and the
    download has gone through: the reference to [MediaIoBaseUpload] decides
    what follows. *)
Lemma fallback_after_download :
  forall g svc file_id name w original export_mime file_extension parts last
         body media,
    files_get svc (calls w) file_id DEFAULT_FIELDS = inr original ->
    dict_is_empty original = false ->
    select_export (f_mimeType original) name = (export_mime, file_extension) ->
    media_download svc (calls w + 1) (media_request file_id export_mime)
    = {| chunks := parts; ending := inr last |} ->
    body = {| body_name := (fst (splitext name) ++ file_extension)%string;
              body_mimeType := None; body_parents := None |} ->
    media = {| media_content := buffer parts last;
               media_mimetype :=
                 upload_mimetype export_mime (f_mimeType original);
               media_resumable := true |} ->
    (has_MediaIoBaseUpload g = false ->
     exists w',
       download_and_upload_file g svc file_id name w
       = (Raise (NameError "MediaIoBaseUpload"), w')
       /\ steps w w'
            (FilesGet file_id DEFAULT_FIELDS
             :: repeat (media_request file_id export_mime)
                  (S (List.length parts))))
    /\ (has_MediaIoBaseUpload g = true ->
        forall created,
          files_create svc (calls w + 2 + List.length parts) body (Some media)
          = inr created ->
          exists w',
            download_and_upload_file g svc file_id name w
            = (Ret (f_id created), w')
            /\ steps w w'
                 ((FilesGet file_id DEFAULT_FIELDS
                   :: repeat (media_request file_id export_mime)
                        (S (List.length parts)))
                  ++ [FilesCreate body (Some media)])).
Proof.
  intros g svc file_id name w original export_mime file_extension parts last
    body media Hget Hempty Hsel Hdown -> ->.
  pose (w0 := snd (log (EvAttempt "download_and_upload_file") w)).
  destruct (get_file_metadata_answered svc file_id DEFAULT_FIELDS w0 Hget)
    as (w1 & Hmeta & S1).
  assert (S01 : steps w w1 [FilesGet file_id DEFAULT_FIELDS]).
  { destruct S1 as [C1 R1]. unfold w0 in C1, R1.
    cbn [log snd calls trace] in C1, R1. split; [exact C1 |].
    rewrite R1, requests_app. simpl. now rewrite app_nil_r. }
  assert (C1 : calls w1 = calls w + 1) by (destruct S01 as [C _]; exact C).
  destruct (@download_returns svc (media_request file_id export_mime) w1
              parts last) as (w2 & Hdl & S2).
  { rewrite C1. exact Hdown. }
  assert (S02 : steps w w2
                  (FilesGet file_id DEFAULT_FIELDS
                   :: repeat (media_request file_id export_mime)
                        (S (List.length parts)))).
  { exact (steps_trans S01 S2). }
  split.
  - intro Hg. exists w2. split; [| exact S02].
    unfold download_and_upload_file.
    apply retry_first_attempt; [| reflexivity].
    fold w0. rewrite (bind_Ret _ _ _ Hmeta).
    cbn [unavailable]. rewrite Hempty. cbv zeta. rewrite Hsel.
    unfold try_except.
    change (match export_mime with
            | Some em => ExportMedia file_id em
            | None => GetMedia file_id
            end) with (media_request file_id export_mime).
    rewrite (bind_Ret _ _ _ Hdl). unfold MediaIoBaseUpload. rewrite Hg.
    destruct export_mime; reflexivity.
  - intros Hg created Hcreate.
    assert (C2 : calls w2 = calls w + 2 + List.length parts).
    { destruct S02 as [C _]. rewrite C. cbn [List.length].
      rewrite repeat_length. lia. }
    eexists. split.
    + unfold download_and_upload_file.
      apply retry_first_attempt; [| exact I].
      fold w0. rewrite (bind_Ret _ _ _ Hmeta).
      cbn [unavailable]. rewrite Hempty. cbv zeta. rewrite Hsel.
      unfold try_except.
      change (match export_mime with
              | Some em => ExportMedia file_id em
              | None => GetMedia file_id
              end) with (media_request file_id export_mime).
      rewrite (bind_Ret _ _ _ Hdl). unfold MediaIoBaseUpload. rewrite Hg.
      change (match export_mime with
              | Some em =>
                  ret {| media_content := buffer parts last;
                         media_mimetype := Some em;
                         media_resumable := true |}
              | None =>
                  ret {| media_content := buffer parts last;
                         media_mimetype := f_mimeType original;
                         media_resumable := true |}
              end)
        with (match export_mime with
              | Some em =>
                  @ret Media
                    {| media_content := buffer parts last;
                       media_mimetype :=
                         upload_mimetype (Some em) (f_mimeType original);
                       media_resumable := true |}
              | None =>
                  ret {| media_content := buffer parts last;
                         media_mimetype :=
                           upload_mimetype None (f_mimeType original);
                         media_resumable := true |}
              end).
      replace (match export_mime with
               | Some em =>
                   @ret Media
                     {| media_content := buffer parts last;
                        media_mimetype :=
                          upload_mimetype (Some em) (f_mimeType original);
                        media_resumable := true |}
               | None =>
                   ret {| media_content := buffer parts last;
                          media_mimetype :=
                            upload_mimetype None (f_mimeType original);
                          media_resumable := true |}
               end)
        with (@ret Media
                {| media_content := buffer parts last;
                   media_mimetype :=
                     upload_mimetype export_mime (f_mimeType original);
                   media_resumable := true |})
        by (now destruct export_mime).
      rewrite bind_ret_l. unfold bind, execute. rewrite C2, Hcreate.
      reflexivity.
    + cbn [print log snd].
      apply (steps_trans S02). split; cbn [calls trace];
        [simpl; lia | solve_requests].
Qed.

(** C10.  The file branch, once [copy_file] has returned nothing and the
    fallback has read the metadata and downloaded the content.  As the
    script is written, the reference to [MediaIoBaseUpload] then raises
    [NameError]: after the metadata request and the calls of [next_chunk()]
    no request is sent, so no item is created and the original is not
    relocated.  With the name bound, lines 183-192 ask for an item with a
    name and nothing else, no parent in particular, and line 256 relocates
    the original [file_id], not the new item, into the backup folder: the
    requests are exactly the metadata, the chunks, this [create], the
    parents of [file_id] and the [update] of [file_id]. *)
Theorem fallback_duplicate_and_relocation :
  forall svc md file_id backup name w rc w2 original export_mime
         file_extension parts last media,
    f_name md = Some name ->
    copy_file svc file_id None (snd (print (ProcessingFile name file_id) w))
    = (Ret rc, w2) ->
    truthy rc = false ->
    files_get svc (calls w2) file_id DEFAULT_FIELDS = inr original ->
    dict_is_empty original = false ->
    select_export (f_mimeType original) name = (export_mime, file_extension) ->
    media_download svc (calls w2 + 1) (media_request file_id export_mime)
    = {| chunks := parts; ending := inr last |} ->
    media = {| media_content := buffer parts last;
               media_mimetype :=
                 upload_mimetype export_mime (f_mimeType original);
               media_resumable := true |} ->
    (exists w',
       process_file module_globals svc md file_id backup w
       = (Raise (NameError "MediaIoBaseUpload"), w')
       /\ steps w2 w'
            (FilesGet file_id DEFAULT_FIELDS
             :: repeat (media_request file_id export_mime)
                  (S (List.length parts))))
    /\ (forall g created dup located parents moved,
          has_MediaIoBaseUpload g = true ->
          files_create svc (calls w2 + 2 + List.length parts)
            {| body_name := (fst (splitext name) ++ file_extension)%string;
               body_mimeType := None; body_parents := None |}
            (Some media) = inr created ->
          f_id created = Some dup ->
          dup <> ""%string ->
          files_get svc (calls w2 + 3 + List.length parts) file_id "parents"
          = inr located ->
          f_parents located = Some parents ->
          files_update svc (calls w2 + 4 + List.length parts) file_id backup
            (String.concat "," parents) = inr moved ->
          exists w',
            process_file g svc md file_id backup w = (Ret tt, w')
            /\ steps w2 w'
                 ((FilesGet file_id DEFAULT_FIELDS
                   :: repeat (media_request file_id export_mime)
                        (S (List.length parts)))
                  ++ [FilesCreate
                        {| body_name :=
                             (fst (splitext name) ++ file_extension)%string;
                           body_mimeType := None; body_parents := None |}
                        (Some media);
                      FilesGet file_id "parents";
                      FilesUpdate file_id backup
                        (String.concat "," parents)])).
Proof.
  intros svc md file_id backup name w rc w2 original export_mime
    file_extension parts last media Hname Hcopy Hrc Hget Hempty Hsel Hdown
    Hmedia.
  pose (w2p := snd (print CopyFailedTryingDownload w2)).
  assert (S2p : steps w2 w2p []) by apply steps_log.
  assert (C2p : calls w2p = calls w2) by reflexivity.
  assert (Hstart : forall g,
            process_file g svc md file_id backup w
            = (copied_file_id <- download_and_upload_file g svc file_id name ;;
               if negb (truthy copied_file_id) then
                 print (FailedToCopy file_id) ;; ret tt
               else move_file svc file_id backup ;; ret tt) w2p).
  { intro g. unfold process_file. rewrite Hname. cbn [getitem].
    rewrite bind_ret_l.
    rewrite (bind_Ret _ _ _
               (eq_refl : print (ProcessingFile name file_id) w
                          = (Ret tt, snd (print (ProcessingFile name file_id)
                                            w)))).
    rewrite (bind_Ret _ _ _ Hcopy), Hrc. cbn [negb].
    unfold bind at 1 2. cbn [print log]. rewrite bind_ret_l.
    reflexivity. }
  split.
  - destruct (@fallback_after_download module_globals svc file_id name w2p
                original export_mime file_extension parts last _ media
                Hget Hempty Hsel Hdown eq_refl Hmedia) as [Hunbound _].
    destruct (Hunbound eq_refl) as (w' & Hdl & S').
    exists w'. split; [| exact (steps_trans S2p S')].
    rewrite Hstart. apply (@bind_Raise _ _ _ _ _ _ _ Hdl).
  - intros g created dup located parents moved Hg Hcreate Hdup Hne Hparents
      Hsome Hupdate.
    destruct (@fallback_after_download g svc file_id name w2p
                original export_mime file_extension parts last _ media
                Hget Hempty Hsel Hdown eq_refl Hmedia) as [_ Hbound].
    destruct (Hbound Hg created Hcreate) as (w3 & Hdl & S3).
    assert (C3 : calls w3 = calls w2 + 3 + List.length parts).
    { destruct S3 as [C _]. rewrite C, C2p, length_app. cbn [List.length].
      rewrite repeat_length. lia. }
    destruct (@move_file_answered svc file_id backup w3 located parents moved)
      as (w4 & Hmoved & S4).
    { rewrite C3. exact Hparents. }
    { exact Hsome. }
    { rewrite C3.
      replace (S (calls w2 + 3 + List.length parts))
        with (calls w2 + 4 + List.length parts) by lia.
      exact Hupdate. }
    exists w4. split.
    + rewrite Hstart. rewrite (bind_Ret _ _ _ Hdl), Hdup.
      assert (Htruthy : truthy (Some dup) = true).
      { simpl. destruct (String.eqb_spec dup ""); [contradiction | reflexivity]. }
      rewrite Htruthy. cbn [negb]. rewrite (bind_Ret _ _ _ Hmoved).
      reflexivity.
    + pose proof (steps_trans S2p (steps_trans S3 S4)) as S.
      cbn [app] in S |- *. rewrite <- app_assoc in S. exact S.
Qed.

Lemma fallback_duplicate_and_relocation_witness :
  let w2 :=
    snd (copy_file service_copy_unavailable "F1" None
           (snd (print (ProcessingFile "notes.txt" "F1") initial_world))) in
  let media :=
    {| media_content := "data"; media_mimetype := Some "text/plain";
       media_resumable := true |} in
  (exists w',
     process_file module_globals service_copy_unavailable
       (resource "F1" "notes.txt" "text/plain") "F1" "BAK" initial_world
     = (Raise (NameError "MediaIoBaseUpload"), w')
     /\ steps w2 w' [FilesGet "F1" DEFAULT_FIELDS; GetMedia "F1"])
  /\ (exists w',
        process_file globals_with_upload service_copy_unavailable
          (resource "F1" "notes.txt" "text/plain") "F1" "BAK" initial_world
        = (Ret tt, w')
        /\ steps w2 w'
             [FilesGet "F1" DEFAULT_FIELDS; GetMedia "F1";
              FilesCreate
                {| body_name := "notes.txt"; body_mimeType := None;
                   body_parents := None |} (Some media);
              FilesGet "F1" "parents";
              FilesUpdate "F1" "BAK" "root"]).
Proof.
  intros w2 media.
  destruct (@fallback_duplicate_and_relocation service_copy_unavailable
              (resource "F1" "notes.txt" "text/plain") "F1" "BAK" "notes.txt"
              initial_world None w2
              (resource "F1" "notes.txt" "text/plain") None ".txt" [] "data"
              media eq_refl)
    as [Hscript Hbound]; try reflexivity.
  split; [exact Hscript |].
  apply (Hbound globals_with_upload (just_id "NEW") "NEW"
           (resource "F1" "notes.txt" "text/plain") ["root"] (just_id "F1"));
    try reflexivity.
  discriminate.
Defined.
